(** * Payment verification and idempotent ledger of the ai-backend service

    A shallow embedding of

    - [src/services/paypalService.ts]  (provider client and verifier),
    - the PayPal payment controller    ([recordPayPalPayment]),
    - [src/models/Payment.ts]          (payment collection, unique index),
    - [formatUser] of the auth service (balance normalisation on read),
    - the PayPal part of [config/env].

    JavaScript numbers are IEEE-754 binary64 values and are modelled by
    Rocq's primitive floats, which are the same format.  Strings are
    [String.string], holding the bytes of the UTF-8 encoding.  Logging
    calls have no effect on any value computed by the code and are left
    out.  An asynchronous function that may call itself for ever takes a
    [fuel] and is [Pending] when the fuel is used up; a handler is the
    tree of its [await]s, so that two handlers can be interleaved at
    their [await]s over one shared state. *)

From Stdlib Require Import ZArith List String Ascii Bool Lia.
From Stdlib Require Import Floats DecimalString QArith Qabs.
From stdpp Require Import gmap strings.

Import ListNotations.
Open Scope string_scope.
Open Scope Z_scope.

Set Warnings "-inexact-float".

(* ===================================================================== *)
(** * JavaScript numbers *)
(* ===================================================================== *)

Module Js.

(** A JavaScript [number]. *)
Abbreviation number := float.

(** [Number.isFinite(x)] for a value that already is a number. *)
Definition Number_isFinite (x : number) : bool := PrimFloat.is_finite x.

(** [Math.abs]. *)
Definition Math_abs (x : number) : number := PrimFloat.abs x.

(** The relational operators of JavaScript on numbers; every comparison
    with [NaN] is [false]. *)
Definition gt (x y : number) : bool := PrimFloat.ltb y x.
Definition le (x y : number) : bool := PrimFloat.leb x y.
Definition lt (x y : number) : bool := PrimFloat.ltb x y.

(** ** Decimal literals

    [roundRatio neg n d] is the binary64 value nearest to [n / d]
    (ties to even), for [0 <= n] and [0 < d]: the quotient is computed
    with at least 64 significant bits and the remainder is handed to the
    rounding of [SpecFloat] as a location. *)
Definition roundRatio (neg : bool) (n d : Z) : number :=
  if n =? 0 then (if neg then PrimFloat.neg_zero else PrimFloat.zero)
  else
    let s := Z.max 0 (64 + Z.log2 d - Z.log2 n) in
    let '(q, r) := Z.div_eucl (n * 2 ^ s) d in
    let loc := if r =? 0 then loc_Exact else loc_Inexact (2 * r ?= d) in
    SF2Prim (binary_round_aux prec emax neg q (- s) loc).

(** The value of the decimal literal [mant * 10 ^ exp10]. *)
Definition decimalValue (neg : bool) (mant exp10 : Z) : number :=
  if 0 <=? exp10 then roundRatio neg (mant * 10 ^ exp10) 1
  else roundRatio neg mant (10 ^ (- exp10)).

Definition isDigit (c : ascii) : bool :=
  let n := nat_of_ascii c in (48 <=? n)%nat && (n <=? 57)%nat.

Definition digitValue (c : ascii) : Z := Z.of_nat (nat_of_ascii c) - 48.

(** [StrWhiteSpaceChar].  A string is the sequence of the bytes of its
    UTF-8 encoding: TAB, LF, VT, FF, CR and SP are one byte; U+00A0 is
    two; U+1680, U+2000 to U+200A, U+2028, U+2029, U+202F, U+205F,
    U+3000 and U+FEFF are three. *)
Definition isWhiteSpace (c : ascii) : bool :=
  let n := nat_of_ascii c in
  ((9 <=? n)%nat && (n <=? 13)%nat) || (n =? 32)%nat.

Definition isWhiteSpace2 (c1 c2 : ascii) : bool :=
  (nat_of_ascii c1 =? 194)%nat && (nat_of_ascii c2 =? 160)%nat.

Definition isWhiteSpace3 (c1 c2 c3 : ascii) : bool :=
  let a := nat_of_ascii c1 in
  let b := nat_of_ascii c2 in
  let c := nat_of_ascii c3 in
  ((a =? 225)%nat && (b =? 154)%nat && (c =? 128)%nat)
  || ((a =? 226)%nat && (b =? 128)%nat
      && (((128 <=? c)%nat && (c <=? 138)%nat) || (c =? 168)%nat || (c =? 169)%nat
          || (c =? 175)%nat))
  || ((a =? 226)%nat && (b =? 129)%nat && (c =? 159)%nat)
  || ((a =? 227)%nat && (b =? 128)%nat && (c =? 128)%nat)
  || ((a =? 239)%nat && (b =? 187)%nat && (c =? 191)%nat).

Fixpoint skipWhiteSpace (cs : list ascii) : list ascii :=
  match cs with
  | [] => []
  | c1 :: cs1 =>
      if isWhiteSpace c1 then skipWhiteSpace cs1
      else
        match cs1 with
        | [] => cs
        | c2 :: cs2 =>
            if isWhiteSpace2 c1 c2 then skipWhiteSpace cs2
            else
              match cs2 with
              | [] => cs
              | c3 :: cs3 => if isWhiteSpace3 c1 c2 c3 then skipWhiteSpace cs3 else cs
              end
        end
  end.

(** [scanDigits acc n cs] reads the longest run of decimal digits at the
    head of [cs]: the accumulated value, the number of digits read, and
    the rest. *)
Fixpoint scanDigits (acc : Z) (n : nat) (cs : list ascii) : Z * nat * list ascii :=
  match cs with
  | c :: cs' => if isDigit c then scanDigits (10 * acc + digitValue c) (S n) cs'
                else (acc, n, cs)
  | [] => (acc, n, [])
  end.

Definition scanSign (cs : list ascii) : bool * list ascii :=
  match cs with
  | "-"%char :: cs' => (true, cs')
  | "+"%char :: cs' => (false, cs')
  | _ => (false, cs)
  end.

Fixpoint stripPrefix (p cs : list ascii) : option (list ascii) :=
  match p, cs with
  | [], _ => Some cs
  | a :: p', c :: cs' => if Ascii.eqb a c then stripPrefix p' cs' else None
  | _ :: _, [] => None
  end.

(** The optional [ExponentPart]: it is consumed only when at least one
    digit follows the [e] and its sign. *)
Definition scanExponent (cs : list ascii) : Z * list ascii :=
  match cs with
  | c :: cs' =>
      if Ascii.eqb c "e" || Ascii.eqb c "E" then
        let '(eneg, cs'') := scanSign cs' in
        let '(e, n, rest) := scanDigits 0 0 cs'' in
        match n with
        | O => (0, cs)
        | S _ => ((if eneg then - e else e), rest)
        end
      else (0, cs)
  | [] => (0, [])
  end.

(** The longest prefix of [cs] that is a [StrDecimalLiteral], with its
    value, and what follows it. *)
Definition scanDecimalLiteral (cs : list ascii) : option (number * list ascii) :=
  let '(neg, cs1) := scanSign cs in
  match stripPrefix (list_ascii_of_string "Infinity") cs1 with
  | Some rest => Some ((if neg then PrimFloat.neg_infinity else PrimFloat.infinity), rest)
  | None =>
      let '(ip, ni, cs2) := scanDigits 0 0 cs1 in
      let '(mant, nf, cs3) :=
        match cs2 with
        | "."%char :: cs2' =>
            let '(m, n, r) := scanDigits ip 0 cs2' in
            match ni, n with
            | O, O => (ip, O, cs2)
            | _, _ => (m, n, r)
            end
        | _ => (ip, O, cs2)
        end in
      match ni, nf, cs3 with
      | O, O, _ => None
      | _, _, _ =>
          let '(e, rest) := scanExponent cs3 in
          Some (decimalValue neg mant (e - Z.of_nat nf), rest)
      end
  end.

(** [parseFloat(s)]. *)
Definition parseFloat (s : string) : number :=
  match scanDecimalLiteral (skipWhiteSpace (list_ascii_of_string s)) with
  | Some (v, _) => v
  | None => PrimFloat.nan
  end.

(** The value of a digit in a radix of 2, 8 or 16, when it is one. *)
Definition radixDigit (radix : Z) (c : ascii) : option Z :=
  let n := Z.of_nat (nat_of_ascii c) in
  let v := if (48 <=? n) && (n <=? 57) then Some (n - 48)
           else if (97 <=? n) && (n <=? 102) then Some (n - 87)
           else if (65 <=? n) && (n <=? 70) then Some (n - 55)
           else None in
  match v with
  | Some d => if d <? radix then Some d else None
  | None => None
  end.

Fixpoint scanRadixDigits (radix acc : Z) (n : nat) (cs : list ascii) : Z * nat * list ascii :=
  match cs with
  | c :: cs' =>
      match radixDigit radix c with
      | Some d => scanRadixDigits radix (radix * acc + d) (S n) cs'
      | None => (acc, n, cs)
      end
  | [] => (acc, n, [])
  end.

(** The radix a [NonDecimalIntegerLiteral] announces, and its digits. *)
Definition radixPrefix (cs : list ascii) : option (Z * list ascii) :=
  match cs with
  | "0"%char :: c :: rest =>
      if Ascii.eqb c "x" || Ascii.eqb c "X" then Some (16, rest)
      else if Ascii.eqb c "o" || Ascii.eqb c "O" then Some (8, rest)
      else if Ascii.eqb c "b" || Ascii.eqb c "B" then Some (2, rest)
      else None
  | _ => None
  end.

(** The string case of [Number(s)] ([StringToNumber]): the whole trimmed
    string has to be one numeric literal, decimal or with a radix
    prefix, and the empty string is [+0]. *)
Definition StringToNumber (s : string) : number :=
  match skipWhiteSpace (list_ascii_of_string s) with
  | [] => PrimFloat.zero
  | cs =>
      match radixPrefix cs with
      | Some (radix, digits) =>
          let '(v, n, rest) := scanRadixDigits radix 0 0 digits in
          match n, skipWhiteSpace rest with
          | S _, [] => roundRatio false v 1
          | _, _ => PrimFloat.nan
          end
      | None =>
          match scanDecimalLiteral cs with
          | Some (v, rest) =>
              match skipWhiteSpace rest with
              | [] => v
              | _ => PrimFloat.nan
              end
          | None => PrimFloat.nan
          end
      end
  end.

(** The values a JSON request body can hold in a field.  An array or
    object carries the string its conversion to a primitive yields. *)
Inductive value : Type :=
| Undefined
| Null
| Boolean (b : bool)
| Num (x : number)
| Str (s : string)
| Object (primitive : string).

(** [Number(v)]. *)
Definition Number (v : value) : number :=
  match v with
  | Undefined => PrimFloat.nan
  | Null => PrimFloat.zero
  | Boolean b => if b then PrimFloat.one else PrimFloat.zero
  | Num x => x
  | Str s => StringToNumber s
  | Object p => StringToNumber p
  end.

(** [!v]. *)
Definition falsy (v : value) : bool :=
  match v with
  | Undefined | Null => true
  | Boolean b => negb b
  | Num x => PrimFloat.is_zero x || PrimFloat.is_nan x
  | Str s => String.eqb s ""
  | Object _ => false
  end.

(** [typeof v === 'string']. *)
Definition isString (v : value) : bool :=
  match v with Str _ => true | _ => false end.

End Js.

(* ===================================================================== *)
(** * Strings *)
(* ===================================================================== *)

(** [hay.includes(needle)]. *)
Fixpoint includes (needle hay : string) : bool :=
  String.prefix needle hay ||
  match hay with
  | EmptyString => false
  | String _ hay' => includes needle hay'
  end.

(** The decimal rendering of an HTTP status inside a template literal. *)
Definition showStatus (status : nat) : string :=
  NilEmpty.string_of_uint (Nat.to_uint status).

(** An optional string is truthy when it is present and not empty. *)
Definition truthy (o : option string) : bool :=
  match o with
  | Some s => negb (String.eqb s "")
  | None => false
  end.

(* ===================================================================== *)
(** * Configuration ([config/env], PayPal part) *)
(* ===================================================================== *)

Record Env : Type := {
  node : string;
  paypalClientId : option string;
  paypalClientSecret : option string;
  paypalUseSandbox : bool;
  paypalSkipVerification : bool
}.

(** The name of the environment used inside messages. *)
Definition environmentName (env : Env) : string :=
  if paypalUseSandbox env then "sandbox" else "production".

(* ===================================================================== *)
(** * Provider data ([paypalService.ts], interfaces) *)
(* ===================================================================== *)

Record PayPalAccessTokenResponse : Type := {
  access_token : string;
  token_type : string;
  expires_in : Z
}.

Inductive CaptureStatus : Type :=
| COMPLETED | PENDING | DECLINED | REFUNDED | PARTIALLY_REFUNDED.

Definition CaptureStatus_eqb (a b : CaptureStatus) : bool :=
  match a, b with
  | COMPLETED, COMPLETED | PENDING, PENDING | DECLINED, DECLINED
  | REFUNDED, REFUNDED | PARTIALLY_REFUNDED, PARTIALLY_REFUNDED => true
  | _, _ => false
  end.

Record CaptureAmount : Type := {
  currency_code : string;
  value : string
}.

Record PayPalCaptureDetails : Type := {
  capture_id : string;
  capture_status : CaptureStatus;
  amount : CaptureAmount
}.

Inductive OrderStatus : Type :=
| ORDER_CREATED | ORDER_SAVED | ORDER_APPROVED | ORDER_VOIDED | ORDER_COMPLETED.

Definition OrderStatus_eqb (a b : OrderStatus) : bool :=
  match a, b with
  | ORDER_CREATED, ORDER_CREATED | ORDER_SAVED, ORDER_SAVED
  | ORDER_APPROVED, ORDER_APPROVED | ORDER_VOIDED, ORDER_VOIDED
  | ORDER_COMPLETED, ORDER_COMPLETED => true
  | _, _ => false
  end.

Record PurchaseUnitPayments : Type := {
  captures : option (list PayPalCaptureDetails)
}.

Record PurchaseUnit : Type := {
  payments : option PurchaseUnitPayments
}.

Record PayPalOrderResponse : Type := {
  order_id : string;
  order_status : OrderStatus;
  purchase_units : list PurchaseUnit
}.

(** [orderDetails.purchase_units?.[0]?.payments?.captures]. *)
Definition orderCaptures (o : PayPalOrderResponse) : option (list PayPalCaptureDetails) :=
  match purchase_units o with
  | [] => None
  | u :: _ =>
      match payments u with
      | None => None
      | Some p => captures p
      end
  end.

(** What one [fetch] gives: a rejection (network failure) with the
    message of the error, a response whose [ok] is false with its status
    and the [name] field of its parsed body when there is one, or an [ok]
    response with its parsed JSON body. *)
Inductive FetchResult (A : Type) : Type :=
| Rejected (message : string)
| Failure (status : nat) (errorName : option string)
| Success (data : A).
Arguments Rejected {A} message.
Arguments Failure {A} status errorName.
Arguments Success {A} data.

(** The provider: what each endpoint answers to the [n]-th request the
    process sends (all endpoints counted together). *)
Record Provider : Type := {
  tokenEndpoint : nat -> string -> string -> FetchResult PayPalAccessTokenResponse;
  orderEndpoint : nat -> string -> string -> FetchResult PayPalOrderResponse;
  captureEndpoint : nat -> string -> string -> FetchResult PayPalCaptureDetails
}.

(** The process-wide state of the provider client: the token cache, the
    clock in milliseconds, the number of requests sent so far and the
    delays slept so far, latest last. *)
Record World : Type := {
  accessTokenCache : option (string * Z);
  now : Z;
  fetches : nat;
  sleeps : list Z
}.

Definition setCache (c : option (string * Z)) (w : World) : World :=
  {| accessTokenCache := c; now := now w; fetches := fetches w; sleeps := sleeps w |}.

Definition countFetch (w : World) : World :=
  {| accessTokenCache := accessTokenCache w; now := now w;
     fetches := S (fetches w); sleeps := sleeps w |}.

(** [await new Promise(resolve => setTimeout(resolve, delay))]. *)
Definition sleep (delay : Z) (w : World) : World :=
  {| accessTokenCache := accessTokenCache w; now := now w + delay;
     fetches := fetches w; sleeps := sleeps w ++ [delay] |}.

(** How an asynchronous call ends: it returns, it throws an [Error] with
    a message, or it is still pending when the fuel of the model is
    used up. *)
Inductive Outcome (A : Type) : Type :=
| Returned (a : A)
| Thrown (message : string)
| Pending.
Arguments Returned {A} a.
Arguments Thrown {A} message.
Arguments Pending {A}.

Definition maxRetries : nat := 3.

Definition retryDelay (retryCount : nat) : Z := 1000 * (Z.of_nat retryCount + 1).

Definition isServiceUnavailable (errorName : option string) : bool :=
  match errorName with
  | Some n => String.eqb n "SERVICE_UNAVAILABLE"
  | None => false
  end.

(** The test of the three [catch] blocks: a network error is one whose
    message mentions [fetch] or [network]. *)
Definition isNetworkError (message : string) : bool :=
  includes "fetch" message || includes "network" message.

(** The message of the error [verifyPayPalCapture] throws on a 404. *)
Definition captureNotFoundMessage (env : Env) (captureId : string) : string :=
  "PayPal capture not found (404). The capture ID " ++ captureId
  ++ " does not exist in the " ++ environmentName env
  ++ " environment. This usually means the frontend and backend are using different PayPal apps or accounts.".

Section ProviderClient.

Variable env : Env.
Variable provider : Provider.

(** [getAccessToken(retryCount)].  A recursive call is returned, not
    awaited, inside the [try]: what it throws is not caught again. *)
Fixpoint getAccessToken (fuel : nat) (retryCount : nat) (w : World)
  : Outcome string * World :=
  let cached :=
    match accessTokenCache w with
    | Some (token, expiresAt) => if now w <? expiresAt then Some token else None
    | None => None
    end in
  match cached with
  | Some token => (Returned token, w)
  | None =>
      if negb (truthy (paypalClientId env)) || negb (truthy (paypalClientSecret env)) then
        (Thrown "PayPal credentials not configured. Please set PAYPAL_CLIENT_ID and PAYPAL_CLIENT_SECRET.", w)
      else
        let retry (w' : World) :=
          match fuel with
          | O => (Pending, w')
          | S fuel' => getAccessToken fuel' (S retryCount) w'
          end in
        let catch (message : string) (w' : World) :=
          if (retryCount <? maxRetries)%nat && isNetworkError message then
            retry (sleep (retryDelay retryCount) w')
          else
            (Thrown ("Failed to authenticate with PayPal: " ++ message), w') in
        let clientId := default "" (paypalClientId env) in
        let clientSecret := default "" (paypalClientSecret env) in
        let w1 := countFetch w in
        match tokenEndpoint provider (fetches w) clientId clientSecret with
        | Rejected message => catch message w1
        | Failure status errorName =>
            if (status =? 503)%nat
               || (isServiceUnavailable errorName && (retryCount <? maxRetries)%nat) then
              retry (sleep (retryDelay retryCount) w1)
            else
              catch ("PayPal authentication failed: " ++ showStatus status
                     ++ ". Check that your PAYPAL_CLIENT_ID and PAYPAL_CLIENT_SECRET are correct and match the environment (sandbox/production).") w1
        | Success data =>
            (Returned (access_token data),
             setCache (Some (access_token data, now w1 + (expires_in data - 60) * 1000)) w1)
        end
  end.

(** [verifyPayPalOrder(orderId, retryCount)]. *)
Fixpoint verifyPayPalOrder (fuel : nat) (orderId : string) (retryCount : nat) (w : World)
  : Outcome PayPalOrderResponse * World :=
  match getAccessToken fuel 0 w with
  | (Pending, w0) => (Pending, w0)
  | (Thrown message, w0) => (Thrown message, w0)
  | (Returned token, w0) =>
      let retry (w' : World) :=
        match fuel with
        | O => (Pending, w')
        | S fuel' => verifyPayPalOrder fuel' orderId (S retryCount) w'
        end in
      let catch (message : string) (w' : World) :=
        if (retryCount <? maxRetries)%nat && isNetworkError message then
          retry (sleep (retryDelay retryCount) w')
        else
          (Thrown ("Failed to verify PayPal order: " ++ message), w') in
      let w1 := countFetch w0 in
      match orderEndpoint provider (fetches w0) token orderId with
      | Rejected message => catch message w1
      | Failure status errorName =>
          if ((status =? 503)%nat || isServiceUnavailable errorName)
             && (retryCount <? maxRetries)%nat then
            retry (sleep (retryDelay retryCount) w1)
          else if isServiceUnavailable errorName then
            catch "PayPal service is currently unavailable. Please try again in a few moments." w1
          else
            catch ("PayPal order verification failed: " ++ showStatus status) w1
      | Success data => (Returned data, w1)
      end
  end.

(** [verifyPayPalCapture(captureId, retryCount)]; its [catch] rethrows the
    error as it is. *)
Fixpoint verifyPayPalCapture (fuel : nat) (captureId : string) (retryCount : nat) (w : World)
  : Outcome PayPalCaptureDetails * World :=
  match getAccessToken fuel 0 w with
  | (Pending, w0) => (Pending, w0)
  | (Thrown message, w0) => (Thrown message, w0)
  | (Returned token, w0) =>
      let retry (w' : World) :=
        match fuel with
        | O => (Pending, w')
        | S fuel' => verifyPayPalCapture fuel' captureId (S retryCount) w'
        end in
      let catch (message : string) (w' : World) :=
        if (retryCount <? maxRetries)%nat && isNetworkError message then
          retry (sleep (retryDelay retryCount) w')
        else
          (Thrown message, w') in
      let w1 := countFetch w0 in
      match captureEndpoint provider (fetches w0) token captureId with
      | Rejected message => catch message w1
      | Failure status errorName =>
          if ((status =? 503)%nat || isServiceUnavailable errorName)
             && (retryCount <? maxRetries)%nat then
            retry (sleep (retryDelay retryCount) w1)
          else if (status =? 404)%nat then
            catch (captureNotFoundMessage env captureId) w1
          else if isServiceUnavailable errorName then
            catch "PayPal service is currently unavailable. Please try again in a few moments." w1
          else
            catch ("PayPal capture verification failed: " ++ showStatus status) w1
      | Success data => (Returned data, w1)
      end
  end.

End ProviderClient.

(* ===================================================================== *)
(** * Verifier ([verifyPayPalPayment]) *)
(* ===================================================================== *)

Record VerificationResult : Type := {
  verified : bool;
  captureDetails : option PayPalCaptureDetails;
  orderDetails : option PayPalOrderResponse
}.

(** The message of the error raised when the order lookup reports a
    missing resource, with and without a capture id. *)
Definition bothNotFoundMessage (captureId orderId : string) : string :=
  "Payment verification failed: Both capture (" ++ captureId ++ ") and order (" ++ orderId
  ++ ") not found in PayPal. This indicates an environment mismatch - the payment was created with different PayPal credentials than the server is using. Please ensure your frontend PayPal Client ID and backend PayPal credentials are from the same PayPal app and environment (both sandbox or both production).".

Definition orderNotFoundMessage (orderId : string) : string :=
  "Payment verification failed: Order (" ++ orderId
  ++ ") not found in PayPal. This may happen if the order was created in a different environment (sandbox vs production). Please ensure your PayPal credentials match the environment used for payment.".

Section Verifier.

Variable env : Env.
Variable provider : Provider.

(** The two checks both strategies apply to a completed capture: exact
    currency, and an amount not more than 0.01 away. *)
Definition currencyMismatch (c : PayPalCaptureDetails) (expectedCurrency : string) : bool :=
  negb (String.eqb (currency_code (amount c)) expectedCurrency).

Definition amountMismatch (c : PayPalCaptureDetails) (expectedAmount : Js.number) : bool :=
  let capturedAmount := Js.parseFloat (value (amount c)) in
  let amountDifference := Js.Math_abs (capturedAmount - expectedAmount)%float in
  Js.gt amountDifference 0.01%float.

(** Strategy 2 of [verifyPayPalPayment]: the order lookup, the first
    capture of the order, and the [catch] that renames a missing
    resource. *)
Definition verifyViaOrder (fuel : nat) (orderId : string) (expectedAmount : Js.number)
    (expectedCurrency : string) (captureId : option string) (w : World)
  : Outcome VerificationResult * World :=
  match verifyPayPalOrder env provider fuel orderId 0 w with
  | (Pending, w1) => (Pending, w1)
  | (Returned order, w1) =>
      if negb (OrderStatus_eqb (order_status order) ORDER_COMPLETED) then
        (Returned {| verified := false; captureDetails := None; orderDetails := Some order |}, w1)
      else
        match orderCaptures order with
        | None | Some [] =>
            (Returned {| verified := false; captureDetails := None; orderDetails := Some order |}, w1)
        | Some (capture :: _) =>
            if negb (CaptureStatus_eqb (capture_status capture) COMPLETED) then
              (Returned {| verified := false; captureDetails := Some capture;
                           orderDetails := Some order |}, w1)
            else if currencyMismatch capture expectedCurrency then
              (Returned {| verified := false; captureDetails := Some capture;
                           orderDetails := Some order |}, w1)
            else if amountMismatch capture expectedAmount then
              (Returned {| verified := false; captureDetails := Some capture;
                           orderDetails := Some order |}, w1)
            else
              (Returned {| verified := true; captureDetails := Some capture;
                           orderDetails := Some order |}, w1)
        end
  | (Thrown message, w1) =>
      let is404 := includes "404" message || includes "RESOURCE_NOT_FOUND" message in
      if is404 then
        (Thrown (if truthy captureId
                 then bothNotFoundMessage (default "" captureId) orderId
                 else orderNotFoundMessage orderId), w1)
      else (Thrown message, w1)
  end.

(** [verifyPayPalPayment(orderId, expectedAmount, expectedCurrency, captureId)]. *)
Definition verifyPayPalPayment (fuel : nat) (orderId : string) (expectedAmount : Js.number)
    (expectedCurrency : string) (captureId : option string) (w : World)
  : Outcome VerificationResult * World :=
  let strategy2 := verifyViaOrder fuel orderId expectedAmount expectedCurrency captureId in
  if truthy captureId then
    match verifyPayPalCapture env provider fuel (default "" captureId) 0 w with
    | (Pending, w1) => (Pending, w1)
    | (Returned capture, w1) =>
        if negb (CaptureStatus_eqb (capture_status capture) COMPLETED) then
          (Returned {| verified := false; captureDetails := Some capture;
                       orderDetails := None |}, w1)
        else if currencyMismatch capture expectedCurrency then
          (Returned {| verified := false; captureDetails := Some capture;
                       orderDetails := None |}, w1)
        else if amountMismatch capture expectedAmount then
          (Returned {| verified := false; captureDetails := Some capture;
                       orderDetails := None |}, w1)
        else
          (* the order is fetched for the log only; its failure is swallowed *)
          match verifyPayPalOrder env provider fuel orderId 0 w1 with
          | (Pending, w2) => (Pending, w2)
          | (Returned order, w2) =>
              (Returned {| verified := true; captureDetails := Some capture;
                           orderDetails := Some order |}, w2)
          | (Thrown _, w2) =>
              (Returned {| verified := true; captureDetails := Some capture;
                           orderDetails := None |}, w2)
          end
    | (Thrown _, w1) => strategy2 w1
    end
  else strategy2 w.

End Verifier.

(* ===================================================================== *)
(** * Stored data ([models/User], [models/Payment.ts]) *)
(* ===================================================================== *)

Module User.

(** The fields of a user document this subsystem reads or writes. *)
Record Doc : Type := {
  id : string;
  name : string;
  email : string;
  balance : Js.number
}.

Definition setBalance (b : Js.number) (u : Doc) : Doc :=
  {| id := id u; name := name u; email := email u; balance := b |}.

(** The user collection, by document id. *)
Abbreviation Collection := (gmap string Doc).

(** [UserModel.findById(id)]. *)
Definition findById (i : string) (users : Collection) : option Doc := users !! i.

(** [user.save()] of a loaded document whose only modified path is
    [balance]: the stored document gets that balance.  It fails when the
    document is no longer stored.

    Mongoose tracks changes: [balance] counts as modified when the value
    assigned to it differs from the one the document was loaded with,
    and a [save()] of an unmodified document sends nothing.  [save] is
    the update Mongoose sends for a modified [balance].  For an
    unmodified one it is still what happens as long as the stored
    balance is the loaded one, the value written being equal ([===]) to
    the value stored; where another write fell in between, the real
    store keeps that write and [save] does not say so (see
    [assignmentModifies]). *)
Definition save (u : Doc) (users : Collection) : option Collection :=
  match users !! id u with
  | Some stored => Some (<[id u := setBalance (balance u) stored]> users)
  | None => None
  end.

End User.

Module Payment.

Inductive PaymentStatus : Type := pending | completed | failed | refunded.
Inductive PaymentProvider : Type := paypal | stripe | manual.

Definition PaymentProvider_eqb (a b : PaymentProvider) : bool :=
  match a, b with
  | paypal, paypal | stripe, stripe | manual, manual => true
  | _, _ => false
  end.

Record Metadata : Type := {
  captureId : option string;
  orderId : string;
  verified : bool;
  verificationSkipped : bool;
  sandbox : bool;
  verifiedAt : Z
}.

Record Doc : Type := {
  user : string;
  provider : PaymentProvider;
  amount : Js.number;
  currency : string;
  status : PaymentStatus;
  externalId : option string;
  metadata : option Metadata
}.

(** The payment collection, oldest first. *)
Abbreviation Collection := (list Doc).

Definition externalId_eqb (a b : option string) : bool :=
  match a, b with
  | Some x, Some y => String.eqb x y
  | None, None => true
  | _, _ => false
  end.

(** The key of the index
    [PaymentSchema.index({ provider: 1, externalId: 1 }, { unique: true, sparse: true })];
    [provider] is required, so every document is in the index. *)
Definition sameKey (p q : Doc) : bool :=
  PaymentProvider_eqb (provider p) (provider q) && externalId_eqb (externalId p) (externalId q).

(** [PaymentModel.findOne({ externalId })]. *)
Definition findOne (ext : string) (payments : Collection) : option Doc :=
  List.find (fun p => externalId_eqb (externalId p) (Some ext)) payments.

(** [PaymentModel.create(doc)]: [None] is the duplicate-key error of the
    unique index (code 11000). *)
Definition create (p : Doc) (payments : Collection) : option Collection :=
  if List.existsb (sameKey p) payments then None else Some (payments ++ [p])%list.

(** No two stored payments share a key of the unique index. *)
Fixpoint uniqueKeys (payments : Collection) : bool :=
  match payments with
  | [] => true
  | p :: rest => negb (List.existsb (sameKey p) rest) && uniqueKeys rest
  end.

(** The stored payments of one provider and external id. *)
Definition recordsOf (pr : PaymentProvider) (ext : string) (payments : Collection) : list Doc :=
  List.filter (fun p => PaymentProvider_eqb (provider p) pr
                        && externalId_eqb (externalId p) (Some ext)) payments.

End Payment.

(** The whole state: both collections and the state of the provider
    client. *)
Record Sys : Type := {
  userStore : User.Collection;
  paymentStore : Payment.Collection;
  world : World
}.

(* ===================================================================== *)
(** * Balance normaliser *)
(* ===================================================================== *)

(** The test and the division both the controller and [formatUser]
    apply to a loaded balance. *)
Definition isLegacyBalance (b : Js.number) : bool := Js.gt b 1000%float.

Definition normalizedBalance (b : Js.number) : Js.number :=
  if isLegacyBalance b then (b / 1000)%float else b.

(** [const amountInPounds = parsedAmount / 1000]. *)
Definition amountInPounds (parsedAmount : Js.number) : Js.number :=
  (parsedAmount / 1000)%float.

Record AuthPayload : Type := {
  payload_id : string;
  payload_name : string;
  payload_email : string;
  payload_balance : Js.number
}.

(** [formatUser(user)] of the auth service: the payload it returns and
    the user collection after the [save] it starts (a failed save is
    only logged). *)
Definition formatUser (u : User.Doc) (users : User.Collection)
  : AuthPayload * User.Collection :=
  let balance := User.balance u in
  if Js.gt balance 1000%float then
    let balance := (balance / 1000)%float in
    let u' := User.setBalance balance u in
    ({| payload_id := User.id u; payload_name := User.name u;
        payload_email := User.email u; payload_balance := balance |},
     default users (User.save u' users))
  else
    ({| payload_id := User.id u; payload_name := User.name u;
        payload_email := User.email u; payload_balance := balance |},
     users).

(* ===================================================================== *)
(** * The payment controller ([recordPayPalPayment]) *)
(* ===================================================================== *)

(** The body of a JSON reply; absent fields are [None]. *)
Record JsonBody : Type := {
  json_message : option string;
  json_balance : option Js.number;
  json_error : option string;
  json_suggestion : option string;
  json_retryable : option bool
}.

Definition messageOnly (m : string) : JsonBody :=
  {| json_message := Some m; json_balance := None; json_error := None;
     json_suggestion := None; json_retryable := None |}.

Definition messageAndBalance (m : string) (b : Js.number) : JsonBody :=
  {| json_message := Some m; json_balance := Some b; json_error := None;
     json_suggestion := None; json_retryable := None |}.

(** How a request ends: [res.status(status).json(body)], [next(error)],
    or no reply while the verification is pending. *)
Inductive Reply : Type :=
| Json (status : nat) (body : JsonBody)
| Next (message : string)
| NoReply.

Record RequestBody : Type := {
  body_amount : Js.value;
  body_currency : option string;
  body_orderId : Js.value;
  body_captureId : option string
}.

Record AuthenticatedRequest : Type := {
  req_user : option string;
  req_body : RequestBody
}.

Inductive SaveResult : Type := Saved | SaveFailed (message : string).
Inductive CreateResult : Type := Created | CreateFailed (code : Z) (message : string).

(** The asynchronous calls of the controller; each is one [await]. *)
Inductive Op : Type -> Type :=
| UserModel_findById (id : string) : Op (option User.Doc)
| User_save (u : User.Doc) : Op SaveResult
| PaymentModel_findOne (externalId : string) : Op (option Payment.Doc)
| PaymentModel_create (doc : Z -> Payment.Doc) : Op CreateResult
| VerifyPayPalPayment (orderId : string) (expectedAmount : Js.number)
    (expectedCurrency : string) (captureId : option string)
  : Op (Outcome VerificationResult).

(** A handler as the tree of its [await]s. *)
Inductive Task (R : Type) : Type :=
| Done (r : R)
| Await (X : Type) (op : Op X) (k : X -> Task R).
Arguments Done {R} r.
Arguments Await {R X} op k.

Notation "x <- op ;; k" := (Await op (fun x => k))
  (at level 100, op at next level, right associativity).

Definition doubleQuote : string := String "034"%char EmptyString.

(** The reply to an error thrown by the verification
    (the [catch] around [verifyPayPalPayment]). *)
Definition verificationErrorReply (env : Env) (message : string) : Reply :=
  let devError := if String.eqb (node env) "development" then Some message else None in
  if includes "401" message || includes "NOT_AUTHORIZED" message
     || includes "insufficient permissions" message then
    Json 502
      {| json_message := Some
           ("PayPal verification failed due to insufficient permissions. Your PayPal app needs to have the following scopes enabled: "
            ++ doubleQuote ++ "https://uri.paypal.com/services/payments/realtimepayment" ++ doubleQuote
            ++ " and " ++ doubleQuote ++ "https://uri.paypal.com/services/payments/payment/read" ++ doubleQuote
            ++ ". Please check your PayPal app settings in the developer dashboard.");
         json_balance := None;
         json_error := devError;
         json_suggestion := Some "Go to https://developer.paypal.com/dashboard -> Your App -> Settings -> Advanced Options -> Enable the required scopes";
         json_retryable := None |}
  else if includes "SERVICE_UNAVAILABLE" message
          || includes "service is currently unavailable" message then
    Json 503
      {| json_message := Some "PayPal service is temporarily unavailable. This is usually a temporary issue with PayPal's servers. Please wait a moment and try again.";
         json_balance := None;
         json_error := devError;
         json_suggestion := None;
         json_retryable := Some true |}
  else
    let userMessage :=
      if includes "Order not found" message || includes "Both capture" message then
        "Payment verification failed: The payment could not be verified. This usually means the frontend and backend are using different PayPal apps or the app lacks required permissions. Please ensure both use the same PayPal app credentials and the app has payment read permissions enabled."
      else if includes "authentication" message then
        "PayPal authentication failed. Please check server configuration."
      else if includes "unavailable" message then
        "PayPal service is temporarily unavailable. Please try again in a few moments."
      else "Failed to verify payment with PayPal." in
    Json 502
      {| json_message := Some userMessage; json_balance := None; json_error := devError;
         json_suggestion := None; json_retryable := None |}.

(** [verificationResult.captureDetails?.id || captureId]. *)
Definition recordedCaptureId (vr : VerificationResult) (captureId : option string)
  : option string :=
  match captureDetails vr with
  | Some c => if String.eqb (capture_id c) EmptyString then captureId else Some (capture_id c)
  | None => captureId
  end.

(** [orderId] when it passes [!orderId || typeof orderId !== 'string']. *)
Definition acceptedOrderId (v : Js.value) : option string :=
  if Js.falsy v || negb (Js.isString v) then None
  else match v with
       | Js.Str s => Some s
       | _ => None
       end.

Section Controller.

Variable env : Env.

(** The payment document handed to [PaymentModel.create]. *)
Definition paymentDocument (user : User.Doc) (parsedAmount : Js.number) (currency : string)
    (orderId : string) (captureId : option string) (vr : VerificationResult) (time : Z)
  : Payment.Doc :=
  {| Payment.user := User.id user;
     Payment.provider := Payment.paypal;
     Payment.amount := parsedAmount;
     Payment.currency := currency;
     Payment.status := Payment.completed;
     Payment.externalId := Some orderId;
     Payment.metadata := Some
       {| Payment.captureId := recordedCaptureId vr captureId;
          Payment.orderId := orderId;
          Payment.verified := negb (paypalSkipVerification env);
          Payment.verificationSkipped := paypalSkipVerification env && paypalUseSandbox env;
          Payment.sandbox := paypalUseSandbox env;
          Payment.verifiedAt := time |} |}.

(** Lines 171-185: the credit.  The balance written is the balance of
    the document loaded at the start of the request plus the amount. *)
Definition creditBalance (user : User.Doc) (amountInPounds : Js.number) : Task Reply :=
  let user := User.setBalance (User.balance user + amountInPounds)%float user in
  saved <- User_save user ;;
  match saved with
  | Saved =>
      Done (Json 200 (messageAndBalance "Payment verified and balance updated successfully."
                                        (User.balance user)))
  | SaveFailed message => Done (Next message)
  end.

(** Lines 160-167: the reply to a duplicate-key error, with the balance
    read again ([updatedUser?.balance ?? user.balance]). *)
Definition alreadyProcessed (userId : string) (user : User.Doc) : Task Reply :=
  updatedUser <- UserModel_findById userId ;;
  Done (Json 200 (messageAndBalance "Payment already processed."
          (match updatedUser with
           | Some u => User.balance u
           | None => User.balance user
           end))).

(** Lines 139-169: the insert and the [catch] of the duplicate-key error. *)
Definition recordPayment (userId : string) (user : User.Doc) (parsedAmount : Js.number)
    (currency orderId : string) (captureId : option string) (vr : VerificationResult)
  : Task Reply :=
  created <- PaymentModel_create (paymentDocument user parsedAmount currency orderId captureId vr) ;;
  match created with
  | Created => creditBalance user (amountInPounds parsedAmount)
  | CreateFailed code message =>
      if code =? 11000 then alreadyProcessed userId user
      else Done (Next message)
  end.

(** Lines 52-137: the verification, or its omission in a sandbox. *)
Definition verifyAndRecord (userId : string) (user : User.Doc) (parsedAmount : Js.number)
    (currency orderId : string) (captureId : option string) : Task Reply :=
  if paypalSkipVerification env && paypalUseSandbox env then
    recordPayment userId user parsedAmount currency orderId captureId
      {| verified := true; captureDetails := None; orderDetails := None |}
  else
    outcome <- VerifyPayPalPayment orderId (amountInPounds parsedAmount) currency captureId ;;
    match outcome with
    | Pending => Done NoReply
    | Thrown message => Done (verificationErrorReply env message)
    | Returned vr =>
        if negb (verified vr) then
          Done (Json 402 (messageOnly "Payment verification failed. The payment was not completed successfully."))
        else recordPayment userId user parsedAmount currency orderId captureId vr
    end.

(** Lines 42-50: the lookup of an existing payment. *)
Definition checkExisting (userId : string) (user : User.Doc) (parsedAmount : Js.number)
    (currency orderId : string) (captureId : option string) : Task Reply :=
  existingPayment <- PaymentModel_findOne orderId ;;
  match existingPayment with
  | Some _ =>
      Done (Json 409 (messageAndBalance "This PayPal order has already been recorded."
                                        (User.balance user)))
  | None => verifyAndRecord userId user parsedAmount currency orderId captureId
  end.

(** Lines 31-40: the conversion of a balance in the old format. *)
Definition normalizeLoaded (userId : string) (user : User.Doc) (parsedAmount : Js.number)
    (currency orderId : string) (captureId : option string) : Task Reply :=
  if Js.gt (User.balance user) 1000%float then
    let user := User.setBalance (User.balance user / 1000)%float user in
    saved <- User_save user ;;
    match saved with
    | Saved => checkExisting userId user parsedAmount currency orderId captureId
    | SaveFailed message => Done (Next message)
    end
  else checkExisting userId user parsedAmount currency orderId captureId.

(** Lines 26-29: the user of the request is loaded. *)
Definition loadUser (userId : string) (parsedAmount : Js.number)
    (currency orderId : string) (captureId : option string) : Task Reply :=
  user <- UserModel_findById userId ;;
  match user with
  | None => Done (Json 404 (messageOnly "User not found"))
  | Some user => normalizeLoaded userId user parsedAmount currency orderId captureId
  end.

(** [recordPayPalPayment(req, res, next)]. *)
Definition recordPayPalPayment (req : AuthenticatedRequest) : Task Reply :=
  let amount := body_amount (req_body req) in
  let currency := default "GBP" (body_currency (req_body req)) in
  let orderId := body_orderId (req_body req) in
  let captureId := body_captureId (req_body req) in
  match req_user req with
  | None => Done (Json 401 (messageOnly "Unauthorized"))
  | Some userId =>
      let parsedAmount := Js.Number amount in
      if negb (Js.Number_isFinite parsedAmount) || Js.le parsedAmount 0%float then
        Done (Json 400 (messageOnly "A valid amount is required"))
      else
        match acceptedOrderId orderId with
        | None => Done (Json 400 (messageOnly "orderId is required"))
        | Some orderId => loadUser userId parsedAmount currency orderId captureId
        end
  end.

End Controller.

(* ===================================================================== *)
(** * Execution: one request alone, and two requests interleaved *)
(* ===================================================================== *)

Section Execution.

Variable env : Env.
Variable provider : Provider.
Variable fuel : nat.

Definition setUsers (us : User.Collection) (s : Sys) : Sys :=
  {| userStore := us; paymentStore := paymentStore s; world := world s |}.

Definition setPayments (ps : Payment.Collection) (s : Sys) : Sys :=
  {| userStore := userStore s; paymentStore := ps; world := world s |}.

Definition setWorld (w : World) (s : Sys) : Sys :=
  {| userStore := userStore s; paymentStore := paymentStore s; world := w |}.

(** What one [await] does to the state and what it gives back.  The
    verification is one step: it touches the state of the provider
    client only, never the two collections.  The time stamp of a payment
    is the clock at its insert. *)
Definition perform {X : Type} (op : Op X) (s : Sys) : X * Sys :=
  match op in Op X return X * Sys with
  | UserModel_findById i => (User.findById i (userStore s), s)
  | User_save u =>
      match User.save u (userStore s) with
      | Some us => (Saved, setUsers us s)
      | None => (SaveFailed "No document found for query", s)
      end
  | PaymentModel_findOne ext => (Payment.findOne ext (paymentStore s), s)
  | PaymentModel_create doc =>
      match Payment.create (doc (now (world s))) (paymentStore s) with
      | Some ps => (Created, setPayments ps s)
      | None => (CreateFailed 11000 "E11000 duplicate key error", s)
      end
  | VerifyPayPalPayment orderId expectedAmount expectedCurrency captureId =>
      let '(outcome, w) :=
        verifyPayPalPayment env provider fuel orderId expectedAmount expectedCurrency
                            captureId (world s) in
      (outcome, setWorld w s)
  end.

(** A request handled with nothing else running. *)
Fixpoint run {R : Type} (t : Task R) (s : Sys) : R * Sys :=
  match t with
  | Done r => (r, s)
  | Await op k => let '(x, s') := perform op s in run (k x) s'
  end.

(** One [await] of a handler; a finished handler stays as it is. *)
Definition step {R : Type} (t : Task R) (s : Sys) : Task R * Sys :=
  match t with
  | Done r => (Done r, s)
  | Await op k => let '(x, s') := perform op s in (k x, s')
  end.

(** Two handlers in flight: the schedule says which one performs its next
    [await] ([true] for the first). *)
Fixpoint interleave {R : Type} (schedule : list bool) (t1 t2 : Task R) (s : Sys)
  : Task R * Task R * Sys :=
  match schedule with
  | [] => (t1, t2, s)
  | true :: rest => let '(t1', s') := step t1 s in interleave rest t1' t2 s'
  | false :: rest => let '(t2', s') := step t2 s in interleave rest t1 t2' s'
  end.

End Execution.


(* ===================================================================== *)
(** * Definitions used to state the properties *)
(* ===================================================================== *)

(** The amount a request has to carry: a finite number above zero. *)
Definition isFinitePositive (x : Js.number) : bool := Js.Number_isFinite x && Js.gt x 0%float.

(** The status of the reply to a request the controller rejects before
    it loads anything: 401 without a user, 400 otherwise. *)
Definition rejectionStatus (req : AuthenticatedRequest) : nat :=
  match req_user req with
  | Some _ => 400%nat
  | None => 401%nat
  end.

(** ** Concrete settings used to run the code *)

Definition sandboxEnv : Env :=
  {| node := "production"; paypalClientId := Some "client"; paypalClientSecret := Some "secret";
     paypalUseSandbox := true; paypalSkipVerification := false |}.

Definition skippingEnv : Env :=
  {| node := "production"; paypalClientId := Some "client"; paypalClientSecret := Some "secret";
     paypalUseSandbox := true; paypalSkipVerification := true |}.

Definition freshWorld : World :=
  {| accessTokenCache := None; now := 0; fetches := 0; sleeps := [] |}.

(** A world holding a token that stays valid for an hour. *)
Definition tokenWorld : World :=
  {| accessTokenCache := Some ("T", 3600000); now := 0; fetches := 0; sleeps := [] |}.

Definition userWith (b : Js.number) : User.Doc :=
  {| User.id := "u1"; User.name := "Ada"; User.email := "ada@example.org"; User.balance := b |}.

Definition storeWith (b : Js.number) (ps : Payment.Collection) : Sys :=
  {| userStore := {[ "u1" := userWith b ]}; paymentStore := ps; world := tokenWorld |}.

Definition requestFor (amount : Js.value) (orderId : Js.value) (captureId : option string)
  : AuthenticatedRequest :=
  {| req_user := Some "u1";
     req_body := {| body_amount := amount; body_currency := Some "GBP";
                    body_orderId := orderId; body_captureId := captureId |} |}.

Definition tokenResponse : PayPalAccessTokenResponse :=
  {| access_token := "T"; token_type := "Bearer"; expires_in := 3600 |}.

Definition captureOf (st : CaptureStatus) (cur v : string) : PayPalCaptureDetails :=
  {| capture_id := "C1"; capture_status := st;
     amount := {| currency_code := cur; value := v |} |}.

Definition orderOf (st : OrderStatus) (cs : list PayPalCaptureDetails) : PayPalOrderResponse :=
  {| order_id := "O1"; order_status := st;
     purchase_units := [ {| payments := Some {| captures := Some cs |} |} ] |}.

(** A provider that answers every token request with a token and every
    lookup with the given answers. *)
Definition providerOf (c : FetchResult PayPalCaptureDetails) (o : FetchResult PayPalOrderResponse)
  : Provider :=
  {| tokenEndpoint := fun _ _ _ => Success tokenResponse;
     orderEndpoint := fun _ _ _ => o;
     captureEndpoint := fun _ _ _ => c |}.

(** A provider whose token endpoint answers 503 to every request. *)
Definition unavailableProvider : Provider :=
  {| tokenEndpoint := fun _ _ _ => Failure 503 None;
     orderEndpoint := fun _ _ _ => Failure 503 None;
     captureEndpoint := fun _ _ _ => Failure 503 None |}.

(** ** The verdict on a capture *)

(** The amount test of the code, written with [<=] in place of the
    code's "not [>]": the captured amount is the binary64 number
    [parseFloat] gives, the difference and the comparison with 0.01 are
    those of binary64.  It agrees with the code on every amount that
    parses to a number and differs from it on [NaN] alone; it is not the
    comparison of the amounts themselves, which is [toleranceOnAmounts]
    below. *)
Definition withinTolerance (c : PayPalCaptureDetails) (expectedAmount : Js.number) : bool :=
  Js.le (Js.Math_abs (Js.parseFloat (value (amount c)) - expectedAmount)%float) 0.01%float.

Definition captureAcceptable (c : PayPalCaptureDetails) (expectedAmount : Js.number)
    (expectedCurrency : string) : bool :=
  CaptureStatus_eqb (capture_status c) COMPLETED
  && String.eqb (currency_code (amount c)) expectedCurrency
  && withinTolerance c expectedAmount.

(** ** The tolerance on the amounts themselves

    The specification asks for captured and expected amount to differ
    by at most 0.01.  Read on the amounts, the captured amount is the
    decimal the provider reports and the expected amount the number the
    caller passes, both taken exactly. *)

(** The exact value of a number, when it is finite. *)
Definition exactNumber (x : Js.number) : option Q :=
  match Prim2SF x with
  | S754_zero _ => Some 0%Q
  | S754_finite s m e =>
      Some ((if s then inject_Z (Z.neg m) else inject_Z (Z.pos m)) * Qpower 2 e)%Q
  | _ => None
  end.

(** The exact value of a decimal such as ["20.01"]: an optional sign,
    digits, and optionally a point and more digits. *)
Definition exactDecimal (s : string) : option Q :=
  let '(neg, cs1) := Js.scanSign (list_ascii_of_string s) in
  let '(ip, ni, cs2) := Js.scanDigits 0 0 cs1 in
  let signed (n : Z) := if neg then - n else n in
  match ni, cs2 with
  | S _, [] => Some (inject_Z (signed ip))
  | S _, "."%char :: cs3 =>
      let '(m, nf, rest) := Js.scanDigits ip 0 cs3 in
      match nf, rest with
      | S _, [] => Some (inject_Z (signed m) / inject_Z (10 ^ Z.of_nat nf))%Q
      | _, _ => None
      end
  | _, _ => None
  end.

(** [|captured - expected| <= 0.01], on the exact amounts. *)
Definition toleranceOnAmounts (c : PayPalCaptureDetails) (expectedAmount : Js.number) : bool :=
  match exactDecimal (value (amount c)), exactNumber expectedAmount with
  | Some captured, Some expected => Qle_bool (Qabs (captured - expected)) (1 # 100)
  | _, _ => false
  end.

(** What the specification asks of a capture, read on the amounts. *)
Definition acceptableOnAmounts (c : PayPalCaptureDetails) (expectedAmount : Js.number)
    (expectedCurrency : string) : bool :=
  CaptureStatus_eqb (capture_status c) COMPLETED
  && String.eqb (currency_code (amount c)) expectedCurrency
  && toleranceOnAmounts c expectedAmount.

(** What the code asks of a capture: none of its three tests fires. *)
Definition capturePasses (c : PayPalCaptureDetails) (expectedAmount : Js.number)
    (expectedCurrency : string) : bool :=
  CaptureStatus_eqb (capture_status c) COMPLETED
  && negb (currencyMismatch c expectedCurrency)
  && negb (amountMismatch c expectedAmount).

(** The result both strategies build from an outcome of the order lookup
    that is not pending. *)
Definition orderOfOutcome (o : Outcome PayPalOrderResponse) : option PayPalOrderResponse :=
  match o with
  | Returned order => Some order
  | _ => None
  end.

Definition isPending {A : Type} (o : Outcome A) : bool :=
  match o with
  | Pending => true
  | _ => false
  end.

(** The messages of the errors the token exchange and the order lookup
    can throw: the missing-credentials message, or a message behind one
    of the two prefixes their [catch] blocks put in front. *)
Definition isProviderErrorMessage (m : string) : Prop :=
  m = "PayPal credentials not configured. Please set PAYPAL_CLIENT_ID and PAYPAL_CLIENT_SECRET."
  \/ (exists m', m = "Failed to authenticate with PayPal: " ++ m')
  \/ (exists m', m = "Failed to verify PayPal order: " ++ m').

(** ** Change tracking

    Mongoose marks [balance] modified, and sends it with the next
    [save()], when the value assigned differs from the loaded one (it
    compares with [===]) and is a number it can cast ([NaN] is not). *)
Definition assignmentModifies (loaded assigned : Js.number) : bool :=
  negb (PrimFloat.eqb assigned loaded) && negb (PrimFloat.is_nan assigned).

(** ** Lookups that are answered 404 *)

(** A capture endpoint that answers every request with status 404,
    whatever the error body is named. *)
Definition captureNotFound (provider : Provider) : Prop :=
  forall (n : nat) (token captureId : string),
    exists errorName, captureEndpoint provider n token captureId = Failure 404 errorName.

(** An order endpoint that answers every request with status 404 and an
    error body not named [SERVICE_UNAVAILABLE]. *)
Definition orderNotFound (provider : Provider) : Prop :=
  forall (n : nat) (token orderId : string),
    exists errorName,
      orderEndpoint provider n token orderId = Failure 404 errorName
      /\ isServiceUnavailable errorName = false.

(** The test [verifyPayPalPayment] applies to the message of the error
    of the order lookup. *)
Definition readsAsNotFound (message : string) : bool :=
  includes "404" message || includes "RESOURCE_NOT_FOUND" message.

(** ** Retries *)

(** The world after [n] rounds of "request, then sleep [retryDelay]",
    the first of them with the given retry count. *)
Fixpoint retried (n retryCount : nat) (w : World) : World :=
  match n with
  | O => w
  | S n' => retried n' (S retryCount) (sleep (retryDelay retryCount) (countFetch w))
  end.

(** The delays of [n] retries in a row, from the given retry count on. *)
Definition backoff (retryCount n : nat) : list Z := List.map retryDelay (List.seq retryCount n).

(** A provider whose token endpoint always hands out a token. *)
Definition tokenAlwaysGranted (provider : Provider) : Prop :=
  forall (n : nat) (clientId clientSecret : string),
    exists data, tokenEndpoint provider n clientId clientSecret = Success data.

(** Both credentials are configured. *)
Definition credentialsConfigured (env : Env) : bool :=
  truthy (paypalClientId env) && truthy (paypalClientSecret env).

(** ** Replies *)

(** A reply is a success when it is a JSON reply with a 2xx status. *)
Definition isSuccess (r : Reply) : bool :=
  match r with
  | Json status _ => (200 <=? status)%nat && (status <? 300)%nat
  | _ => false
  end.

(** The payment a verified submission of order [oid] leaves behind. *)
Definition recordedPayment (oid : string) : Payment.Doc :=
  paymentDocument sandboxEnv (userWith 10%float) 5000%float "GBP" oid None
    {| verified := true; captureDetails := None; orderDetails := None |} 0.

(** ** Handlers in flight *)

(** A handler that ends after at most [n] more [await]s, whatever they
    give back. *)
Fixpoint endsWithin {R : Type} (n : nat) (t : Task R) {struct t} : Prop :=
  match t with
  | Done _ => True
  | Await _ k =>
      match n with
      | O => False
      | S n' => forall x, endsWithin n' (k x)
      end
  end.

Definition isDone {R : Type} (t : Task R) : bool :=
  match t with
  | Done _ => true
  | Await _ _ => false
  end.

(** The number of steps a schedule gives to the first and to the second
    handler. *)
Definition turns (who : bool) (schedule : list bool) : nat :=
  List.length (List.filter (Bool.eqb who) schedule).

(** Every stored user sits under its own id. *)
Definition wellKeyed (users : User.Collection) : Prop :=
  forall (k : string) (d : User.Doc), users !! k = Some d -> User.id d = k.

(** The three replies to a submission that was verified or found
    recorded. *)
Definition creditedReply (balance : Js.number) : Reply :=
  Json 200 (messageAndBalance "Payment verified and balance updated successfully." balance).

Definition conflictReply (balance : Js.number) : Reply :=
  Json 409 (messageAndBalance "This PayPal order has already been recorded." balance).

Definition processedReply (balance : Js.number) : Reply :=
  Json 200 (messageAndBalance "Payment already processed." balance).

Section TwoSubmissionsModel.

Variable env : Env.
Variable userId : string.
Variable u0 : User.Doc.
Variable pa : Js.number.
Variable cur oid : string.
Variable cid : option string.
Variable users0 : User.Collection.
Variable payments0 : Payment.Collection.

(** The user document once the amount has been added. *)
Definition creditedUser : User.Doc :=
  User.setBalance (User.balance u0 + amountInPounds pa)%float u0.

(** The replies of a handler whose verification did not say "verified". *)
Definition isUnverifiedReply (r : Reply) : Prop :=
  r = NoReply
  \/ (exists m, r = verificationErrorReply env m)
  \/ r = Json 402 (messageOnly "Payment verification failed. The payment was not completed successfully.").

(** How far the submission of the order has got in the store: nothing
    recorded, the payment inserted but the balance not yet written, or
    both done. *)
Inductive Ledger : Type := Unrecorded | Recorded | Credited.

Definition ledgerState (l : Ledger) (s : Sys) : Prop :=
  match l with
  | Unrecorded => userStore s = users0 /\ paymentStore s = payments0
  | Recorded =>
      userStore s = users0
      /\ exists vr time,
          paymentStore s = (payments0 ++ [paymentDocument env u0 pa cur oid cid vr time])%list
  | Credited =>
      userStore s = <[userId := creditedUser]> users0
      /\ exists vr time,
          paymentStore s = (payments0 ++ [paymentDocument env u0 pa cur oid cid vr time])%list
  end.

(** The balances a handler can have read: before or after the credit. *)
Definition readBalance (l : Ledger) (x : Js.number) : Prop :=
  x = User.balance u0 \/ (l = Credited /\ x = (User.balance u0 + amountInPounds pa)%float).

(** A handler of the submission that has not inserted the payment. *)
Inductive Bystander (l : Ledger) : Task Reply -> Prop :=
| by_load : Bystander l (loadUser env userId pa cur oid cid)
| by_check : Bystander l (checkExisting env userId u0 pa cur oid cid)
| by_check_late :
    l = Credited -> Bystander l (checkExisting env userId creditedUser pa cur oid cid)
| by_verify : Bystander l (verifyAndRecord env userId u0 pa cur oid cid)
| by_insert (vr : VerificationResult) :
    Bystander l (recordPayment env userId u0 pa cur oid cid vr)
| by_reread : l <> Unrecorded -> Bystander l (alreadyProcessed userId u0)
| by_unverified (r : Reply) : isUnverifiedReply r -> Bystander l (Done r)
| by_conflict (x : Js.number) :
    l <> Unrecorded -> readBalance l x -> Bystander l (Done (conflictReply x))
| by_processed (x : Js.number) :
    l <> Unrecorded -> readBalance l x -> Bystander l (Done (processedReply x)).

(** The handler that has inserted the payment. *)
Inductive Winner : Ledger -> Task Reply -> Prop :=
| win_credit : Winner Recorded (creditBalance u0 (amountInPounds pa))
| win_done : Winner Credited
               (Done (creditedReply (User.balance u0 + amountInPounds pa)%float)).

(** Two handlers of the same submission and the store between them. *)
Definition inFlight (t1 t2 : Task Reply) (s : Sys) : Prop :=
  (ledgerState Unrecorded s /\ Bystander Unrecorded t1 /\ Bystander Unrecorded t2)
  \/ (exists l, l <> Unrecorded /\ ledgerState l s
                /\ ((Winner l t1 /\ Bystander l t2) \/ (Bystander l t1 /\ Winner l t2))).

(** What two finished handlers of the same submission leave: either
    neither was verified and nothing changed, or one of them credited
    the balance once and the other was not verified or answered as a
    duplicate, with the balance it read. *)
Definition settledOnce (r1 r2 : Reply) (s : Sys) : Prop :=
  (isUnverifiedReply r1 /\ isUnverifiedReply r2 /\ ledgerState Unrecorded s)
  \/ (ledgerState Credited s
      /\ exists r,
          ((r1 = creditedReply (User.balance u0 + amountInPounds pa)%float /\ r2 = r)
           \/ (r2 = creditedReply (User.balance u0 + amountInPounds pa)%float /\ r1 = r))
          /\ (isUnverifiedReply r
              \/ exists x, readBalance Credited x
                           /\ (r = conflictReply x \/ r = processedReply x))).

End TwoSubmissionsModel.

(** What a run that ends with the credited reply has left behind: the
    user with the balance of the reply, and a payment of the order. *)
Definition leftBehind (userId oid : string) (b1 : Js.number) (s1 : Sys) : Prop :=
  (exists u1, userStore s1 !! userId = Some u1 /\ User.id u1 = userId
              /\ User.balance u1 = b1)
  /\ exists p, Payment.findOne oid (paymentStore s1) = Some p.

(** The stored balance of a user, when the user is stored. *)
Definition storedBalance (userId : string) (s : Sys) : option Js.number :=
  User.balance <$> (userStore s !! userId).

(** A schedule that gives each of two handlers six turns in alternation. *)
Definition alternating : list bool :=
  [true; false; true; false; true; false; true; false; true; false; true; false].

(* ===================================================================== *)
(** * Further definitions: the provider client seen from outside *)
(* ===================================================================== *)

(** The token the cache of a world serves, when it serves one. *)
Definition cachedToken (w : World) : option string :=
  match accessTokenCache w with
  | Some (token, expiresAt) => if now w <? expiresAt then Some token else None
  | None => None
  end.

Definition credentialsMessage : string :=
  "PayPal credentials not configured. Please set PAYPAL_CLIENT_ID and PAYPAL_CLIENT_SECRET.".

(** A token endpoint that never answers with status 503. *)
Definition neverAnswers503 (provider : Provider) : Prop :=
  forall (n : nat) (clientId clientSecret : string) (status : nat) (errorName : option string),
    tokenEndpoint provider n clientId clientSecret = Failure status errorName ->
    status <> 503%nat.

(** The verdict the order strategy reaches on an order it has fetched. *)
Definition orderVerdict (order : PayPalOrderResponse) (expectedAmount : Js.number)
    (expectedCurrency : string) : VerificationResult :=
  match OrderStatus_eqb (order_status order) ORDER_COMPLETED, orderCaptures order with
  | true, Some (capture :: _) =>
      {| verified := capturePasses capture expectedAmount expectedCurrency;
         captureDetails := Some capture; orderDetails := Some order |}
  | _, _ => {| verified := false; captureDetails := None; orderDetails := Some order |}
  end.

(** The verdict a result has to carry for the capture it names. *)
Definition verdictMatchesCapture (r : VerificationResult) (expectedAmount : Js.number)
    (expectedCurrency : string) : Prop :=
  match captureDetails r with
  | Some capture => verified r = capturePasses capture expectedAmount expectedCurrency
  | None => verified r = false
  end.

(** A provider that hands out tokens and answers every lookup with the
    plain status 503. *)
Definition busyProvider : Provider := providerOf (Failure 503 None) (Failure 503 None).

(** A provider none of whose requests gets through. *)
Definition offlineProvider : Provider :=
  {| tokenEndpoint := fun _ _ _ => Rejected "fetch failed";
     orderEndpoint := fun _ _ _ => Rejected "fetch failed";
     captureEndpoint := fun _ _ _ => Rejected "fetch failed" |}.

(** The delays a lookup may add when it starts with the given retry
    count: three for each token exchange, one for each of its own
    retries. *)
Definition lookupBudget (retryCount : nat) : nat :=
  (maxRetries + (maxRetries + 1) * (maxRetries - retryCount))%nat.

(* ===================================================================== *)
(** * Further definitions: what a submission does to the store *)
(* ===================================================================== *)

(** What stands behind a credit: the verification was configured away
    in a sandbox, or the verifier returned a verified result. *)
Definition creditBackedBy (env : Env) (provider : Provider) (fuel : nat)
    (parsedAmount : Js.number) (currency orderId : string) (captureId : option string)
    (vr : VerificationResult) (w w1 : World) : Prop :=
  if paypalSkipVerification env && paypalUseSandbox env then
    vr = {| verified := true; captureDetails := None; orderDetails := None |} /\ w1 = w
  else
    verifyPayPalPayment env provider fuel orderId (amountInPounds parsedAmount) currency
                        captureId w = (Returned vr, w1)
    /\ verified vr = true.

Definition notCredited (r : Reply) : Prop := forall b : Js.number, r <> creditedReply b.

(** The store is as it was, but for the conversion of the balance of the
    user of the request. *)
Definition sameUpToConversion (user : option string) (s s1 : Sys) : Prop :=
  paymentStore s1 = paymentStore s
  /\ (userStore s1 = userStore s
      \/ exists (userId : string) (u : User.Doc),
           user = Some userId /\ userStore s !! userId = Some u
           /\ isLegacyBalance (User.balance u) = true
           /\ userStore s1
              = <[userId := User.setBalance (User.balance u / 1000)%float u]> (userStore s)).

(** The submission was credited, once: the reply carries the converted
    balance plus the amount in pounds, that balance is stored for the
    user, and one payment of the order has been appended. *)
Definition creditedOnce (env : Env) (provider : Provider) (fuel : nat)
    (req : AuthenticatedRequest) (s : Sys) (r : Reply) (s1 : Sys) : Prop :=
  let parsedAmount := Js.Number (body_amount (req_body req)) in
  let currency := default "GBP" (body_currency (req_body req)) in
  let captureId := body_captureId (req_body req) in
  exists (userId : string) (u : User.Doc) (orderId : string) (vr : VerificationResult),
    let credited :=
      (normalizedBalance (User.balance u) + amountInPounds parsedAmount)%float in
    req_user req = Some userId
    /\ userStore s !! userId = Some u
    /\ isFinitePositive parsedAmount = true
    /\ body_orderId (req_body req) = Js.Str orderId
    /\ Payment.findOne orderId (paymentStore s) = None
    /\ creditBackedBy env provider fuel parsedAmount currency orderId captureId vr
                      (world s) (world s1)
    /\ r = creditedReply credited
    /\ userStore s1 = <[userId := User.setBalance credited u]> (userStore s)
    /\ paymentStore s1
       = (paymentStore s
          ++ [paymentDocument env u parsedAmount currency orderId captureId vr
                              (now (world s1))])%list.

(** ** A provider whose order endpoint is out of service *)

(** The two ways the provider signals an outage: the plain status 503,
    or an error body named [SERVICE_UNAVAILABLE]. *)
Definition outageSignal (named : bool) : option string :=
  if named then Some "SERVICE_UNAVAILABLE" else None.

Definition orderOutage (named : bool) (provider : Provider) : Prop :=
  forall (n : nat) (token orderId : string),
    orderEndpoint provider n token orderId = Failure 503 (outageSignal named).

(** The message the order lookup ends with in each case. *)
Definition outageMessage (named : bool) : string :=
  if named
  then "Failed to verify PayPal order: PayPal service is currently unavailable. Please try again in a few moments."
  else "Failed to verify PayPal order: PayPal order verification failed: 503".

(** The reply of the controller in each case. *)
Definition outageReply (env : Env) (named : bool) : Reply :=
  let devError :=
    if String.eqb (node env) "development" then Some (outageMessage named) else None in
  if named then
    Json 503
      {| json_message := Some "PayPal service is temporarily unavailable. This is usually a temporary issue with PayPal's servers. Please wait a moment and try again.";
         json_balance := None; json_error := devError; json_suggestion := None;
         json_retryable := Some true |}
  else
    Json 502
      {| json_message := Some "Failed to verify payment with PayPal."; json_balance := None;
         json_error := devError; json_suggestion := None; json_retryable := None |}.

Definition outageProvider (named : bool) : Provider :=
  providerOf (Failure 500 None) (Failure 503 (outageSignal named)).

(* ===================================================================== *)
(** * The generation controller ([createGenerationController]) *)
(* ===================================================================== *)

(** [v === s] for a string literal [s]. *)
Definition strictEqualsString (v : Js.value) (s : string) : bool :=
  match v with
  | Js.Str t => String.eqb t s
  | _ => false
  end.

(** [v || d]. *)
Definition orElse (v d : Js.value) : Js.value := if Js.falsy v then d else v.

(** How a call of another module ends: it returns or it throws. *)
Inductive Settled (A : Type) : Type :=
| Resolved (a : A)
| Threw (message : string).
Arguments Resolved {A} a.
Arguments Threw {A} message.

Module Generation.

(** The fields of an [UploadResult] the controller reads. *)
Record UploadResult : Type := {
  publicId : string;
  secureUrl : string
}.

Record ImageWithThumbnail : Type := {
  image : UploadResult;
  thumbnail : UploadResult
}.

(** [req.body], field by field. *)
Record Body : Type := {
  body_mediaType : Js.value;
  body_name : Js.value;
  body_prompt : Js.value;
  body_sourceParts : Js.value;
  body_quality : Js.value;
  body_base64 : Js.value;
  body_mimeType : Js.value;
  body_thumbnailBase64 : Js.value;
  body_videoUrl : Js.value;
  body_videoModel : Js.value;
  body_aspectRatio : Js.value;
  body_resolution : Js.value;
  body_cost : Js.value
}.

(** The object handed to [new GenerationModel(...)]. *)
Record Doc : Type := {
  user : string;
  mediaType : Js.value;
  name : Js.value;
  prompt : Js.value;
  sourceParts : Js.value;
  quality : Js.value;
  imageUrl : option string;
  thumbnailUrl : option string;
  videoUrl : Js.value;
  cloudinaryPublicId : option string;
  cloudinaryThumbnailPublicId : option string;
  base64 : Js.value;
  mimeType : Js.value;
  thumbnailBase64 : Js.value;
  videoModel : Js.value;
  aspectRatio : Js.value;
  resolution : Js.value;
  cost : Js.value
}.

(** The modules the controller calls, as parameters: the three upload
    functions of the Cloudinary service, with the arguments the
    controller varies, and [generation.save()], which gives the id of
    the stored document. *)
Record Services : Type := {
  uploadImageWithThumbnail : Js.value -> Settled ImageWithThumbnail;
  uploadVideo : Js.value -> Js.value -> Settled UploadResult;
  uploadImage : Js.value -> string -> Settled UploadResult;
  generationSave : Doc -> Settled string
}.

(** The local variables the upload block assigns. *)
Record Uploaded : Type := {
  up_imageUrl : option string;
  up_thumbnailUrl : option string;
  up_cloudinaryPublicId : option string;
  up_cloudinaryThumbnailPublicId : option string;
  up_finalVideoUrl : Js.value
}.

Inductive Call : Type :=
| CalledUploadImageWithThumbnail (data : Js.value)
| CalledUploadVideo (data mimeType : Js.value)
| CalledUploadImage (data : Js.value) (folder : string)
| CalledGenerationSave (doc : Doc).

(** The users, and the calls made to the other modules, latest last. *)
Record State : Type := {
  users : User.Collection;
  calls : list Call
}.

(** How the request ends: [res.status(status).json({ message })], the
    201 reply with the id of the generation, or [next(error)]. *)
Inductive Reply : Type :=
| Json (status : nat) (message : string)
| Created (id : string)
| Next.

End Generation.

Section GenerationController.

Variable services : Generation.Services.

(** Lines 87-128: the uploads and the [catch] around them.  An
    assignment made before a later upload throws stays. *)
Definition uploadMedia (body : Generation.Body) : Generation.Uploaded * list Generation.Call :=
  let mediaType := Generation.body_mediaType body in
  let base64 := Generation.body_base64 body in
  let thumbnailBase64 := Generation.body_thumbnailBase64 body in
  let videoUrl := Generation.body_videoUrl body in
  let start :=
    {| Generation.up_imageUrl := None; Generation.up_thumbnailUrl := None;
       Generation.up_cloudinaryPublicId := None;
       Generation.up_cloudinaryThumbnailPublicId := None;
       Generation.up_finalVideoUrl := videoUrl |} in
  if strictEqualsString mediaType "image" && negb (Js.falsy base64) then
    match Generation.uploadImageWithThumbnail services base64 with
    | Resolved uploadResult =>
        ({| Generation.up_imageUrl :=
              Some (Generation.secureUrl (Generation.image uploadResult));
            Generation.up_thumbnailUrl :=
              Some (Generation.secureUrl (Generation.thumbnail uploadResult));
            Generation.up_cloudinaryPublicId :=
              Some (Generation.publicId (Generation.image uploadResult));
            Generation.up_cloudinaryThumbnailPublicId :=
              Some (Generation.publicId (Generation.image uploadResult));
            Generation.up_finalVideoUrl := videoUrl |},
         [Generation.CalledUploadImageWithThumbnail base64])
    | Threw _ => (start, [Generation.CalledUploadImageWithThumbnail base64])
    end
  else if strictEqualsString mediaType "video" && negb (Js.falsy base64) then
    let mimeType := orElse (Generation.body_mimeType body) (Js.Str "video/mp4") in
    match Generation.uploadVideo services base64 mimeType with
    | Resolved uploadResult =>
        let video :=
          {| Generation.up_imageUrl := None; Generation.up_thumbnailUrl := None;
             Generation.up_cloudinaryPublicId := Some (Generation.publicId uploadResult);
             Generation.up_cloudinaryThumbnailPublicId := None;
             Generation.up_finalVideoUrl := Js.Str (Generation.secureUrl uploadResult) |} in
        if negb (Js.falsy thumbnailBase64) then
          match Generation.uploadImage services thumbnailBase64 "generations/thumbnails" with
          | Resolved thumbResult =>
              ({| Generation.up_imageUrl := None;
                  Generation.up_thumbnailUrl := Some (Generation.secureUrl thumbResult);
                  Generation.up_cloudinaryPublicId := Some (Generation.publicId uploadResult);
                  Generation.up_cloudinaryThumbnailPublicId :=
                    Some (Generation.publicId thumbResult);
                  Generation.up_finalVideoUrl := Js.Str (Generation.secureUrl uploadResult) |},
               [Generation.CalledUploadVideo base64 mimeType;
                Generation.CalledUploadImage thumbnailBase64 "generations/thumbnails"])
          | Threw _ =>
              (video,
               [Generation.CalledUploadVideo base64 mimeType;
                Generation.CalledUploadImage thumbnailBase64 "generations/thumbnails"])
          end
        else (video, [Generation.CalledUploadVideo base64 mimeType])
    | Threw _ => (start, [Generation.CalledUploadVideo base64 mimeType])
    end
  else if strictEqualsString mediaType "video" && negb (Js.falsy videoUrl)
          && negb (Js.falsy thumbnailBase64) then
    match Generation.uploadImage services thumbnailBase64 "generations/thumbnails" with
    | Resolved thumbResult =>
        ({| Generation.up_imageUrl := None;
            Generation.up_thumbnailUrl := Some (Generation.secureUrl thumbResult);
            Generation.up_cloudinaryPublicId := None;
            Generation.up_cloudinaryThumbnailPublicId := Some (Generation.publicId thumbResult);
            Generation.up_finalVideoUrl := videoUrl |},
         [Generation.CalledUploadImage thumbnailBase64 "generations/thumbnails"])
    | Threw _ => (start, [Generation.CalledUploadImage thumbnailBase64 "generations/thumbnails"])
    end
  else (start, []).

(** Lines 131-151: the generation record. *)
Definition generationRecord (userId : string) (body : Generation.Body)
    (uploaded : Generation.Uploaded) : Generation.Doc :=
  {| Generation.user := userId;
     Generation.mediaType := Generation.body_mediaType body;
     Generation.name := Generation.body_name body;
     Generation.prompt := Generation.body_prompt body;
     Generation.sourceParts := orElse (Generation.body_sourceParts body) (Js.Object "");
     Generation.quality := Generation.body_quality body;
     Generation.imageUrl := Generation.up_imageUrl uploaded;
     Generation.thumbnailUrl := Generation.up_thumbnailUrl uploaded;
     Generation.videoUrl := Generation.up_finalVideoUrl uploaded;
     Generation.cloudinaryPublicId := Generation.up_cloudinaryPublicId uploaded;
     Generation.cloudinaryThumbnailPublicId :=
       Generation.up_cloudinaryThumbnailPublicId uploaded;
     Generation.base64 :=
       if truthy (Generation.up_imageUrl uploaded) then Js.Undefined
       else Generation.body_base64 body;
     Generation.mimeType := Generation.body_mimeType body;
     Generation.thumbnailBase64 :=
       if truthy (Generation.up_thumbnailUrl uploaded) then Js.Undefined
       else Generation.body_thumbnailBase64 body;
     Generation.videoModel := Generation.body_videoModel body;
     Generation.aspectRatio := Generation.body_aspectRatio body;
     Generation.resolution := Generation.body_resolution body;
     Generation.cost := Generation.body_cost body |}.

(** [user.balance -= costInPounds; await user.save()].  Mongoose casts a
    [Number] path when it is assigned and refuses [NaN]: the document is
    marked invalid and the [save] fails. *)
Definition saveDebited (u : User.Doc) (users : User.Collection) : option User.Collection :=
  if PrimFloat.is_nan (User.balance u) then None else User.save u users.

(** [createGenerationController(req, res, next)]. *)
Definition createGenerationController (user : option string) (body : Generation.Body)
    (s : Generation.State) : Generation.Reply * Generation.State :=
  match user with
  | None => (Generation.Json 401 "Unauthorized", s)
  | Some userId =>
      if Js.falsy (Generation.body_mediaType body) || Js.falsy (Generation.body_name body)
         || Js.falsy (Generation.body_prompt body)
         || match Generation.body_cost body with Js.Undefined => true | _ => false end then
        (Generation.Json 400 "mediaType, name, prompt, and cost are required", s)
      else
        match User.findById userId (Generation.users s) with
        | None => (Generation.Json 404 "User not found", s)
        | Some u =>
            let costInPounds := (Js.Number (Generation.body_cost body) / 1000)%float in
            if Js.lt (User.balance u) costInPounds then
              (Generation.Json 400 "Insufficient balance", s)
            else
              let u := User.setBalance (User.balance u - costInPounds)%float u in
              match saveDebited u (Generation.users s) with
              | None => (Generation.Next, s)
              | Some users' =>
                  let '(uploaded, uploads) := uploadMedia body in
                  let doc := generationRecord userId body uploaded in
                  let s' :=
                    {| Generation.users := users';
                       Generation.calls :=
                         (Generation.calls s ++ uploads
                          ++ [Generation.CalledGenerationSave doc])%list |} in
                  match Generation.generationSave services doc with
                  | Resolved id => (Generation.Created id, s')
                  | Threw _ => (Generation.Next, s')
                  end
              end
        end
  end.

End GenerationController.

(** A debit of the stored balance of one user, everything else as it
    was. *)
Definition debited (userId : string) (u : User.Doc) (costInPounds : Js.number)
    (users : User.Collection) : User.Collection :=
  <[userId := User.setBalance (User.balance u - costInPounds)%float u]> users.

Definition isRefusal (r : Generation.Reply) : bool :=
  match r with
  | Generation.Json _ _ => true
  | _ => false
  end.

(** The request passes the checks of lines 45-79 for the stored user. *)
Definition accepted (body : Generation.Body) (u : User.Doc) : bool :=
  negb (Js.falsy (Generation.body_mediaType body))
  && negb (Js.falsy (Generation.body_name body))
  && negb (Js.falsy (Generation.body_prompt body))
  && negb (match Generation.body_cost body with Js.Undefined => true | _ => false end)
  && negb (Js.lt (User.balance u) (Js.Number (Generation.body_cost body) / 1000)%float).

(** ** Concrete requests *)

Definition generationBody (mediaType : string) (base64 cost : Js.value) : Generation.Body :=
  {| Generation.body_mediaType := Js.Str mediaType;
     Generation.body_name := Js.Str "sunset";
     Generation.body_prompt := Js.Str "a sunset over the sea";
     Generation.body_sourceParts := Js.Undefined;
     Generation.body_quality := Js.Undefined;
     Generation.body_base64 := base64;
     Generation.body_mimeType := Js.Undefined;
     Generation.body_thumbnailBase64 := Js.Undefined;
     Generation.body_videoUrl := Js.Undefined;
     Generation.body_videoModel := Js.Undefined;
     Generation.body_aspectRatio := Js.Undefined;
     Generation.body_resolution := Js.Undefined;
     Generation.body_cost := cost |}.

Definition uploadedFile : Generation.UploadResult :=
  {| Generation.publicId := "flowframe/generations/abc";
     Generation.secureUrl := "https://res.cloudinary.com/demo/abc" |}.

(** Services whose uploads succeed and whose [save] fails or succeeds. *)
Definition servicesWith (saved : Settled string) : Generation.Services :=
  {| Generation.uploadImageWithThumbnail := fun _ =>
       Resolved {| Generation.image := uploadedFile; Generation.thumbnail := uploadedFile |};
     Generation.uploadVideo := fun _ _ => Resolved uploadedFile;
     Generation.uploadImage := fun _ _ => Resolved uploadedFile;
     Generation.generationSave := fun _ => saved |}.

Definition generationState (b : Js.number) : Generation.State :=
  {| Generation.users := {[ "u1" := userWith b ]}; Generation.calls := [] |}.

(* ===================================================================== *)
(** * The profile read ([getCurrentUserController]) *)
(* ===================================================================== *)

Inductive ProfileReply : Type :=
| ProfileError (status : nat) (message : string)
| Profile (payload : AuthPayload).

(** [getCurrentUserController(req, res, next)]: the reply and the user
    collection after the [save] that [formatUser] starts. *)
Definition getCurrentUserController (user : option string) (users : User.Collection)
  : ProfileReply * User.Collection :=
  match user with
  | None => (ProfileError 401 "Unauthorized", users)
  | Some userId =>
      match User.findById userId users with
      | None => (ProfileError 404 "User not found", users)
      | Some u => let '(payload, users') := formatUser u users in (Profile payload, users')
      end
  end.

(** The payload of a user with a given balance. *)
Definition payloadOf (u : User.Doc) (balance : Js.number) : AuthPayload :=
  {| payload_id := User.id u; payload_name := User.name u; payload_email := User.email u;
     payload_balance := balance |}.

(* ===================================================================== *)
(** * The environment ([config/env.ts]) and the host of the provider *)
(* ===================================================================== *)

Definition required : list string :=
  ["MONGODB_URI"; "JWT_SECRET"; "FIREBASE_PROJECT_ID"; "FIREBASE_CLIENT_EMAIL";
   "FIREBASE_PRIVATE_KEY"].

(** The check of the required variables and the fields of [env] that
    the payment code reads, from [process.env].  [inl] is the message of
    the error thrown at start-up. *)
Definition loadEnv (processEnv : gmap string string) : string + Env :=
  match List.find (fun key => negb (truthy (processEnv !! key))) required with
  | Some key => inl ("Missing required environment variable: " ++ key)
  | None =>
      inr {| node := default "development" (processEnv !! "NODE_ENV");
             paypalClientId := processEnv !! "PAYPAL_CLIENT_ID";
             paypalClientSecret := processEnv !! "PAYPAL_CLIENT_SECRET";
             paypalUseSandbox :=
               negb (bool_decide (processEnv !! "PAYPAL_USE_SANDBOX" = Some "false"));
             paypalSkipVerification :=
               bool_decide (processEnv !! "PAYPAL_SKIP_VERIFICATION" = Some "true") |}
  end.

(** [PAYPAL_BASE_URL] of the provider client. *)
Definition PAYPAL_BASE_URL (env : Env) : string :=
  if truthy (paypalClientId env) && truthy (paypalClientSecret env) then
    if paypalUseSandbox env then "https://api.sandbox.paypal.com" else "https://api.paypal.com"
  else "https://api.sandbox.paypal.com".

(** A process environment with the five required variables and the
    given PayPal settings. *)
Definition processEnvWith (settings : list (string * string)) : gmap string string :=
  list_to_map (settings ++ [("MONGODB_URI", "mongodb://db"); ("JWT_SECRET", "s3cret");
                            ("FIREBASE_PROJECT_ID", "p"); ("FIREBASE_CLIENT_EMAIL", "e");
                            ("FIREBASE_PRIVATE_KEY", "k")])%list.

(* ===================================================================== *)
(** * The page of a listing ([getGenerationsController]) *)
(* ===================================================================== *)

(** [Math.min] of two numbers. *)
Definition Math_min (x y : Js.number) : Js.number :=
  if PrimFloat.is_nan x || PrimFloat.is_nan y then PrimFloat.nan
  else if PrimFloat.ltb x y then x
  else if PrimFloat.ltb y x then y
  else if PrimFloat.is_zero x && PrimFloat.get_sign x then x
  else y.

(** [x || d] on numbers. *)
Definition numberOr (x d : Js.number) : Js.number :=
  if Js.falsy (Js.Num x) then d else x.

(** A query parameter with its default ([const { limit = 50 } = req.query]). *)
Definition withDefault (v : Js.value) (d : Js.number) : Js.value :=
  match v with
  | Js.Undefined => Js.Num d
  | _ => v
  end.

(** [Math.min(Number(limit) || 50, 100)] and [Number(skip) || 0]. *)
Definition safeLimit (limit : Js.value) : Js.number :=
  Math_min (numberOr (Js.Number (withDefault limit 50%float)) 50%float) 100%float.

Definition safeSkip (skip : Js.value) : Js.number :=
  numberOr (Js.Number (withDefault skip 0%float)) 0%float.

(** ** A token endpoint that answers 404 *)

Definition tokenNotFound (provider : Provider) : Prop :=
  forall (n : nat) (clientId clientSecret : string),
    tokenEndpoint provider n clientId clientSecret = Failure 404 None.

(** The message of the error the token exchange throws then. *)
Definition token404Message : string :=
  "Failed to authenticate with PayPal: PayPal authentication failed: 404. Check that your PAYPAL_CLIENT_ID and PAYPAL_CLIENT_SECRET are correct and match the environment (sandbox/production).".

Definition lostTokenEndpoint : Provider :=
  {| tokenEndpoint := fun _ _ _ => Failure 404 None;
     orderEndpoint := fun _ _ _ => Success (orderOf ORDER_COMPLETED [captureOf COMPLETED "GBP" "5.00"]);
     captureEndpoint := fun _ _ _ => Success (captureOf COMPLETED "GBP" "5.00") |}.

(* ===================================================================== *)
(** * What a handler in flight may touch *)
(* ===================================================================== *)

(** A payment as the handler of a submission writes it. *)
Definition paymentFor (userId : string) (parsedAmount : Js.number) (currency orderId : string)
    (p : Payment.Doc) : Prop :=
  Payment.user p = userId
  /\ Payment.provider p = Payment.paypal
  /\ Payment.status p = Payment.completed
  /\ Payment.amount p = parsedAmount
  /\ Payment.currency p = currency
  /\ Payment.externalId p = Some orderId.

Definition paymentOf (req : AuthenticatedRequest) (p : Payment.Doc) : Prop :=
  exists (userId orderId : string),
    req_user req = Some userId
    /\ body_orderId (req_body req) = Js.Str orderId
    /\ paymentFor userId (Js.Number (body_amount (req_body req)))
                  (default "GBP" (body_currency (req_body req))) orderId p.

(** The calls a handler working for [owner] may make: it looks up and
    saves the user [owner] only, and inserts only payments that satisfy
    [ok]. *)
Definition callAllowed (owner : option string) (ok : Payment.Doc -> Prop) {X : Type}
    (op : Op X) : Prop :=
  match op with
  | UserModel_findById i => owner = Some i
  | User_save u => owner = Some (User.id u)
  | PaymentModel_create doc => forall time : Z, ok (doc time)
  | _ => True
  end.

(** What a store whose users sit under their own ids can give back. *)
Definition answerPossible {X : Type} (op : Op X) : X -> Prop :=
  match op in Op X return X -> Prop with
  | UserModel_findById i => fun x => forall u, x = Some u -> User.id u = i
  | _ => fun _ => True
  end.

(** A handler all of whose calls, now and later, are allowed. *)
Fixpoint confined (owner : option string) (ok : Payment.Doc -> Prop) (t : Task Reply)
    {struct t} : Prop :=
  match t with
  | Done _ => True
  | Await op k =>
      callAllowed owner ok op /\ forall x, answerPossible op x -> confined owner ok (k x)
  end.

(** What handlers working for [o1] and [o2] can have done to the store:
    no user added or removed, no user other than theirs changed, name
    and email of every user as they were, and payments only appended,
    each of them satisfying [ok]. *)
Definition evolved (o1 o2 : option string) (ok : Payment.Doc -> Prop) (s s' : Sys) : Prop :=
  wellKeyed (userStore s')
  /\ (forall k, o1 <> Some k -> o2 <> Some k -> userStore s' !! k = userStore s !! k)
  /\ (forall k, userStore s' !! k = None <-> userStore s !! k = None)
  /\ (forall k u u', userStore s !! k = Some u -> userStore s' !! k = Some u' ->
                     User.name u' = User.name u /\ User.email u' = User.email u)
  /\ exists added, paymentStore s' = (paymentStore s ++ added)%list /\ Forall ok added.

(** A second user and a store with both. *)
Definition secondUser (b : Js.number) : User.Doc :=
  {| User.id := "u2"; User.name := "Bob"; User.email := "bob@example.org"; User.balance := b |}.

Definition sharedStore : Sys :=
  {| userStore := {[ "u1" := userWith 10%float; "u2" := secondUser 20%float ]};
     paymentStore := []; world := tokenWorld |}.

Definition requestOf (userId : string) (amount : Js.value) (orderId : string)
  : AuthenticatedRequest :=
  {| req_user := Some userId;
     req_body := {| body_amount := amount; body_currency := Some "GBP";
                    body_orderId := Js.Str orderId; body_captureId := None |} |}.

(** A production environment in which the skip flag has been left on. *)
Definition productionEnvWithSkip : Env :=
  {| node := "production"; paypalClientId := Some "client"; paypalClientSecret := Some "secret";
     paypalUseSandbox := false; paypalSkipVerification := true |}.
(* ===================================================================== *)
(** * Facts about numbers *)
(* ===================================================================== *)

Lemma SFcompare_antisym (x y : spec_float) :
  SFcompare y x = option_map CompOpp (SFcompare x y).
Proof.
  destruct x as [sx|sx| |sx mx ex], y as [sy|sy| |sy my ey]; simpl; try reflexivity;
    try (destruct sx; reflexivity); try (destruct sy; reflexivity);
    try (destruct sx, sy; reflexivity).
  destruct sx, sy; try reflexivity;
    rewrite (Z.compare_antisym ey ex); destruct (ey ?= ex)%Z; simpl; try reflexivity;
    change (Pos.compare_cont Eq my mx) with (my ?= mx)%positive;
    change (Pos.compare_cont Eq mx my) with (mx ?= my)%positive;
    rewrite (Pos.compare_antisym my mx); now destruct (my ?= mx)%positive.
Qed.

(** On numbers that are not [NaN], [x <= y] is the negation of [x > y]. *)
Lemma le_negb_gt (x y : Js.number) :
  PrimFloat.is_nan x = false -> PrimFloat.is_nan y = false ->
  Js.le x y = negb (Js.gt x y).
Proof.
  unfold Js.le, Js.gt, PrimFloat.is_nan.
  rewrite !FloatAxioms.eqb_spec, FloatAxioms.leb_spec, FloatAxioms.ltb_spec.
  unfold SFleb, SFltb, SFeqb. rewrite (SFcompare_antisym (Prim2SF x) (Prim2SF y)).
  intros Hx Hy.
  destruct (Prim2SF x) as [sx|sx| |sx mx ex], (Prim2SF y) as [sy|sy| |sy my ey];
    simpl in *; try discriminate; try reflexivity;
    repeat match goal with
           | |- context [match ?c with _ => _ end] => destruct c; simpl
           end; reflexivity.
Qed.

Lemma SFcompare_refl (x : spec_float) : x <> S754_nan -> SFcompare x x = Some Eq.
Proof.
  destruct x as [s|s| |s m e]; simpl; intros H; try congruence;
    try (destruct s; reflexivity).
  destruct s; rewrite Z.compare_refl, Pos.compare_cont_refl; reflexivity.
Qed.

(** A comparison that holds has no [NaN] operand. *)
Lemma le_true_not_nan (x y : Js.number) :
  Js.le x y = true -> PrimFloat.is_nan x = false /\ PrimFloat.is_nan y = false.
Proof.
  unfold Js.le, PrimFloat.is_nan.
  rewrite !FloatAxioms.eqb_spec, FloatAxioms.leb_spec. unfold SFleb, SFeqb.
  intros H.
  assert (Hx : Prim2SF x <> S754_nan).
  { intros E. rewrite E in H. simpl in H. discriminate. }
  assert (Hy : Prim2SF y <> S754_nan).
  { intros E. rewrite E in H. destruct (Prim2SF x); simpl in H; discriminate. }
  now rewrite (SFcompare_refl _ Hx), (SFcompare_refl _ Hy).
Qed.

Lemma le_true_gt_false (x y : Js.number) : Js.le x y = true -> Js.gt x y = false.
Proof.
  intros H. destruct (le_true_not_nan x y H) as [Hx Hy].
  rewrite (le_negb_gt x y Hx Hy) in H. now destruct (Js.gt x y).
Qed.

(** A finite number is not [NaN]. *)
Lemma finite_not_nan (x : Js.number) : Js.Number_isFinite x = true -> PrimFloat.is_nan x = false.
Proof.
  unfold Js.Number_isFinite, PrimFloat.is_finite.
  destruct (PrimFloat.is_nan x); [discriminate | reflexivity].
Qed.

(** The test of line 18 rejects exactly the amounts that are not finite
    and positive. *)
Lemma amount_rejected_iff (x : Js.number) :
  negb (Js.Number_isFinite x) || Js.le x 0%float = negb (isFinitePositive x).
Proof.
  unfold isFinitePositive. destruct (Js.Number_isFinite x) eqn:Hf; simpl; [|reflexivity].
  rewrite (le_negb_gt x 0%float (finite_not_nan x Hf) eq_refl). reflexivity.
Qed.

(** [acceptedOrderId] accepts the non-empty strings and nothing else. *)
Lemma acceptedOrderId_Some (v : Js.value) (s : string) :
  acceptedOrderId v = Some s <-> v = Js.Str s /\ s <> EmptyString.
Proof.
  unfold acceptedOrderId.
  destruct v as [| |b|x|s'|p]; simpl;
    try (split; [discriminate | intros [H _]; discriminate]).
  - destruct b; simpl; split; try discriminate; intros [H _]; discriminate.
  - destruct (_ || _); simpl; split; try discriminate; intros [H _]; discriminate.
  - destruct (String.eqb_spec s' EmptyString) as [->|Hne]; simpl.
    + split; [discriminate | intros [H Hs]; inversion H; subst; now elim Hs].
    + split; [intros H; inversion H; subst; auto | intros [H _]; inversion H; reflexivity].
Qed.

Lemma acceptedOrderId_not_string (v : Js.value) :
  Js.isString v = false -> acceptedOrderId v = None.
Proof. unfold acceptedOrderId. intros ->. now rewrite orb_true_r. Qed.

(** ** Decimal literals and substring search on examples *)

Example parseFloat_5 : Js.parseFloat "5.00" = 5%float.
Proof. vm_compute. reflexivity. Qed.
Example parseFloat_4005 : Js.parseFloat "40.05" = 40.05%float.
Proof. vm_compute. reflexivity. Qed.
Example parseFloat_abc : PrimFloat.is_nan (Js.parseFloat "abc") = true.
Proof. vm_compute. reflexivity. Qed.
Example parseFloat_tests :
  Js.parseFloat "  -12.5e-1xyz" = (-1.25)%float /\
  Js.parseFloat ".5" = 0.5%float /\
  Js.parseFloat "5." = 5%float /\
  Js.parseFloat "0.1" = 0.1%float /\
  Js.parseFloat "0.30000000000000004" = (0.1 + 0.2)%float /\
  Js.parseFloat "1e23" = 1e23%float /\
  Js.parseFloat "9007199254740993" = 9007199254740992%float /\
  Js.parseFloat "1.7976931348623157e308" = 0x1.fffffffffffffp+1023%float /\
  Js.parseFloat "1e309" = PrimFloat.infinity /\
  Js.parseFloat "5e-324" = 0x1p-1074%float /\
  Js.parseFloat "2e-324" = 0%float /\
  Js.parseFloat "3e-324" = 0x1p-1074%float /\
  Js.parseFloat "1e" = 1%float /\
  Js.parseFloat "-Infinity" = PrimFloat.neg_infinity.
Proof. vm_compute. repeat split. Qed.

Example Number_tests :
  Js.Number (Js.Str "5000") = 5000%float /\
  Js.Number (Js.Str " 50.5 ") = 50.5%float /\
  Js.Number (Js.Str "0x1388") = 5000%float /\
  Js.Number (Js.Str "0b101") = 5%float /\
  Js.Number (Js.Str "0o17") = 15%float /\
  Js.Number (Js.Str "") = 0%float /\
  Js.Number Js.Null = 0%float /\
  Js.Number (Js.Boolean true) = 1%float /\
  PrimFloat.is_nan (Js.Number (Js.Str "5e")) = true /\
  PrimFloat.is_nan (Js.Number (Js.Str "0x")) = true /\
  PrimFloat.is_nan (Js.Number (Js.Str "-0x10")) = true /\
  PrimFloat.is_nan (Js.Number (Js.Str "12px")) = true /\
  PrimFloat.is_nan (Js.Number Js.Undefined) = true /\
  PrimFloat.is_nan (Js.Number (Js.Object "[object Object]")) = true /\
  Js.Number (Js.Str "Infinity") = PrimFloat.infinity /\
  isFinitePositive (Js.Number (Js.Str "Infinity")) = false /\
  isFinitePositive (Js.Number (Js.Str "-5")) = false /\
  isFinitePositive (Js.Number (Js.Str "5000")) = true.
Proof. vm_compute. repeat split. Qed.

Example includes_404 :
  includes "404" "Failed to verify PayPal order: PayPal order verification failed: 404" = true.
Proof. reflexivity. Qed.


(* ===================================================================== *)
(** * Balance normalisation *)
(* ===================================================================== *)

Lemma save_loaded (u : User.Doc) (b : Js.number) (users : User.Collection) :
  users !! User.id u = Some u ->
  User.save (User.setBalance b u) users = Some (<[User.id u := User.setBalance b u]> users).
Proof. unfold User.save. simpl. intros ->. reflexivity. Qed.

(** The document the controller goes on with carries the normalised
    balance. *)
Lemma normalizedBalance_cases (b : Js.number) :
  (Js.gt b 1000%float = true /\ normalizedBalance b = (b / 1000)%float)
  \/ (Js.gt b 1000%float = false /\ normalizedBalance b = b).
Proof.
  unfold normalizedBalance, isLegacyBalance.
  destruct (Js.gt b 1000%float); [left | right]; split; reflexivity.
Qed.

(** C7: a loaded balance above 1000 is divided by 1000 and saved, in the
    controller and in [formatUser]; a balance not above 1000 is left as
    it is and nothing is written; the divisor is the one that converts a
    submitted amount ([amountInPounds]); 40050 becomes 40.05 and 40.05
    stays 40.05. *)
Theorem C7_balance_normalization
    (env : Env) (provider : Provider) (fuel : nat) (userId : string) (u : User.Doc)
    (parsedAmount : Js.number) (currency orderId : string) (captureId : option string)
    (s : Sys) :
  userStore s !! User.id u = Some u ->
  (Js.gt (User.balance u) 1000%float = true ->
     step env provider fuel
          (normalizeLoaded env userId u parsedAmount currency orderId captureId) s
     = (checkExisting env userId (User.setBalance (User.balance u / 1000)%float u)
                      parsedAmount currency orderId captureId,
        setUsers (<[User.id u := User.setBalance (User.balance u / 1000)%float u]> (userStore s)) s)
     /\ formatUser u (userStore s)
        = ({| payload_id := User.id u; payload_name := User.name u;
              payload_email := User.email u;
              payload_balance := (User.balance u / 1000)%float |},
           <[User.id u := User.setBalance (User.balance u / 1000)%float u]> (userStore s)))
  /\ (Js.gt (User.balance u) 1000%float = false ->
     normalizeLoaded env userId u parsedAmount currency orderId captureId
     = checkExisting env userId u parsedAmount currency orderId captureId
     /\ formatUser u (userStore s)
        = ({| payload_id := User.id u; payload_name := User.name u;
              payload_email := User.email u; payload_balance := User.balance u |},
           userStore s))
  /\ (forall x : Js.number, amountInPounds x = (x / 1000)%float
                            /\ (isLegacyBalance x = true -> normalizedBalance x = amountInPounds x))
  /\ normalizedBalance 40050%float = 40.05%float
  /\ normalizedBalance 40.05%float = 40.05%float.
Proof.
  intros Hstored. repeat split.
  - unfold normalizeLoaded. rewrite H. simpl.
    rewrite (save_loaded u _ _ Hstored). reflexivity.
  - unfold formatUser. rewrite H. rewrite (save_loaded u _ _ Hstored). reflexivity.
  - unfold normalizeLoaded. rewrite H. reflexivity.
  - unfold formatUser. rewrite H. reflexivity.
  - unfold normalizedBalance. intros ->. reflexivity.
Qed.

Lemma C7_balance_normalization_witness :
  step sandboxEnv unavailableProvider 0
       (normalizeLoaded sandboxEnv "u1" (userWith 40050%float) 5000%float "GBP" "O1" None)
       (storeWith 40050%float [])
  = (checkExisting sandboxEnv "u1" (userWith 40.05%float) 5000%float "GBP" "O1" None,
     storeWith 40.05%float [])
  /\ normalizeLoaded sandboxEnv "u1" (userWith 40.05%float) 5000%float "GBP" "O1" None
     = checkExisting sandboxEnv "u1" (userWith 40.05%float) 5000%float "GBP" "O1" None.
Proof.
  pose proof (C7_balance_normalization sandboxEnv unavailableProvider 0 "u1"
                (userWith 40050%float) 5000%float "GBP" "O1" None (storeWith 40050%float [])
                eq_refl) as [Hlegacy _].
  pose proof (C7_balance_normalization sandboxEnv unavailableProvider 0 "u1"
                (userWith 40.05%float) 5000%float "GBP" "O1" None (storeWith 40.05%float [])
                eq_refl) as [_ [Hnew _]].
  split.
  - destruct (Hlegacy eq_refl) as [Hstep _]. rewrite Hstep. vm_compute. reflexivity.
  - destruct (Hnew eq_refl) as [Hsame _]. exact Hsame.
Defined.

(* ===================================================================== *)
(** * Input validation *)
(* ===================================================================== *)

(** C9, as the code has it: the amount is converted first
    ([parsedAmount = Number(amount)]).  A request whose amount does not
    convert to a finite positive number, or whose [orderId] is absent or
    not a string, is answered at once with status 400 (401 when the
    request carries no user): the handler ends without a single [await],
    so no provider request is sent and neither collection changes. *)
Theorem C9_invalid_input_rejected
    (env : Env) (provider : Provider) (fuel : nat) (req : AuthenticatedRequest) (s : Sys) :
  isFinitePositive (Js.Number (body_amount (req_body req))) = false
  \/ Js.isString (body_orderId (req_body req)) = false ->
  exists message : string,
    recordPayPalPayment env req
    = Done (Json (rejectionStatus req) (messageOnly message))
    /\ run env provider fuel (recordPayPalPayment env req) s
       = (Json (rejectionStatus req) (messageOnly message), s).
Proof.
  intros Hbad. unfold recordPayPalPayment, rejectionStatus.
  destruct (req_user req) as [userId|].
  2: { eexists; split; reflexivity. }
  rewrite amount_rejected_iff.
  destruct (isFinitePositive (Js.Number (body_amount (req_body req)))) eqn:Hamount; simpl.
  - destruct Hbad as [Hbad|Hbad]; [discriminate|].
    rewrite (acceptedOrderId_not_string _ Hbad). eexists; split; reflexivity.
  - eexists; split; reflexivity.
Qed.

Lemma C9_invalid_input_rejected_witness :
  run sandboxEnv unavailableProvider 5
      (recordPayPalPayment sandboxEnv (requestFor (Js.Str "abc") (Js.Str "O1") None))
      (storeWith 10%float [])
  = (Json 400 (messageOnly "A valid amount is required"), storeWith 10%float [])
  /\ run sandboxEnv unavailableProvider 5
      (recordPayPalPayment sandboxEnv (requestFor (Js.Num 5000%float) Js.Undefined None))
      (storeWith 10%float [])
  = (Json 400 (messageOnly "orderId is required"), storeWith 10%float []).
Proof.
  split.
  - destruct (C9_invalid_input_rejected sandboxEnv unavailableProvider 5
                (requestFor (Js.Str "abc") (Js.Str "O1") None) (storeWith 10%float [])
                (or_introl eq_refl)) as [m [Htask Hrun]].
    rewrite Hrun. inversion Htask. reflexivity.
  - destruct (C9_invalid_input_rejected sandboxEnv unavailableProvider 5
                (requestFor (Js.Num 5000%float) Js.Undefined None) (storeWith 10%float [])
                (or_intror eq_refl)) as [m [Htask Hrun]].
    rewrite Hrun. inversion Htask. reflexivity.
Defined.

(** C9 as stated fails: an amount that is not a number is not always
    rejected.  The boolean [true] converts to 1, the array [[2500]] to
    2500 and the string ["0x1388"] to 5000: each of these submissions
    passes the validation, reaches the provider and is credited (0.001,
    2.50 and 5.00 on a balance of 10). *)
Lemma C9_coercible_amount_credited :
  let provider value :=
    providerOf (Failure 500 None)
               (Success (orderOf ORDER_COMPLETED [captureOf COMPLETED "GBP" value])) in
  let submit amount value :=
    run sandboxEnv (provider value) 3
        (recordPayPalPayment sandboxEnv (requestFor amount (Js.Str "O1") None))
        (storeWith 10%float []) in
  (fst (submit (Js.Boolean true) "0.00") = creditedReply (10 + 1 / 1000)%float
   /\ storedBalance "u1" (snd (submit (Js.Boolean true) "0.00")) = Some (10 + 1 / 1000)%float
   /\ List.map Payment.amount (paymentStore (snd (submit (Js.Boolean true) "0.00")))
      = [1%float]
   /\ fetches (world (snd (submit (Js.Boolean true) "0.00"))) = 1%nat)
  /\ fst (submit (Js.Object "2500") "2.50") = creditedReply 12.5%float
  /\ fst (submit (Js.Str "0x1388") "5.00") = creditedReply 15%float.
Proof. vm_compute. repeat split. Qed.

(* ===================================================================== *)
(** * The stages of the controller, run alone *)
(* ===================================================================== *)

Lemma findOne_None_no_duplicate (ext : string) (p : Payment.Doc) (ps : Payment.Collection) :
  Payment.externalId p = Some ext ->
  Payment.findOne ext ps = None ->
  List.existsb (Payment.sameKey p) ps = false.
Proof.
  intros Hext. unfold Payment.findOne.
  induction ps as [|q ps IH]; simpl; [reflexivity|].
  destruct (Payment.externalId_eqb (Payment.externalId q) (Some ext)) eqn:Hq; [discriminate|].
  intros Hfind. rewrite (IH Hfind), orb_false_r.
  unfold Payment.sameKey. rewrite Hext.
  destruct (Payment.externalId q) as [e|]; simpl in *.
  - rewrite String.eqb_sym, Hq. apply andb_false_r.
  - apply andb_false_r.
Qed.

Section RunAlone.

Variable env : Env.
Variable provider : Provider.
Variable fuel : nat.

Lemma run_creditBalance (u stored : User.Doc) (a : Js.number) (s : Sys) :
  userStore s !! User.id u = Some stored ->
  run env provider fuel (creditBalance u a) s
  = (Json 200 (messageAndBalance "Payment verified and balance updated successfully."
                                 (User.balance u + a)%float),
     setUsers (<[User.id u := User.setBalance (User.balance u + a)%float stored]> (userStore s)) s).
Proof.
  intros Hstored. unfold creditBalance. cbn [run perform].
  unfold User.save. cbn [User.id User.setBalance User.balance]. rewrite Hstored. reflexivity.
Qed.

Lemma run_recordPayment_fresh (userId : string) (u stored : User.Doc) (pa : Js.number)
    (cur oid : string) (cid : option string) (vr : VerificationResult) (s : Sys) :
  userStore s !! User.id u = Some stored ->
  Payment.findOne oid (paymentStore s) = None ->
  run env provider fuel (recordPayment env userId u pa cur oid cid vr) s
  = (Json 200 (messageAndBalance "Payment verified and balance updated successfully."
                                 (User.balance u + amountInPounds pa)%float),
     {| userStore := <[User.id u := User.setBalance (User.balance u + amountInPounds pa)%float stored]>
                       (userStore s);
        paymentStore := (paymentStore s ++ [paymentDocument env u pa cur oid cid vr (now (world s))])%list;
        world := world s |}).
Proof.
  intros Hstored Hfresh. unfold recordPayment. cbn [run perform].
  unfold Payment.create.
  rewrite (findOne_None_no_duplicate oid
             (paymentDocument env u pa cur oid cid vr (now (world s))) _ eq_refl Hfresh).
  cbn [setPayments]. rewrite run_creditBalance with (stored := stored) by exact Hstored.
  reflexivity.
Qed.

End RunAlone.

(* ===================================================================== *)
(** * Verification skipped in a sandbox *)
(* ===================================================================== *)

Section SkipVerification.

Variable env : Env.
Variable provider : Provider.
Variable fuel : nat.

Lemma creditBalance_keeps_world (u : User.Doc) (a : Js.number) (s : Sys) :
  world (snd (run env provider fuel (creditBalance u a) s)) = world s.
Proof.
  unfold creditBalance. cbn [run perform].
  destruct (User.save _ _); reflexivity.
Qed.

Lemma recordPayment_keeps_world (userId : string) (u : User.Doc) (pa : Js.number)
    (cur oid : string) (cid : option string) (vr : VerificationResult) (s : Sys) :
  world (snd (run env provider fuel (recordPayment env userId u pa cur oid cid vr) s)) = world s.
Proof.
  unfold recordPayment. cbn [run perform].
  destruct (Payment.create _ _).
  - rewrite creditBalance_keeps_world. reflexivity.
  - reflexivity.
Qed.

Hypothesis Hskip : paypalSkipVerification env = true.
Hypothesis Hsandbox : paypalUseSandbox env = true.

Lemma checkExisting_skip_keeps_world (userId : string) (u : User.Doc) (pa : Js.number)
    (cur oid : string) (cid : option string) (s : Sys) :
  world (snd (run env provider fuel (checkExisting env userId u pa cur oid cid) s)) = world s.
Proof.
  unfold checkExisting. cbn [run perform].
  destruct (Payment.findOne _ _); [reflexivity|].
  unfold verifyAndRecord. rewrite Hskip, Hsandbox. cbn [andb].
  apply recordPayment_keeps_world.
Qed.

Lemma handler_skip_keeps_world (req : AuthenticatedRequest) (s : Sys) :
  world (snd (run env provider fuel (recordPayPalPayment env req) s)) = world s.
Proof.
  unfold recordPayPalPayment.
  destruct (req_user req) as [userId|]; [|reflexivity].
  destruct (_ || _); [reflexivity|].
  destruct (acceptedOrderId _) as [oid|]; [|reflexivity].
  unfold loadUser. cbn [run perform]. destruct (User.findById _ _) as [u|]; [|reflexivity].
  unfold normalizeLoaded. destruct (Js.gt _ _).
  - cbn [run perform]. destruct (User.save _ _); [|reflexivity].
    rewrite checkExisting_skip_keeps_world. reflexivity.
  - apply checkExisting_skip_keeps_world.
Qed.

Lemma handler_skip_records (req : AuthenticatedRequest) (s : Sys)
    (userId oid : string) (u : User.Doc) :
  req_user req = Some userId ->
  isFinitePositive (Js.Number (body_amount (req_body req))) = true ->
  body_orderId (req_body req) = Js.Str oid -> oid <> EmptyString ->
  userStore s !! userId = Some u -> User.id u = userId ->
  Payment.findOne oid (paymentStore s) = None ->
  let pa := Js.Number (body_amount (req_body req)) in
  let nb := normalizedBalance (User.balance u) in
  let doc := paymentDocument env (User.setBalance nb u) pa
               (default "GBP" (body_currency (req_body req))) oid
               (body_captureId (req_body req))
               {| verified := true; captureDetails := None; orderDetails := None |}
               (now (world s)) in
  run env provider fuel (recordPayPalPayment env req) s
  = (Json 200 (messageAndBalance "Payment verified and balance updated successfully."
                                 (nb + amountInPounds pa)%float),
     {| userStore := <[userId := User.setBalance (nb + amountInPounds pa)%float u]> (userStore s);
        paymentStore := (paymentStore s ++ [doc])%list;
        world := world s |}).
Proof.
  intros Huser Hamount Horder Hne Hstored Hid Hfresh pa nb doc.
  unfold recordPayPalPayment. rewrite Huser, amount_rejected_iff, Hamount. cbn [negb].
  rewrite (proj2 (acceptedOrderId_Some _ oid) (conj Horder Hne)).
  unfold loadUser. cbn [run perform]. unfold User.findById. rewrite Hstored.
  unfold normalizeLoaded. subst doc nb. unfold normalizedBalance, isLegacyBalance.
  destruct (Js.gt (User.balance u) 1000%float).
  - cbn [run perform]. rewrite (save_loaded u) by (rewrite Hid; exact Hstored).
    unfold checkExisting. cbn [run perform setUsers paymentStore]. rewrite Hfresh.
    unfold verifyAndRecord. rewrite Hskip, Hsandbox. cbn [andb].
    rewrite run_recordPayment_fresh
      with (stored := User.setBalance (User.balance u / 1000)%float u).
    + cbn [userStore paymentStore world setUsers User.id User.setBalance User.balance].
      rewrite Hid, insert_insert_eq. reflexivity.
    + cbn [userStore User.id User.setBalance]. rewrite Hid. apply lookup_insert_eq.
    + exact Hfresh.
  - unfold checkExisting. cbn [run perform]. rewrite Hfresh.
    unfold verifyAndRecord. rewrite Hskip, Hsandbox. cbn [andb].
    rewrite run_recordPayment_fresh with (stored := u).
    + rewrite Hid. destruct u; reflexivity.
    + rewrite Hid. exact Hstored.
    + exact Hfresh.
Qed.

End SkipVerification.

(** C10: with [PAYPAL_SKIP_VERIFICATION=true] in a sandbox no request
    reaches the provider (the state of the provider client, with its
    count of requests sent, is the same after the handler as before),
    and a submission that gets as far as the verification (user known,
    input valid, order not yet recorded) inserts the payment, whose
    metadata say that verification was skipped, and credits the
    balance. *)
Theorem C10_verification_skipped
    (env : Env) (provider : Provider) (fuel : nat) (req : AuthenticatedRequest) (s : Sys)
    (userId oid : string) (u : User.Doc) :
  paypalSkipVerification env = true -> paypalUseSandbox env = true ->
  world (snd (run env provider fuel (recordPayPalPayment env req) s)) = world s
  /\ (req_user req = Some userId ->
      isFinitePositive (Js.Number (body_amount (req_body req))) = true ->
      body_orderId (req_body req) = Js.Str oid -> oid <> EmptyString ->
      userStore s !! userId = Some u -> User.id u = userId ->
      Payment.findOne oid (paymentStore s) = None ->
      let pa := Js.Number (body_amount (req_body req)) in
      let nb := normalizedBalance (User.balance u) in
      let doc := paymentDocument env (User.setBalance nb u) pa
                   (default "GBP" (body_currency (req_body req))) oid
                   (body_captureId (req_body req))
                   {| verified := true; captureDetails := None; orderDetails := None |}
                   (now (world s)) in
      run env provider fuel (recordPayPalPayment env req) s
      = (Json 200 (messageAndBalance "Payment verified and balance updated successfully."
                                     (nb + amountInPounds pa)%float),
         {| userStore := <[userId := User.setBalance (nb + amountInPounds pa)%float u]> (userStore s);
            paymentStore := (paymentStore s ++ [doc])%list;
            world := world s |})
      /\ Payment.metadata doc
         = Some {| Payment.captureId := body_captureId (req_body req);
                   Payment.orderId := oid;
                   Payment.verified := false;
                   Payment.verificationSkipped := true;
                   Payment.sandbox := true;
                   Payment.verifiedAt := now (world s) |}).
Proof.
  intros Hskip Hsandbox. split.
  - apply handler_skip_keeps_world; assumption.
  - intros Huser Hamount Horder Hne Hstored Hid Hfresh pa nb doc. split.
    + apply handler_skip_records; assumption.
    + subst doc. unfold paymentDocument. cbn [Payment.metadata recordedCaptureId captureDetails].
      rewrite Hskip, Hsandbox. reflexivity.
Qed.

Lemma C10_verification_skipped_witness :
  let req := requestFor (Js.Num 5000%float) (Js.Str "O1") (Some "C1") in
  let s := storeWith 40050%float [] in
  let result := run skippingEnv unavailableProvider 0 (recordPayPalPayment skippingEnv req) s in
  fst result = Json 200 (messageAndBalance "Payment verified and balance updated successfully."
                                           45.05%float)
  /\ userStore (snd result) = {[ "u1" := userWith 45.05%float ]}
  /\ List.map Payment.metadata (paymentStore (snd result))
     = [Some {| Payment.captureId := Some "C1"; Payment.orderId := "O1";
                Payment.verified := false; Payment.verificationSkipped := true;
                Payment.sandbox := true; Payment.verifiedAt := 0 |}]
  /\ world (snd result) = tokenWorld.
Proof.
  intros req s result.
  destruct (C10_verification_skipped skippingEnv unavailableProvider 0 req s "u1" "O1"
              (userWith 40050%float) eq_refl eq_refl) as [Hworld Hrecord].
  assert (Hne : "O1" <> EmptyString) by discriminate.
  destruct (Hrecord eq_refl eq_refl eq_refl Hne eq_refl eq_refl eq_refl) as [Hrun Hmeta].
  subst result. rewrite Hrun. cbn [fst snd userStore paymentStore world].
  repeat split; vm_compute; reflexivity.
Defined.

(* ===================================================================== *)
(** * The verdict of the verifier *)
(* ===================================================================== *)

Section Verdict.

Variable env : Env.
Variable provider : Provider.
Variable fuel : nat.

(** Strategy 1, once the capture has been fetched. *)
Lemma verdict_via_capture (orderId : string) (expectedAmount : Js.number)
    (expectedCurrency : string) (captureId : option string) (w w1 : World)
    (capture : PayPalCaptureDetails) :
  truthy captureId = true ->
  verifyPayPalCapture env provider fuel (default "" captureId) 0 w = (Returned capture, w1) ->
  (capturePasses capture expectedAmount expectedCurrency = false ->
   verifyPayPalPayment env provider fuel orderId expectedAmount expectedCurrency captureId w
   = (Returned {| verified := false; captureDetails := Some capture; orderDetails := None |}, w1))
  /\ (capturePasses capture expectedAmount expectedCurrency = true ->
      forall (o : Outcome PayPalOrderResponse) (w2 : World),
        verifyPayPalOrder env provider fuel orderId 0 w1 = (o, w2) ->
        isPending o = false ->
        verifyPayPalPayment env provider fuel orderId expectedAmount expectedCurrency captureId w
        = (Returned {| verified := true; captureDetails := Some capture;
                       orderDetails := orderOfOutcome o |}, w2)).
Proof.
  intros Hcid Hcap. unfold verifyPayPalPayment, capturePasses. rewrite Hcid, Hcap.
  destruct (CaptureStatus_eqb (capture_status capture) COMPLETED); cbn [negb andb].
  2: { split; [reflexivity | discriminate]. }
  destruct (currencyMismatch capture expectedCurrency); cbn [negb andb].
  1: { split; [reflexivity | discriminate]. }
  destruct (amountMismatch capture expectedAmount); cbn [negb andb].
  1: { split; [reflexivity | discriminate]. }
  split; [discriminate|]. intros _ o w2 Horder Hpending. rewrite Horder.
  destruct o; [reflexivity | reflexivity | discriminate].
Qed.

(** Strategy 2, once the order has been fetched and is completed with a
    first capture. *)
Lemma verdict_via_order (orderId : string) (expectedAmount : Js.number)
    (expectedCurrency : string) (captureId : option string) (w w1 : World)
    (order : PayPalOrderResponse) (capture : PayPalCaptureDetails)
    (rest : list PayPalCaptureDetails) :
  verifyPayPalOrder env provider fuel orderId 0 w = (Returned order, w1) ->
  order_status order = ORDER_COMPLETED ->
  orderCaptures order = Some (capture :: rest) ->
  verifyViaOrder env provider fuel orderId expectedAmount expectedCurrency captureId w
  = (Returned {| verified := capturePasses capture expectedAmount expectedCurrency;
                 captureDetails := Some capture; orderDetails := Some order |}, w1).
Proof.
  intros Horder Hstatus Hcaptures. unfold verifyViaOrder, capturePasses.
  rewrite Horder, Hstatus, Hcaptures. cbn [OrderStatus_eqb negb].
  destruct (CaptureStatus_eqb (capture_status capture) COMPLETED); cbn [negb andb];
    [|reflexivity].
  destruct (currencyMismatch capture expectedCurrency); cbn [negb andb]; [reflexivity|].
  destruct (amountMismatch capture expectedAmount); reflexivity.
Qed.

(** When the capture lookup throws, the verifier is the order strategy. *)
Lemma capture_thrown_falls_back (orderId : string) (expectedAmount : Js.number)
    (expectedCurrency : string) (captureId : option string) (w w1 : World) (message : string) :
  verifyPayPalCapture env provider fuel (default "" captureId) 0 w = (Thrown message, w1) ->
  truthy captureId = true ->
  verifyPayPalPayment env provider fuel orderId expectedAmount expectedCurrency captureId w
  = verifyViaOrder env provider fuel orderId expectedAmount expectedCurrency captureId w1.
Proof. intros Hcap Hcid. unfold verifyPayPalPayment. rewrite Hcid, Hcap. reflexivity. Qed.

End Verdict.

(** For an amount that parses to a number and an expected amount that is
    a number, the tests of the code accept exactly the captures that are
    completed, in the expected currency and within 0.01 of the expected
    amount as binary64 computes it: "not above" is "at most" on
    numbers. *)
Lemma capturePasses_iff_acceptable (c : PayPalCaptureDetails) (expectedAmount : Js.number)
    (expectedCurrency : string) :
  PrimFloat.is_nan (Js.Math_abs (Js.parseFloat (value (amount c)) - expectedAmount)%float) = false ->
  capturePasses c expectedAmount expectedCurrency
  = captureAcceptable c expectedAmount expectedCurrency.
Proof.
  intros Hnum. unfold capturePasses, captureAcceptable, currencyMismatch, amountMismatch,
    withinTolerance.
  rewrite negb_involutive. f_equal.
  rewrite (le_negb_gt _ 0.01%float Hnum eq_refl). reflexivity.
Qed.

(** A capture within the tolerance passes the amount test of the code. *)
Lemma withinTolerance_passes (c : PayPalCaptureDetails) (expectedAmount : Js.number) :
  withinTolerance c expectedAmount = true -> amountMismatch c expectedAmount = false.
Proof. unfold withinTolerance, amountMismatch. apply le_true_gt_false. Qed.

Lemma captureAcceptable_passes (c : PayPalCaptureDetails) (expectedAmount : Js.number)
    (expectedCurrency : string) :
  captureAcceptable c expectedAmount expectedCurrency = true ->
  capturePasses c expectedAmount expectedCurrency = true.
Proof.
  unfold captureAcceptable, capturePasses, currencyMismatch.
  intros H. apply andb_prop in H as [H Htol]. rewrite negb_involutive, H.
  rewrite (withinTolerance_passes _ _ Htol). reflexivity.
Qed.

(* ===================================================================== *)
(** * Missing resources *)
(* ===================================================================== *)

Section NotFound.

Variable env : Env.
Variable provider : Provider.
Variable fuel : nat.

(** A 404 of the capture endpoint makes the capture lookup throw. *)
Lemma capture_404_throws (captureId token : string) (errorName : option string) (w w0 : World) :
  getAccessToken env provider fuel 0 w = (Returned token, w0) ->
  captureEndpoint provider (fetches w0) token captureId = Failure 404 errorName ->
  isServiceUnavailable errorName = false ->
  isNetworkError (captureNotFoundMessage env captureId) = false ->
  verifyPayPalCapture env provider fuel captureId 0 w
  = (Thrown (captureNotFoundMessage env captureId), countFetch w0).
Proof.
  intros Htoken Hanswer Hname Hnet.
  destruct fuel; cbn [verifyPayPalCapture]; rewrite Htoken, Hanswer, Hname, Hnet;
    reflexivity.
Qed.

(** A 404 of the order endpoint makes the order lookup throw an error
    whose message mentions 404. *)
Lemma order_404_throws (orderId token : string) (errorName : option string) (w w0 : World) :
  getAccessToken env provider fuel 0 w = (Returned token, w0) ->
  orderEndpoint provider (fetches w0) token orderId = Failure 404 errorName ->
  isServiceUnavailable errorName = false ->
  verifyPayPalOrder env provider fuel orderId 0 w
  = (Thrown "Failed to verify PayPal order: PayPal order verification failed: 404",
     countFetch w0).
Proof.
  intros Htoken Hanswer Hname.
  destruct fuel; cbn [verifyPayPalOrder]; rewrite Htoken, Hanswer, Hname; reflexivity.
Qed.

End NotFound.

Section ThrownMessages.

Variable env : Env.
Variable provider : Provider.

Lemma getAccessToken_thrown (fuel retryCount : nat) (w w' : World) (m : string) :
  getAccessToken env provider fuel retryCount w = (Thrown m, w') ->
  isProviderErrorMessage m.
Proof.
  revert retryCount w.
  induction fuel as [|fuel IH]; intros retryCount w; cbn [getAccessToken];
    (destruct (accessTokenCache w) as [[token expiresAt]|];
     [destruct (now w <? expiresAt); [discriminate|]|]);
    (destruct (negb _ || negb _); [intros H; inversion H; left; reflexivity|]);
    (destruct (tokenEndpoint _ _ _ _) as [message|status errorName|data]; [| |discriminate]);
    repeat match goal with
           | |- context [if ?b then _ else _] => destruct b
           end;
    try discriminate; try (apply IH);
    intros H; inversion H; right; left; eexists; reflexivity.
Qed.

Lemma verifyPayPalOrder_thrown (fuel : nat) (orderId : string) (retryCount : nat)
    (w w' : World) (m : string) :
  verifyPayPalOrder env provider fuel orderId retryCount w = (Thrown m, w') ->
  isProviderErrorMessage m.
Proof.
  revert retryCount w.
  induction fuel as [|fuel IH]; intros retryCount w; cbn [verifyPayPalOrder];
    (destruct (getAccessToken _ _ _ _ _) as [[token|m0|] w0] eqn:Htoken;
     [| intros H; inversion H; subst; exact (getAccessToken_thrown _ _ _ _ _ Htoken)
      | discriminate]);
    (destruct (orderEndpoint _ _ _ _) as [message|status errorName|data]; [| |discriminate]);
    repeat match goal with
           | |- context [if ?b then _ else _] => destruct b
           end;
    try discriminate; try (apply IH);
    intros H; inversion H; right; right; eexists; reflexivity.
Qed.

(** Every error of the verifier is one of three kinds: both lookups
    reported missing, the order reported missing, or the error of the
    order lookup as it was thrown. *)
Lemma verifyPayPalPayment_thrown (fuel : nat) (orderId : string) (expectedAmount : Js.number)
    (expectedCurrency : string) (captureId : option string) (w w' : World) (m : string) :
  verifyPayPalPayment env provider fuel orderId expectedAmount expectedCurrency captureId w
  = (Thrown m, w') ->
  m = bothNotFoundMessage (default "" captureId) orderId
  \/ m = orderNotFoundMessage orderId
  \/ isProviderErrorMessage m.
Proof.
  assert (Hvia : forall w0,
             verifyViaOrder env provider fuel orderId expectedAmount expectedCurrency captureId w0
             = (Thrown m, w') ->
             m = bothNotFoundMessage (default "" captureId) orderId
             \/ m = orderNotFoundMessage orderId
             \/ isProviderErrorMessage m).
  { intros w0. unfold verifyViaOrder.
    destruct (verifyPayPalOrder env provider fuel orderId 0 w0) as [[order|m0|] w1] eqn:Horder.
    - repeat match goal with
             | |- context [if ?b then _ else _] => destruct b
             | |- context [match ?x with _ => _ end] => destruct x
             end; discriminate.
    - destruct (_ || _).
      + destruct (truthy captureId); intros H; inversion H; auto.
      + intros H. inversion H; subst. right. right.
        exact (verifyPayPalOrder_thrown _ _ _ _ _ _ Horder).
    - discriminate. }
  unfold verifyPayPalPayment. destruct (truthy captureId); [|apply Hvia].
  destruct (verifyPayPalCapture _ _ _ _ _ _) as [[capture|m0|] w1]; [| apply Hvia | discriminate].
  repeat match goal with
         | |- context [if ?b then _ else _] => destruct b
         end; try discriminate.
  destruct (verifyPayPalOrder _ _ _ _ _ _) as [[order|m1|] w2]; discriminate.
Qed.

End ThrownMessages.

(** The three kinds of message differ. *)
Lemma bothNotFound_not_orderNotFound (captureId orderId orderId' : string) :
  bothNotFoundMessage captureId orderId <> orderNotFoundMessage orderId'.
Proof. unfold bothNotFoundMessage, orderNotFoundMessage. cbn. intros E. inversion E. Qed.

Lemma providerError_not_bothNotFound (m captureId orderId : string) :
  isProviderErrorMessage m -> m <> bothNotFoundMessage captureId orderId.
Proof.
  unfold bothNotFoundMessage.
  intros [->|[[m' ->]|[m' ->]]] E; cbn in E; inversion E.
Qed.

Lemma providerError_not_orderNotFound (m orderId : string) :
  isProviderErrorMessage m -> m <> orderNotFoundMessage orderId.
Proof.
  unfold orderNotFoundMessage.
  intros [->|[[m' ->]|[m' ->]]] E; cbn in E; inversion E.
Qed.

(** With tokens granted, credentials or not. *)
Lemma getAccessToken_granted_returns (env : Env) (provider : Provider) :
  tokenAlwaysGranted provider ->
  credentialsConfigured env = true ->
  forall (fuel retryCount : nat) (w : World),
    exists token w0, getAccessToken env provider fuel retryCount w = (Returned token, w0).
Proof.
  intros Hgranted Hcred fuel retryCount w.
  unfold credentialsConfigured in Hcred. apply andb_prop in Hcred as [H1 H2].
  destruct fuel; cbn [getAccessToken];
    (destruct (accessTokenCache w) as [[token expiresAt]|];
     [destruct (now w <? expiresAt); [eexists _, _; reflexivity|]|]);
    rewrite H1, H2; cbn [negb orb];
    destruct (Hgranted (fetches w) (default "" (paypalClientId env))
                       (default "" (paypalClientSecret env))) as [data ->];
    eexists _, _; reflexivity.
Qed.

(** A capture endpoint that answers 404 to every request makes the
    capture lookup throw its not-found error for every capture id:
    at once, or after the retries an id or an error name brings about. *)
Lemma capture_always_404_throws (env : Env) (provider : Provider) :
  tokenAlwaysGranted provider ->
  credentialsConfigured env = true ->
  captureNotFound provider ->
  forall (fuel retryCount : nat) (captureId : string) (w : World),
    (maxRetries <= fuel + retryCount)%nat ->
    exists w1, verifyPayPalCapture env provider fuel captureId retryCount w
               = (Thrown (captureNotFoundMessage env captureId), w1).
Proof.
  intros Hgranted Hcred H404.
  induction fuel as [|fuel IH]; intros retryCount captureId w Hfuel; cbn [verifyPayPalCapture].
  - destruct (getAccessToken_granted_returns env provider Hgranted Hcred 0%nat 0%nat w)
      as [token [w0 ->]].
    destruct (H404 (fetches w0) token captureId) as [errorName ->].
    assert (Hrc : (retryCount <? maxRetries)%nat = false) by (apply Nat.ltb_ge; lia).
    rewrite Hrc, andb_false_r. cbn [Nat.eqb andb]. eexists. reflexivity.
  - destruct (getAccessToken_granted_returns env provider Hgranted Hcred (S fuel) 0%nat w)
      as [token [w0 ->]].
    destruct (H404 (fetches w0) token captureId) as [errorName ->].
    destruct (retryCount <? maxRetries)%nat eqn:Hrc.
    + apply Nat.ltb_lt in Hrc.
      destruct (((404 =? 503)%nat || isServiceUnavailable errorName) && true);
        [apply IH; lia|].
      cbn [Nat.eqb andb].
      destruct (isNetworkError (captureNotFoundMessage env captureId));
        [apply IH; lia | eexists; reflexivity].
    + rewrite andb_false_r. cbn [Nat.eqb andb]. eexists. reflexivity.
Qed.

(** An order endpoint that answers 404 makes the order lookup throw an
    error that reads as not found. *)
Lemma order_always_404_throws (env : Env) (provider : Provider) :
  tokenAlwaysGranted provider ->
  credentialsConfigured env = true ->
  orderNotFound provider ->
  forall (fuel : nat) (orderId : string) (w : World),
    exists w1, verifyPayPalOrder env provider fuel orderId 0 w
               = (Thrown "Failed to verify PayPal order: PayPal order verification failed: 404",
                  w1).
Proof.
  intros Hgranted Hcred H404 fuel orderId w.
  destruct (getAccessToken_granted_returns env provider Hgranted Hcred fuel 0%nat w)
    as [token [w0 Htoken]].
  destruct (H404 (fetches w0) token orderId) as [errorName [Hanswer Hname]].
  eexists. exact (order_404_throws env provider fuel orderId token errorName w w0
                    Htoken Hanswer Hname).
Qed.

(** C5, as the code has it.  A capture endpoint that answers 404 makes
    the lookup of the capture id fail, for every capture id.  And when
    the lookup of the capture id fails and the lookup of the order
    returns a completed order whose first capture is completed, in the
    expected currency and within 0.01 of the expected amount as binary64
    computes it ([Math.abs(parseFloat(value) - expected) <= 0.01]), the
    verifier returns [verified = true] with that capture and that
    order. *)
Theorem C5_order_fallback
    (env : Env) (provider : Provider) (fuel : nat) (orderId : string)
    (expectedAmount : Js.number) (expectedCurrency : string) (captureId : option string)
    (w : World) :
  truthy captureId = true ->
  (tokenAlwaysGranted provider -> credentialsConfigured env = true ->
   captureNotFound provider -> (maxRetries <= fuel)%nat ->
   exists w1 : World,
     verifyPayPalCapture env provider fuel (default "" captureId) 0 w
     = (Thrown (captureNotFoundMessage env (default "" captureId)), w1))
  /\ forall (message : string) (w1 w2 : World) (order : PayPalOrderResponse)
            (capture : PayPalCaptureDetails) (rest : list PayPalCaptureDetails),
       verifyPayPalCapture env provider fuel (default "" captureId) 0 w = (Thrown message, w1) ->
       verifyPayPalOrder env provider fuel orderId 0 w1 = (Returned order, w2) ->
       order_status order = ORDER_COMPLETED ->
       orderCaptures order = Some (capture :: rest) ->
       captureAcceptable capture expectedAmount expectedCurrency = true ->
       verifyPayPalPayment env provider fuel orderId expectedAmount expectedCurrency captureId w
       = (Returned {| verified := true; captureDetails := Some capture;
                      orderDetails := Some order |}, w2).
Proof.
  intros Hcid. split.
  - intros Hgranted Hcred H404 Hfuel.
    apply (capture_always_404_throws env provider Hgranted Hcred H404). lia.
  - intros message w1 w2 order capture rest Hcapture Horder Hstatus Hcaptures Hok.
    rewrite (capture_thrown_falls_back env provider fuel orderId expectedAmount expectedCurrency
               captureId w w1 message Hcapture Hcid).
    rewrite (verdict_via_order env provider fuel orderId expectedAmount expectedCurrency
               captureId w1 w2 order capture rest Horder Hstatus Hcaptures).
    rewrite (captureAcceptable_passes _ _ _ Hok). reflexivity.
Qed.

(** The capture id [fetch-1]: its 404 is retried three times as a
    network error, for its message contains [fetch], and then thrown. *)
Lemma C5_order_fallback_witness :
  let order := orderOf ORDER_COMPLETED [captureOf COMPLETED "GBP" "5.00"] in
  let provider := providerOf (Failure 404 None) (Success order) in
  fst (verifyPayPalPayment sandboxEnv provider 3 "O1" 5%float "GBP" (Some "fetch-1")
         tokenWorld)
  = Returned {| verified := true;
                captureDetails := Some (captureOf COMPLETED "GBP" "5.00");
                orderDetails := Some order |}.
Proof.
  intros order provider.
  rewrite (proj2 (C5_order_fallback sandboxEnv provider 3 "O1" 5%float "GBP" (Some "fetch-1")
                    tokenWorld eq_refl)
             (captureNotFoundMessage sandboxEnv "fetch-1")
             (snd (verifyPayPalCapture sandboxEnv provider 3 "fetch-1" 0 tokenWorld))
             (snd (verifyPayPalOrder sandboxEnv provider 3 "O1" 0
                     (snd (verifyPayPalCapture sandboxEnv provider 3 "fetch-1" 0 tokenWorld))))
             order (captureOf COMPLETED "GBP" "5.00") []
             eq_refl eq_refl eq_refl eq_refl eq_refl).
  reflexivity.
Defined.

(** C5 as stated fails at the edge of the tolerance.  The capture id is
    answered 404, the order is completed and its first capture is
    completed, in GBP, with the amount 20.01 against an expected 20.00:
    the amounts differ by 0.01, which is within the tolerance, and the
    verifier returns [verified = false].  In binary64 the difference of
    20.01 and 20 is above 0.01, the spacing of the numbers near 20 being
    wider than near 0.01; at 5.01 against 5.00 it is not. *)
Lemma C5_boundary_amount_refused :
  let capture := captureOf COMPLETED "GBP" "20.01" in
  let order := orderOf ORDER_COMPLETED [capture] in
  let provider := providerOf (Failure 404 None) (Success order) in
  acceptableOnAmounts capture 20%float "GBP" = true
  /\ fst (verifyPayPalCapture sandboxEnv provider 3 "C1" 0 tokenWorld)
     = Thrown (captureNotFoundMessage sandboxEnv "C1")
  /\ fst (verifyPayPalOrder sandboxEnv provider 3 "O1" 0 tokenWorld) = Returned order
  /\ fst (verifyPayPalPayment sandboxEnv provider 3 "O1" 20%float "GBP" (Some "C1") tokenWorld)
     = Returned {| verified := false; captureDetails := Some capture;
                   orderDetails := Some order |}
  /\ Js.gt (Js.Math_abs (Js.parseFloat "20.01" - 20)%float) 0.01%float = true
  /\ acceptableOnAmounts (captureOf COMPLETED "GBP" "5.01") 5%float "GBP" = true
  /\ fst (verifyPayPalPayment sandboxEnv
            (providerOf (Failure 404 None)
               (Success (orderOf ORDER_COMPLETED [captureOf COMPLETED "GBP" "5.01"])))
            3 "O1" 5%float "GBP" (Some "C1") tokenWorld)
     = Returned {| verified := true;
                   captureDetails := Some (captureOf COMPLETED "GBP" "5.01");
                   orderDetails :=
                     Some (orderOf ORDER_COMPLETED [captureOf COMPLETED "GBP" "5.01"]) |}.
Proof. vm_compute. repeat split. Qed.

(** C6, as the code has it.  With a capture id, the verifier throws the
    error whose message names both ids and speaks of an environment
    mismatch exactly when the capture lookup threw, whatever its error,
    and the order lookup threw an error whose message contains [404] or
    [RESOURCE_NOT_FOUND].  Both lookups answered 404 raise it, the error
    body of the order not being named SERVICE_UNAVAILABLE.  Its message
    is not the message thrown when only an order id was given and the
    order is missing, and it is not the message of any error the order
    lookup or the token exchange throws; every error of the verifier is
    of one of these three kinds. *)
Theorem C6_environment_mismatch
    (env : Env) (provider : Provider) (fuel : nat) (orderId : string)
    (expectedAmount : Js.number) (expectedCurrency : string) (captureId : option string)
    (w : World) :
  (forall w' : World,
     verifyPayPalPayment env provider fuel orderId expectedAmount expectedCurrency captureId w
     = (Thrown (bothNotFoundMessage (default "" captureId) orderId), w')
     <-> truthy captureId = true
         /\ exists (captureMessage orderMessage : string) (w1 : World),
              verifyPayPalCapture env provider fuel (default "" captureId) 0 w
              = (Thrown captureMessage, w1)
              /\ verifyPayPalOrder env provider fuel orderId 0 w1 = (Thrown orderMessage, w')
              /\ readsAsNotFound orderMessage = true)
  /\ (truthy captureId = true ->
      tokenAlwaysGranted provider -> credentialsConfigured env = true ->
      captureNotFound provider -> orderNotFound provider ->
      (maxRetries <= fuel)%nat ->
      exists w' : World,
        verifyPayPalPayment env provider fuel orderId expectedAmount expectedCurrency captureId w
        = (Thrown (bothNotFoundMessage (default "" captureId) orderId), w'))
  /\ (forall orderId' : string,
        bothNotFoundMessage (default "" captureId) orderId <> orderNotFoundMessage orderId')
  /\ (forall (fuel' : nat) (orderId' : string) (w' w'' : World) (m : string),
        verifyPayPalOrder env provider fuel' orderId' 0 w' = (Thrown m, w'') ->
        m <> bothNotFoundMessage (default "" captureId) orderId)
  /\ (forall (fuel' : nat) (orderId' : string) (amount' : Js.number) (currency' : string)
             (captureId' : option string) (w' w'' : World) (m : string),
        verifyPayPalPayment env provider fuel' orderId' amount' currency' captureId' w'
        = (Thrown m, w'') ->
        m = bothNotFoundMessage (default "" captureId') orderId'
        \/ m = orderNotFoundMessage orderId'
        \/ isProviderErrorMessage m).
Proof.
  assert (Hvia : forall w0 w',
             verifyViaOrder env provider fuel orderId expectedAmount expectedCurrency captureId w0
             = (Thrown (bothNotFoundMessage (default "" captureId) orderId), w')
             <-> truthy captureId = true
                 /\ exists orderMessage,
                      verifyPayPalOrder env provider fuel orderId 0 w0
                      = (Thrown orderMessage, w')
                      /\ readsAsNotFound orderMessage = true).
  { intros w0 w'. unfold verifyViaOrder, readsAsNotFound.
    destruct (verifyPayPalOrder env provider fuel orderId 0 w0) as [[order|mo|] w1] eqn:Horder.
    - split.
      + repeat match goal with
               | |- context [if ?b then _ else _] => destruct b
               | |- context [match ?x with _ => _ end] => destruct x
               end; discriminate.
      + intros [_ [mo [H _]]]. discriminate H.
    - destruct (includes "404" mo || includes "RESOURCE_NOT_FOUND" mo) eqn:H404.
      + destruct (truthy captureId) eqn:Hcid.
        * split.
          -- intros H. assert (Hw : w1 = w') by congruence. subst w'.
             split; [reflexivity|]. exists mo. split; [reflexivity | exact H404].
          -- intros [_ [mo' [H _]]]. assert (Hw : w1 = w') by congruence. subst w'.
             reflexivity.
        * split.
          -- intros H. exfalso.
             apply (bothNotFound_not_orderNotFound (default "" captureId) orderId orderId).
             congruence.
          -- intros [H _]. discriminate H.
      + split.
        * intros H. exfalso.
          apply (providerError_not_bothNotFound mo (default "" captureId) orderId
                   (verifyPayPalOrder_thrown env provider fuel orderId 0 w0 w1 mo Horder)).
          congruence.
        * intros [_ [mo' [H Hreads]]]. inversion H; subst. congruence.
    - split; [discriminate|]. intros [_ [mo [H _]]]. discriminate H. }
  split; [|split; [|split; [|split]]].
  - intros w'. unfold verifyPayPalPayment.
    destruct (truthy captureId) eqn:Hcid.
    + destruct (verifyPayPalCapture env provider fuel (default "" captureId) 0 w)
        as [[capture|mc|] w1] eqn:Hcapture.
      * split.
        -- repeat match goal with
                  | |- context [if ?b then _ else _] => destruct b
                  end; try discriminate.
           destruct (verifyPayPalOrder _ _ _ _ _ _) as [[order|m1|] w2]; discriminate.
        -- intros [_ [mc [mo [w1' [H _]]]]]. discriminate H.
      * rewrite Hvia. split.
        -- intros [_ [mo [Horder Hreads]]]. split; [reflexivity|].
           exists mc, mo, w1. repeat split; assumption.
        -- intros [_ [mc' [mo [w1' [H [Horder Hreads]]]]]]. inversion H; subst.
           split; [reflexivity|]. exists mo. split; assumption.
      * split; [discriminate|]. intros [_ [mc [mo [w1' [H _]]]]]. discriminate H.
    + rewrite Hvia. split; intros [H _]; discriminate H.
  - intros Hcid Hgranted Hcred Hcapture Horder Hfuel.
    destruct (capture_always_404_throws env provider Hgranted Hcred Hcapture fuel 0%nat
                (default "" captureId) w) as [w1 Hc]; [lia|].
    destruct (order_always_404_throws env provider Hgranted Hcred Horder fuel orderId w1)
      as [w2 Ho].
    exists w2.
    rewrite (capture_thrown_falls_back env provider fuel orderId expectedAmount expectedCurrency
               captureId w w1 _ Hc Hcid).
    unfold verifyViaOrder. rewrite Ho, Hcid. reflexivity.
  - intros orderId'. apply bothNotFound_not_orderNotFound.
  - intros fuel' orderId' w' w'' m Hthrown.
    apply providerError_not_bothNotFound.
    exact (verifyPayPalOrder_thrown env provider fuel' orderId' 0 w' w'' m Hthrown).
  - intros fuel' orderId' amount' currency' captureId' w' w'' m Hthrown.
    exact (verifyPayPalPayment_thrown env provider fuel' orderId' amount' currency'
             captureId' w' w'' m Hthrown).
Qed.

Lemma C6_environment_mismatch_witness :
  exists w' : World,
    verifyPayPalPayment sandboxEnv (providerOf (Failure 404 None) (Failure 404 None)) 3
                        "O1" 5%float "GBP" (Some "fetch-1") tokenWorld
    = (Thrown (bothNotFoundMessage "fetch-1" "O1"), w').
Proof.
  refine (proj1 (proj2 (C6_environment_mismatch sandboxEnv
                          (providerOf (Failure 404 None) (Failure 404 None)) 3
                          "O1" 5%float "GBP" (Some "fetch-1") tokenWorld)) _ _ _ _ _ _).
  - reflexivity.
  - intros n a b. exists tokenResponse. reflexivity.
  - reflexivity.
  - intros n token captureId. exists None. reflexivity.
  - intros n token orderId. exists None. split; reflexivity.
  - unfold maxRetries. lia.
Defined.

(** C6 as stated fails.  The mismatch error does not tell a double
    not-found from a single one: with the capture lookup answered 500
    and only the order answered 404, the verifier throws the very error
    it throws when both are answered 404.  And a double not-found does
    not always raise it: when both lookups are answered 404 with an
    error body named SERVICE_UNAVAILABLE, the verifier throws the error
    of an unavailable service. *)
Lemma C6_mismatch_not_a_double_not_found :
  fst (verifyPayPalCapture sandboxEnv (providerOf (Failure 500 None) (Failure 404 None)) 3
         "C1" 0 tokenWorld)
  = Thrown "PayPal capture verification failed: 500"
  /\ fst (verifyPayPalPayment sandboxEnv (providerOf (Failure 500 None) (Failure 404 None)) 3
            "O1" 5%float "GBP" (Some "C1") tokenWorld)
     = Thrown (bothNotFoundMessage "C1" "O1")
  /\ fst (verifyPayPalPayment sandboxEnv (providerOf (Failure 404 None) (Failure 404 None)) 3
            "O1" 5%float "GBP" (Some "C1") tokenWorld)
     = Thrown (bothNotFoundMessage "C1" "O1")
  /\ fst (verifyPayPalPayment sandboxEnv
            (providerOf (Failure 404 (Some "SERVICE_UNAVAILABLE"))
                        (Failure 404 (Some "SERVICE_UNAVAILABLE")))
            6 "O1" 5%float "GBP" (Some "C1") tokenWorld)
     = Thrown "Failed to verify PayPal order: PayPal service is currently unavailable. Please try again in a few moments.".
Proof. vm_compute. repeat split. Qed.

(* ===================================================================== *)
(** * The verdict and the tolerance *)
(* ===================================================================== *)

(** When the difference of the amounts is a number, the verdict on a
    fetched capture is: [verified] holds exactly for a completed capture
    in the expected currency within 0.01 of the expected amount as
    binary64 computes it, and a capture that fails a test gives a
    result, not an error. *)
Lemma verdict_on_numbers
    (env : Env) (provider : Provider) (fuel : nat) (orderId : string)
    (expectedAmount : Js.number) (expectedCurrency : string) (captureId : option string)
    (w w1 : World) (capture : PayPalCaptureDetails) :
  PrimFloat.is_nan
    (Js.Math_abs (Js.parseFloat (value (amount capture)) - expectedAmount)%float) = false ->
  truthy captureId = true ->
  verifyPayPalCapture env provider fuel (default "" captureId) 0 w = (Returned capture, w1) ->
  isPending (fst (verifyPayPalOrder env provider fuel orderId 0 w1)) = false ->
  exists (r : VerificationResult) (w' : World),
    verifyPayPalPayment env provider fuel orderId expectedAmount expectedCurrency captureId w
    = (Returned r, w')
    /\ verified r = captureAcceptable capture expectedAmount expectedCurrency
    /\ captureDetails r = Some capture.
Proof.
  intros Hnum Hcid Hcap Hpending.
  destruct (verdict_via_capture env provider fuel orderId expectedAmount expectedCurrency
              captureId w w1 capture Hcid Hcap) as [Hno Hyes].
  rewrite <- (capturePasses_iff_acceptable capture expectedAmount expectedCurrency Hnum).
  destruct (capturePasses capture expectedAmount expectedCurrency).
  - destruct (verifyPayPalOrder env provider fuel orderId 0 w1) as [o w2] eqn:Horder.
    eexists _, _. split; [exact (Hyes eq_refl o w2 eq_refl Hpending)|]. split; reflexivity.
  - eexists _, _. split; [exact (Hno eq_refl)|]. split; reflexivity.
Qed.

(** C4 at a capture whose amount is not a number: the capture is
    completed and in the expected currency, its value ["abc"] parses to
    [NaN], so it is not within 0.01 of the expected 5.00; both the
    capture strategy and the order strategy return [verified = true],
    and the controller credits the balance. *)
Theorem C4_unparsable_amount_verified :
  let capture := captureOf COMPLETED "GBP" "abc" in
  let order := orderOf ORDER_COMPLETED [capture] in
  captureAcceptable capture 5%float "GBP" = false
  /\ fst (verifyPayPalPayment sandboxEnv (providerOf (Success capture) (Failure 404 None)) 3
            "O1" 5%float "GBP" (Some "C1") tokenWorld)
     = Returned {| verified := true; captureDetails := Some capture; orderDetails := None |}
  /\ fst (verifyPayPalPayment sandboxEnv (providerOf (Failure 404 None) (Success order)) 3
            "O1" 5%float "GBP" None tokenWorld)
     = Returned {| verified := true; captureDetails := Some capture;
                   orderDetails := Some order |}
  /\ fst (run sandboxEnv (providerOf (Success capture) (Failure 404 None)) 3
            (recordPayPalPayment sandboxEnv
               (requestFor (Js.Num 5000%float) (Js.Str "O1") (Some "C1")))
            (storeWith 10%float []))
     = Json 200 (messageAndBalance "Payment verified and balance updated successfully."
                                   15%float).
Proof. vm_compute. repeat split. Qed.

(* ===================================================================== *)
(** * Retries *)
(* ===================================================================== *)

Lemma retried_sleeps (n retryCount : nat) (w : World) :
  sleeps (retried n retryCount w) = (sleeps w ++ backoff retryCount n)%list.
Proof.
  revert retryCount w. unfold backoff.
  induction n as [|n IH]; intros retryCount w; cbn [retried List.seq List.map].
  - now rewrite app_nil_r.
  - rewrite IH. cbn [sleeps sleep countFetch]. now rewrite <- app_assoc.
Qed.

Lemma retried_fetches (n retryCount : nat) (w : World) :
  fetches (retried n retryCount w) = (fetches w + n)%nat.
Proof.
  revert retryCount w.
  induction n as [|n IH]; intros retryCount w; cbn [retried].
  - lia.
  - rewrite IH. cbn [fetches sleep countFetch]. lia.
Qed.

Lemma retried_cache (n retryCount : nat) (w : World) :
  accessTokenCache (retried n retryCount w) = accessTokenCache w.
Proof.
  revert retryCount w.
  induction n as [|n IH]; intros retryCount w; cbn [retried]; [reflexivity|].
  rewrite IH. reflexivity.
Qed.

(** A token endpoint that answers 503 to every request is asked again
    and again: with no token cached the exchange is still pending after
    any number of retries, whatever the retry count it started from. *)
Lemma token_exchange_503_never_returns (env : Env) (provider : Provider) :
  credentialsConfigured env = true ->
  (forall (n : nat) (clientId clientSecret : string),
      exists errorName, tokenEndpoint provider n clientId clientSecret = Failure 503 errorName) ->
  forall (fuel retryCount : nat) (w : World),
    accessTokenCache w = None ->
    getAccessToken env provider fuel retryCount w = (Pending, retried (S fuel) retryCount w).
Proof.
  intros Hcred Hdown. unfold credentialsConfigured in Hcred.
  apply andb_prop in Hcred as [Hid Hsecret].
  induction fuel as [|fuel IH]; intros retryCount w Hcache; cbn [getAccessToken];
    rewrite Hcache, Hid, Hsecret; cbn [negb orb];
    destruct (Hdown (fetches w) (default "" (paypalClientId env))
                    (default "" (paypalClientSecret env))) as [errorName ->];
    cbn [Nat.eqb orb].
  - reflexivity.
  - rewrite IH by exact Hcache. reflexivity.
Qed.

(** C3 on the token exchange: with the token endpoint answering 503 to
    every request, [getAccessToken] never returns and never throws; for
    every bound [fuel] it has by then sent [fuel + 1] requests and slept
    [fuel + 1] times, for 1s, 2s, 3s, 4s and so on: the retries are not
    limited to three and no error is surfaced. *)
Theorem C3_token_exchange_unbounded (fuel : nat) :
  let result := getAccessToken sandboxEnv unavailableProvider fuel 0 freshWorld in
  fst result = Pending
  /\ fetches (snd result) = S fuel
  /\ sleeps (snd result) = backoff 0 (S fuel)
  /\ backoff 0 6 = [1000; 2000; 3000; 4000; 5000; 6000].
Proof.
  cbv zeta.
  rewrite (token_exchange_503_never_returns sandboxEnv unavailableProvider eq_refl
             (fun _ _ _ => ex_intro _ None eq_refl) fuel 0 freshWorld eq_refl).
  cbn [fst snd]. rewrite retried_sleeps, retried_fetches. repeat split.
Qed.

(** With a token endpoint that grants every request, the token exchange
    settles without a retry. *)
Lemma getAccessToken_granted (env : Env) (provider : Provider) :
  tokenAlwaysGranted provider ->
  forall (fuel retryCount : nat) (w : World),
    isPending (fst (getAccessToken env provider fuel retryCount w)) = false
    /\ sleeps (snd (getAccessToken env provider fuel retryCount w)) = sleeps w.
Proof.
  intros Hgranted fuel retryCount w.
  destruct fuel; cbn [getAccessToken];
    (destruct (accessTokenCache w) as [[token expiresAt]|];
     [destruct (now w <? expiresAt); [split; reflexivity|]|]);
    (destruct (negb _ || negb _); [split; reflexivity|]);
    destruct (Hgranted (fetches w) (default "" (paypalClientId env))
                       (default "" (paypalClientSecret env))) as [data ->];
    split; reflexivity.
Qed.

Lemma backoff_cons (retryCount k : nat) :
  backoff retryCount (S k) = retryDelay retryCount :: backoff (S retryCount) k.
Proof. reflexivity. Qed.

(** What is left to show about a lookup that has settled without a
    further retry, and about one that retries. *)
Ltac lookup_settled Hs :=
  exists 0%nat; cbn [fst snd isPending backoff List.seq List.map];
  rewrite app_nil_r; repeat split; [lia | exact Hs].

Ltac retry_arith :=
  unfold maxRetries in *;
  repeat match goal with
         | H : (_ && _) = true |- _ => apply andb_prop in H as [? ?]
         | H : (_ <? 3)%nat = true |- _ => apply Nat.ltb_lt in H
         end; lia.

(** The order lookup keeps to the bound: given enough fuel for three
    retries it settles, after at most [maxRetries] retries in all, whose
    delays are 1s, 2s, 3s from the first retry on. *)
Lemma verifyPayPalOrder_bounded (env : Env) (provider : Provider) :
  tokenAlwaysGranted provider ->
  forall (fuel retryCount : nat) (orderId : string) (w : World),
    (maxRetries <= fuel + retryCount)%nat ->
    exists k : nat,
      (retryCount + k <= Nat.max retryCount maxRetries)%nat
      /\ isPending (fst (verifyPayPalOrder env provider fuel orderId retryCount w)) = false
      /\ sleeps (snd (verifyPayPalOrder env provider fuel orderId retryCount w))
         = (sleeps w ++ backoff retryCount k)%list.
Proof.
  intros Hgranted.
  induction fuel as [|fuel IH]; intros retryCount orderId w Hfuel; cbn [verifyPayPalOrder].
  - destruct (getAccessToken_granted env provider Hgranted 0%nat 0%nat w) as [Hp Hs].
    destruct (getAccessToken env provider 0 0 w) as [[token|m0|] w0];
      cbn [fst snd isPending] in Hp, Hs; try discriminate; [|lookup_settled Hs].
    destruct (orderEndpoint provider (fetches w0) token orderId)
      as [message|status errorName|data];
      repeat match goal with
             | |- context [if ?b then _ else _] => destruct b eqn:?
             end;
      try (lookup_settled Hs); exfalso; retry_arith.
  - destruct (getAccessToken_granted env provider Hgranted (S fuel) 0%nat w) as [Hp Hs].
    destruct (getAccessToken env provider (S fuel) 0 w) as [[token|m0|] w0];
      cbn [fst snd isPending] in Hp, Hs; try discriminate; [|lookup_settled Hs].
    destruct (orderEndpoint provider (fetches w0) token orderId)
      as [message|status errorName|data];
      repeat match goal with
             | |- context [if ?b then _ else _] => destruct b eqn:?
             end;
      try (lookup_settled Hs);
      match goal with
      | |- context [verifyPayPalOrder env provider fuel orderId (S retryCount) ?w1] =>
          destruct (IH (S retryCount) orderId w1) as [k [Hk [Hp' Hs']]]; [retry_arith|];
          exists (S k); split; [retry_arith|];
          split; [exact Hp'|];
          rewrite Hs'; cbn [sleeps sleep countFetch];
          rewrite Hs, backoff_cons, <- app_assoc; reflexivity
      end.
Qed.

(** The capture lookup keeps to the same bound. *)
Lemma verifyPayPalCapture_bounded (env : Env) (provider : Provider) :
  tokenAlwaysGranted provider ->
  forall (fuel retryCount : nat) (captureId : string) (w : World),
    (maxRetries <= fuel + retryCount)%nat ->
    exists k : nat,
      (retryCount + k <= Nat.max retryCount maxRetries)%nat
      /\ isPending (fst (verifyPayPalCapture env provider fuel captureId retryCount w)) = false
      /\ sleeps (snd (verifyPayPalCapture env provider fuel captureId retryCount w))
         = (sleeps w ++ backoff retryCount k)%list.
Proof.
  intros Hgranted.
  induction fuel as [|fuel IH]; intros retryCount captureId w Hfuel; cbn [verifyPayPalCapture].
  - destruct (getAccessToken_granted env provider Hgranted 0%nat 0%nat w) as [Hp Hs].
    destruct (getAccessToken env provider 0 0 w) as [[token|m0|] w0];
      cbn [fst snd isPending] in Hp, Hs; try discriminate; [|lookup_settled Hs].
    destruct (captureEndpoint provider (fetches w0) token captureId)
      as [message|status errorName|data];
      repeat match goal with
             | |- context [if ?b then _ else _] => destruct b eqn:?
             end;
      try (lookup_settled Hs); exfalso; retry_arith.
  - destruct (getAccessToken_granted env provider Hgranted (S fuel) 0%nat w) as [Hp Hs].
    destruct (getAccessToken env provider (S fuel) 0 w) as [[token|m0|] w0];
      cbn [fst snd isPending] in Hp, Hs; try discriminate; [|lookup_settled Hs].
    destruct (captureEndpoint provider (fetches w0) token captureId)
      as [message|status errorName|data];
      repeat match goal with
             | |- context [if ?b then _ else _] => destruct b eqn:?
             end;
      try (lookup_settled Hs);
      match goal with
      | |- context [verifyPayPalCapture env provider fuel captureId (S retryCount) ?w1] =>
          destruct (IH (S retryCount) captureId w1) as [k [Hk [Hp' Hs']]]; [retry_arith|];
          exists (S k); split; [retry_arith|];
          split; [exact Hp'|];
          rewrite Hs'; cbn [sleeps sleep countFetch];
          rewrite Hs, backoff_cons, <- app_assoc; reflexivity
      end.
Qed.

(** An order endpoint that answers 503 four times in a row: three
    retries after 1s, 2s and 3s, then the error. *)
Example order_lookup_503 :
  verifyPayPalOrder sandboxEnv (providerOf (Failure 503 None) (Failure 503 None)) 3 "O1" 0
                    tokenWorld
  = (Thrown "Failed to verify PayPal order: PayPal order verification failed: 503",
     {| accessTokenCache := accessTokenCache tokenWorld; now := 6000; fetches := 4;
        sleeps := [1000; 2000; 3000] |}).
Proof. reflexivity. Qed.

(* ===================================================================== *)
(** * Duplicate submissions *)
(* ===================================================================== *)

Section Duplicates.

Variable env : Env.
Variable provider : Provider.
Variable fuel : nat.

(** The request of a known user with a valid amount and order id is the
    [loadUser] stage. *)
Lemma handler_valid (req : AuthenticatedRequest) (userId oid : string) :
  req_user req = Some userId ->
  isFinitePositive (Js.Number (body_amount (req_body req))) = true ->
  body_orderId (req_body req) = Js.Str oid -> oid <> EmptyString ->
  recordPayPalPayment env req
  = loadUser env userId (Js.Number (body_amount (req_body req)))
             (default "GBP" (body_currency (req_body req))) oid
             (body_captureId (req_body req)).
Proof.
  intros Huser Hamount Horder Hne. unfold recordPayPalPayment.
  rewrite Huser, amount_rejected_iff, Hamount. cbn [negb].
  rewrite (proj2 (acceptedOrderId_Some _ oid) (conj Horder Hne)). reflexivity.
Qed.

(** A submission whose order is found by the lookup of line 43. *)
Lemma run_loadUser_existing (userId : string) (u : User.Doc) (pa : Js.number)
    (cur oid : string) (cid : option string) (p : Payment.Doc) (s : Sys) :
  userStore s !! userId = Some u -> User.id u = userId ->
  Payment.findOne oid (paymentStore s) = Some p ->
  run env provider fuel (loadUser env userId pa cur oid cid) s
  = (Json 409 (messageAndBalance "This PayPal order has already been recorded."
                                 (normalizedBalance (User.balance u))),
     {| userStore := if isLegacyBalance (User.balance u)
                     then <[userId := User.setBalance (User.balance u / 1000)%float u]> (userStore s)
                     else userStore s;
        paymentStore := paymentStore s;
        world := world s |}).
Proof.
  intros Hstored Hid Hfound. unfold loadUser. cbn [run perform].
  unfold User.findById. rewrite Hstored.
  unfold normalizeLoaded, normalizedBalance, isLegacyBalance.
  destruct (Js.gt (User.balance u) 1000%float).
  - cbn [run perform]. rewrite (save_loaded u) by (rewrite Hid; exact Hstored).
    unfold checkExisting. cbn [run perform setUsers paymentStore]. rewrite Hfound, Hid.
    reflexivity.
  - unfold checkExisting. cbn [run perform]. rewrite Hfound. destruct s; reflexivity.
Qed.

(** An insert the unique index rejects, and the reply that follows. *)
Lemma step_recordPayment_duplicate (userId : string) (user : User.Doc) (pa : Js.number)
    (cur oid : string) (cid : option string) (vr : VerificationResult) (s : Sys) :
  List.existsb (Payment.sameKey (paymentDocument env user pa cur oid cid vr (now (world s))))
               (paymentStore s) = true ->
  step env provider fuel (recordPayment env userId user pa cur oid cid vr) s
  = (alreadyProcessed userId user, s).
Proof.
  intros Hdup. unfold recordPayment. cbn [step perform]. unfold Payment.create.
  rewrite Hdup. reflexivity.
Qed.

Lemma step_alreadyProcessed (userId : string) (user : User.Doc) (s : Sys) :
  step env provider fuel (alreadyProcessed userId user) s
  = (Done (Json 200 (messageAndBalance "Payment already processed."
                       (match userStore s !! userId with
                        | Some d => User.balance d
                        | None => User.balance user
                        end))), s).
Proof. reflexivity. Qed.

End Duplicates.

(** C2, as the code has it: a duplicate found by the lookup before the
    verification is answered with status 409 (Conflict), the message
    that the order has already been recorded and the balance of the
    loaded user; a duplicate rejected by the unique index at the insert
    is answered, one [await] later, with status 200, the message that
    the payment was already processed and the balance stored at that
    moment.  In neither case is a payment inserted or the amount added
    to the balance: the first leaves the state as it was, but for the
    conversion of a balance above 1000, and the two steps of the second
    leave the state they find. *)
Theorem C2_duplicate_replies
    (env : Env) (provider : Provider) (fuel : nat) (req : AuthenticatedRequest)
    (userId oid : string) (u user : User.Doc) (p : Payment.Doc)
    (vr : VerificationResult) (s s1 s2 : Sys) :
  req_user req = Some userId ->
  isFinitePositive (Js.Number (body_amount (req_body req))) = true ->
  body_orderId (req_body req) = Js.Str oid -> oid <> EmptyString ->
  userStore s !! userId = Some u -> User.id u = userId ->
  Payment.findOne oid (paymentStore s) = Some p ->
  let pa := Js.Number (body_amount (req_body req)) in
  let cur := default "GBP" (body_currency (req_body req)) in
  let cid := body_captureId (req_body req) in
  List.existsb (Payment.sameKey (paymentDocument env user pa cur oid cid vr (now (world s1))))
               (paymentStore s1) = true ->
  run env provider fuel (recordPayPalPayment env req) s
  = (Json 409 (messageAndBalance "This PayPal order has already been recorded."
                                 (normalizedBalance (User.balance u))),
     {| userStore := if isLegacyBalance (User.balance u)
                     then <[userId := User.setBalance (User.balance u / 1000)%float u]> (userStore s)
                     else userStore s;
        paymentStore := paymentStore s;
        world := world s |})
  /\ step env provider fuel (recordPayment env userId user pa cur oid cid vr) s1
     = (alreadyProcessed userId user, s1)
  /\ step env provider fuel (alreadyProcessed userId user) s2
     = (Done (Json 200 (messageAndBalance "Payment already processed."
                          (match userStore s2 !! userId with
                           | Some d => User.balance d
                           | None => User.balance user
                           end))), s2).
Proof.
  intros Huser Hamount Horder Hne Hstored Hid Hfound pa cur cid Hdup. repeat split.
  - rewrite (handler_valid env req userId oid Huser Hamount Horder Hne).
    apply run_loadUser_existing with (p := p); assumption.
  - apply step_recordPayment_duplicate. exact Hdup.
Qed.

Lemma C2_duplicate_replies_witness :
  let req := requestFor (Js.Num 5000%float) (Js.Str "O1") None in
  let s := storeWith 15%float [recordedPayment "O1"] in
  run sandboxEnv unavailableProvider 0 (recordPayPalPayment sandboxEnv req) s
  = (Json 409 (messageAndBalance "This PayPal order has already been recorded." 15%float), s)
  /\ step sandboxEnv unavailableProvider 0
          (recordPayment sandboxEnv "u1" (userWith 10%float) 5000%float "GBP" "O1" None
             {| verified := true; captureDetails := None; orderDetails := None |}) s
     = (alreadyProcessed "u1" (userWith 10%float), s)
  /\ step sandboxEnv unavailableProvider 0 (alreadyProcessed "u1" (userWith 10%float)) s
     = (Done (Json 200 (messageAndBalance "Payment already processed." 15%float)), s).
Proof.
  intros req s.
  assert (Hne : "O1" <> EmptyString) by discriminate.
  destruct (C2_duplicate_replies sandboxEnv unavailableProvider 0 req "u1" "O1"
              (userWith 15%float) (userWith 10%float) (recordedPayment "O1")
              {| verified := true; captureDetails := None; orderDetails := None |}
              s s s eq_refl eq_refl eq_refl Hne eq_refl eq_refl eq_refl eq_refl)
    as [Hrun [Hstep1 Hstep2]].
  split; [|split].
  - rewrite Hrun. reflexivity.
  - exact Hstep1.
  - rewrite Hstep2. reflexivity.
Defined.

(** C2 as stated fails: the order O1 is already recorded, the request
    submits it again, and the reply has status 409, which is not a
    success. *)
Lemma C2_precheck_duplicate_is_conflict :
  let req := requestFor (Js.Num 5000%float) (Js.Str "O1") None in
  let s := storeWith 15%float [recordedPayment "O1"] in
  let reply := fst (run sandboxEnv unavailableProvider 0 (recordPayPalPayment sandboxEnv req) s) in
  reply = Json 409 (messageAndBalance "This PayPal order has already been recorded." 15%float)
  /\ isSuccess reply = false.
Proof. vm_compute. split; reflexivity. Qed.

(* ===================================================================== *)
(** * Two submissions of one order *)
(* ===================================================================== *)

Lemma externalId_eqb_refl (a : option string) : Payment.externalId_eqb a a = true.
Proof. destruct a; simpl; [apply String.eqb_refl | reflexivity]. Qed.

Lemma sameKey_sym (p q : Payment.Doc) : Payment.sameKey p q = Payment.sameKey q p.
Proof.
  unfold Payment.sameKey. f_equal.
  - destruct (Payment.provider p), (Payment.provider q); reflexivity.
  - destruct (Payment.externalId p), (Payment.externalId q); simpl; try reflexivity.
    apply String.eqb_sym.
Qed.

Lemma findOne_app_new (ext : string) (p : Payment.Doc) (ps : Payment.Collection) :
  Payment.findOne ext ps = None ->
  Payment.externalId p = Some ext ->
  Payment.findOne ext (ps ++ [p]) = Some p.
Proof.
  unfold Payment.findOne. intros Hnone Hext.
  induction ps as [|q ps IH]; simpl in *.
  - rewrite Hext. simpl. rewrite String.eqb_refl. reflexivity.
  - destruct (Payment.externalId_eqb (Payment.externalId q) (Some ext)); [discriminate|].
    apply IH. exact Hnone.
Qed.

Lemma existsb_sameKey_app (p q : Payment.Doc) (ps : Payment.Collection) :
  Payment.sameKey p q = true -> List.existsb (Payment.sameKey p) (ps ++ [q]) = true.
Proof.
  intros Hpq. rewrite existsb_app. simpl. rewrite Hpq. now rewrite orb_true_r.
Qed.

Lemma uniqueKeys_app (p : Payment.Doc) (ps : Payment.Collection) :
  Payment.uniqueKeys ps = true ->
  List.existsb (Payment.sameKey p) ps = false ->
  Payment.uniqueKeys (ps ++ [p]) = true.
Proof.
  induction ps as [|q ps IH]; simpl; [reflexivity|].
  intros Huniq Hnew. apply andb_prop in Huniq as [Hq Hrest].
  apply orb_false_elim in Hnew as [Hpq Hnew].
  rewrite (IH Hrest Hnew), andb_true_r, existsb_app. simpl.
  rewrite sameKey_sym, Hpq. simpl. rewrite orb_false_r. exact Hq.
Qed.

Lemma recordsOf_app_new (ext : string) (p : Payment.Doc) (ps : Payment.Collection) :
  Payment.findOne ext ps = None ->
  Payment.provider p = Payment.paypal -> Payment.externalId p = Some ext ->
  Payment.recordsOf Payment.paypal ext (ps ++ [p]) = [p]
  /\ Payment.recordsOf Payment.paypal ext ps = [].
Proof.
  unfold Payment.findOne, Payment.recordsOf. intros Hnone Hprov Hext.
  rewrite List.filter_app. simpl. rewrite Hprov, Hext. simpl. rewrite String.eqb_refl.
  assert (Hempty : List.filter
            (fun q => Payment.PaymentProvider_eqb (Payment.provider q) Payment.paypal
                      && Payment.externalId_eqb (Payment.externalId q) (Some ext)) ps = []).
  { induction ps as [|q ps IH]; simpl in *; [reflexivity|].
    destruct (Payment.externalId_eqb (Payment.externalId q) (Some ext)); [discriminate|].
    rewrite andb_false_r. apply IH. exact Hnone. }
  rewrite Hempty. split; reflexivity.
Qed.

(** Every handler ends within six [await]s. *)
Lemma ends_done {R : Type} (n : nat) (r : R) : endsWithin n (Done r).
Proof. exact I. Qed.

Lemma ends_await {R X : Type} (n : nat) (op : Op X) (k : X -> Task R) :
  (forall x : X, endsWithin n (k x)) -> endsWithin (S n) (Await op k).
Proof. intros H. exact H. Qed.

Lemma endsWithin_weaken {R : Type} (n m : nat) (t : Task R) :
  endsWithin n t -> (n <= m)%nat -> endsWithin m t.
Proof.
  revert n m. induction t as [r|X op k IH]; intros n m H Hle; cbn [endsWithin] in *.
  - exact I.
  - destruct n as [|n]; [contradiction|]. destruct m as [|m]; [lia|].
    intros x. apply (IH x n m (H x)). lia.
Qed.

Lemma creditBalance_ends (u : User.Doc) (a : Js.number) : endsWithin 1 (creditBalance u a).
Proof. unfold creditBalance. apply ends_await. intros [|m]; apply ends_done. Qed.

Lemma recordPayment_ends (env : Env) (userId : string) (u : User.Doc) (pa : Js.number)
    (cur oid : string) (cid : option string) (vr : VerificationResult) :
  endsWithin 2 (recordPayment env userId u pa cur oid cid vr).
Proof.
  unfold recordPayment. apply ends_await. intros [|code m].
  - apply creditBalance_ends.
  - destruct (code =? 11000); [|apply ends_done].
    unfold alreadyProcessed. apply ends_await. intros x. apply ends_done.
Qed.

Lemma verifyAndRecord_ends (env : Env) (userId : string) (u : User.Doc) (pa : Js.number)
    (cur oid : string) (cid : option string) :
  endsWithin 3 (verifyAndRecord env userId u pa cur oid cid).
Proof.
  unfold verifyAndRecord. destruct (_ && _).
  - apply endsWithin_weaken with (n := 2%nat); [apply recordPayment_ends | lia].
  - apply ends_await. intros [vr|m|]; try apply ends_done.
    destruct (negb (verified vr)); [apply ends_done | apply recordPayment_ends].
Qed.

Lemma checkExisting_ends (env : Env) (userId : string) (u : User.Doc) (pa : Js.number)
    (cur oid : string) (cid : option string) :
  endsWithin 4 (checkExisting env userId u pa cur oid cid).
Proof.
  unfold checkExisting. apply ends_await. intros [p|]; [apply ends_done|].
  apply verifyAndRecord_ends.
Qed.

Lemma handler_ends (env : Env) (req : AuthenticatedRequest) :
  endsWithin 6 (recordPayPalPayment env req).
Proof.
  unfold recordPayPalPayment.
  destruct (req_user req); [|apply ends_done].
  destruct (_ || _); [apply ends_done|].
  destruct (acceptedOrderId _); [|apply ends_done].
  unfold loadUser. apply ends_await. intros [u|]; [|apply ends_done].
  unfold normalizeLoaded. destruct (Js.gt _ _).
  - apply ends_await. intros [|m]; [apply checkExisting_ends | apply ends_done].
  - apply endsWithin_weaken with (n := 4%nat); [apply checkExisting_ends | lia].
Qed.

Section Steps.

Variable env : Env.
Variable provider : Provider.
Variable fuel : nat.

Lemma step_ends {R : Type} (n : nat) (t : Task R) (s : Sys) :
  endsWithin (S n) t -> endsWithin n (fst (step env provider fuel t s)).
Proof.
  destruct t as [r|X op k]; cbn [endsWithin step]; intros H.
  - exact I.
  - destruct (perform env provider fuel op s) as [x s']. apply H.
Qed.

Lemma ends_zero_done {R : Type} (t : Task R) : endsWithin 0 t -> isDone t = true.
Proof. destruct t; cbn; [reflexivity | contradiction]. Qed.

End Steps.

(** The unique index at work: no [await] of any handler breaks the
    distinctness of the keys, so no schedule of two handlers does. *)
Lemma create_uniqueKeys (p : Payment.Doc) (ps ps' : Payment.Collection) :
  Payment.uniqueKeys ps = true -> Payment.create p ps = Some ps' ->
  Payment.uniqueKeys ps' = true.
Proof.
  unfold Payment.create. intros Huniq.
  destruct (List.existsb (Payment.sameKey p) ps) eqn:Hdup; [discriminate|].
  intros Hcreate. inversion Hcreate. apply uniqueKeys_app; assumption.
Qed.

Section UniqueIndex.

Variable env : Env.
Variable provider : Provider.
Variable fuel : nat.

Lemma perform_uniqueKeys {X : Type} (op : Op X) (s : Sys) :
  Payment.uniqueKeys (paymentStore s) = true ->
  Payment.uniqueKeys (paymentStore (snd (perform env provider fuel op s))) = true.
Proof.
  intros Huniq. destruct op; cbn [perform].
  - exact Huniq.
  - destruct (User.save _ _); exact Huniq.
  - exact Huniq.
  - destruct (Payment.create _ _) as [ps|] eqn:Hcreate; [|exact Huniq].
    exact (create_uniqueKeys _ _ _ Huniq Hcreate).
  - destruct (verifyPayPalPayment _ _ _ _ _ _ _ _). exact Huniq.
Qed.

Lemma step_uniqueKeys {R : Type} (t : Task R) (s : Sys) :
  Payment.uniqueKeys (paymentStore s) = true ->
  Payment.uniqueKeys (paymentStore (snd (step env provider fuel t s))) = true.
Proof.
  intros Huniq. destruct t as [r|X op k]; cbn [step]; [exact Huniq|].
  pose proof (perform_uniqueKeys op s Huniq) as H.
  destruct (perform env provider fuel op s). exact H.
Qed.

Lemma interleave_uniqueKeys {R : Type} (schedule : list bool) (t1 t2 : Task R) (s : Sys) :
  Payment.uniqueKeys (paymentStore s) = true ->
  Payment.uniqueKeys (paymentStore (snd (interleave env provider fuel schedule t1 t2 s))) = true.
Proof.
  revert t1 t2 s. induction schedule as [|[|] schedule IH]; intros t1 t2 s Huniq;
    cbn [interleave].
  - exact Huniq.
  - pose proof (step_uniqueKeys t1 s Huniq) as H.
    destruct (step env provider fuel t1 s). apply IH. exact H.
  - pose proof (step_uniqueKeys t2 s Huniq) as H.
    destruct (step env provider fuel t2 s). apply IH. exact H.
Qed.

End UniqueIndex.

Section TwoSubmissions.

Variable env : Env.
Variable provider : Provider.
Variable fuel : nat.
Variable userId : string.
Variable u0 : User.Doc.
Variable pa : Js.number.
Variable cur oid : string.
Variable cid : option string.
Variable users0 : User.Collection.
Variable payments0 : Payment.Collection.

Hypothesis Hid : User.id u0 = userId.
Hypothesis Hstored : users0 !! userId = Some u0.
Hypothesis Hfresh : Payment.findOne oid payments0 = None.
Hypothesis Hbefore : Js.gt (User.balance u0) 1000%float = false.
Hypothesis Hafter : Js.gt (User.balance u0 + amountInPounds pa)%float 1000%float = false.

Let bystander := Bystander env userId u0 pa cur oid cid.
Let winner := Winner u0 pa.
Let ledger := ledgerState env userId u0 pa cur oid cid users0 payments0.

Lemma ledger_world (l : Ledger) (s : Sys) (w : World) :
  ledger l s -> ledger l (setWorld w s).
Proof. destruct l; exact (fun H => H). Qed.

Lemma bystander_later (l l' : Ledger) (t : Task Reply) :
  l' <> Unrecorded -> (l = Credited -> l' = Credited) ->
  bystander l t -> bystander l' t.
Proof.
  intros Hl' Hmono H. destruct H as [| |Hc| | |Hr|r Hu|x Hr Hx|x Hr Hx].
  - apply by_load.
  - apply by_check.
  - apply by_check_late. auto.
  - apply by_verify.
  - apply by_insert.
  - apply by_reread. exact Hl'.
  - apply by_unverified. exact Hu.
  - apply by_conflict; [exact Hl'|]. destruct Hx as [Hx|[Hc Hx]]; [left|right]; auto.
  - apply by_processed; [exact Hl'|]. destruct Hx as [Hx|[Hc Hx]]; [left|right]; auto.
Qed.

(** The insert of a handler, before and after another one's insert. *)
Lemma step_insert_first (vr : VerificationResult) (s : Sys) :
  ledger Unrecorded s ->
  exists s', step env provider fuel (recordPayment env userId u0 pa cur oid cid vr) s
             = (creditBalance u0 (amountInPounds pa), s')
             /\ ledger Recorded s'.
Proof.
  intros [Husers Hpayments]. unfold recordPayment. cbn [step perform]. unfold Payment.create.
  rewrite Hpayments.
  rewrite (findOne_None_no_duplicate oid
             (paymentDocument env u0 pa cur oid cid vr (now (world s))) _ eq_refl Hfresh).
  eexists. split; [reflexivity|]. split; [exact Husers|].
  exists vr, (now (world s)). reflexivity.
Qed.

Lemma step_insert_late (l : Ledger) (vr : VerificationResult) (s : Sys) :
  l <> Unrecorded -> ledger l s ->
  step env provider fuel (recordPayment env userId u0 pa cur oid cid vr) s
  = (alreadyProcessed userId u0, s).
Proof.
  intros Hl Hs. apply step_recordPayment_duplicate.
  assert (Hp : exists vr' time,
             paymentStore s = (payments0 ++ [paymentDocument env u0 pa cur oid cid vr' time])%list).
  { destruct l; [contradiction | exact (proj2 Hs) | exact (proj2 Hs)]. }
  destruct Hp as [vr' [time ->]]. apply existsb_sameKey_app.
  unfold Payment.sameKey. cbn. apply String.eqb_refl.
Qed.

(** The verification stage: it ends unverified, or goes on to the
    insert; the collections are as before. *)
Lemma step_verify (l : Ledger) (s : Sys) :
  ledger l s ->
  (exists vr, verifyAndRecord env userId u0 pa cur oid cid
              = recordPayment env userId u0 pa cur oid cid vr)
  \/ (exists t' w, step env provider fuel (verifyAndRecord env userId u0 pa cur oid cid) s
                   = (t', setWorld w s)
                   /\ ((exists r, t' = Done r /\ isUnverifiedReply env r)
                       \/ exists vr, t' = recordPayment env userId u0 pa cur oid cid vr)).
Proof.
  intros Hs. unfold verifyAndRecord.
  destruct (paypalSkipVerification env && paypalUseSandbox env).
  - left. eexists. reflexivity.
  - right. cbn [step perform].
    destruct (verifyPayPalPayment env provider fuel oid (amountInPounds pa) cur cid (world s))
      as [[vr|m|] w].
    + destruct (negb (verified vr)).
      * eexists _, w. split; [reflexivity|]. left. eexists. split; [reflexivity|].
        right. right. reflexivity.
      * eexists _, w. split; [reflexivity|]. right. exists vr. reflexivity.
    + eexists _, w. split; [reflexivity|]. left. eexists. split; [reflexivity|].
      right. left. exists m. reflexivity.
    + eexists _, w. split; [reflexivity|]. left. eexists. split; [reflexivity|].
      left. reflexivity.
Qed.

Lemma normalizeLoaded_u0 :
  normalizeLoaded env userId u0 pa cur oid cid = checkExisting env userId u0 pa cur oid cid.
Proof. unfold normalizeLoaded. rewrite Hbefore. reflexivity. Qed.

Lemma normalizeLoaded_credited :
  normalizeLoaded env userId (creditedUser u0 pa) pa cur oid cid
  = checkExisting env userId (creditedUser u0 pa) pa cur oid cid.
Proof. unfold normalizeLoaded, creditedUser. cbn [User.balance User.setBalance]. rewrite Hafter. reflexivity. Qed.

Lemma step_bystander_unrecorded (t : Task Reply) (s : Sys) :
  ledger Unrecorded s -> bystander Unrecorded t ->
  (ledger Unrecorded (snd (step env provider fuel t s))
   /\ bystander Unrecorded (fst (step env provider fuel t s)))
  \/ (ledger Recorded (snd (step env provider fuel t s))
      /\ winner Recorded (fst (step env provider fuel t s))).
Proof.
  intros Hs Ht. pose proof Hs as [Husers Hpayments].
  destruct Ht as [| |Hc| |vr|Hr|r Hu|x Hr Hx|x Hr Hx]; try discriminate; try contradiction.
  - left. unfold loadUser. cbn [step perform fst snd]. unfold User.findById.
    rewrite Husers, Hstored, normalizeLoaded_u0. split; [exact Hs | apply by_check].
  - left. unfold checkExisting. cbn [step perform fst snd].
    rewrite Hpayments, Hfresh. split; [exact Hs | apply by_verify].
  - destruct (step_verify Unrecorded s Hs) as [[vr ->]|[t' [w [-> Ht']]]].
    + right. destruct (step_insert_first vr s Hs) as [s' [-> Hs']]. split; [exact Hs'|].
      apply win_credit.
    + left. cbn [fst snd]. split; [apply ledger_world; exact Hs|].
      destruct Ht' as [[r [-> Hr]]|[vr ->]]; [apply by_unverified; exact Hr | apply by_insert].
  - right. destruct (step_insert_first vr s Hs) as [s' [-> Hs']]. split; [exact Hs'|].
    apply win_credit.
  - left. cbn [step fst snd]. split; [exact Hs | apply by_unverified; exact Hu].
Qed.

Lemma ledger_lookup (l : Ledger) (s : Sys) :
  l <> Unrecorded -> ledger l s ->
  (l = Recorded /\ userStore s !! userId = Some u0)
  \/ (l = Credited /\ userStore s !! userId = Some (creditedUser u0 pa)).
Proof.
  intros Hl Hs. destruct l; [contradiction | left | right]; destruct Hs as [-> _];
    split; try reflexivity; [exact Hstored | apply lookup_insert_eq].
Qed.

Lemma ledger_findOne (l : Ledger) (s : Sys) :
  l <> Unrecorded -> ledger l s ->
  exists p, Payment.findOne oid (paymentStore s) = Some p.
Proof.
  intros Hl Hs.
  assert (Hp : exists vr' time,
             paymentStore s = (payments0 ++ [paymentDocument env u0 pa cur oid cid vr' time])%list).
  { destruct l; [contradiction | exact (proj2 Hs) | exact (proj2 Hs)]. }
  destruct Hp as [vr' [time ->]]. eexists. apply findOne_app_new; [exact Hfresh | reflexivity].
Qed.

Lemma step_bystander_recorded (l : Ledger) (t : Task Reply) (s : Sys) :
  l <> Unrecorded -> ledger l s -> bystander l t ->
  ledger l (snd (step env provider fuel t s))
  /\ bystander l (fst (step env provider fuel t s)).
Proof.
  intros Hl Hs Ht.
  destruct Ht as [| |Hc| |vr|Hr|r Hu|x Hr Hx|x Hr Hx].
  - unfold loadUser. cbn [step perform fst snd]. unfold User.findById.
    destruct (ledger_lookup l s Hl Hs) as [[_ ->]|[Hc ->]].
    + rewrite normalizeLoaded_u0. split; [exact Hs | apply by_check].
    + rewrite normalizeLoaded_credited. split; [exact Hs | apply by_check_late; exact Hc].
  - unfold checkExisting. cbn [step perform fst snd].
    destruct (ledger_findOne l s Hl Hs) as [p ->]. split; [exact Hs|].
    apply by_conflict; [exact Hl | left; reflexivity].
  - unfold checkExisting. cbn [step perform fst snd].
    destruct (ledger_findOne l s Hl Hs) as [p ->]. split; [exact Hs|].
    apply by_conflict; [exact Hl | right; split; [exact Hc | reflexivity]].
  - destruct (step_verify l s Hs) as [[vr ->]|[t' [w [-> Ht']]]].
    + rewrite (step_insert_late l vr s Hl Hs). split; [exact Hs | apply by_reread; exact Hl].
    + cbn [fst snd]. split; [apply ledger_world; exact Hs|].
      destruct Ht' as [[r [-> Hr]]|[vr ->]]; [apply by_unverified; exact Hr | apply by_insert].
  - rewrite (step_insert_late l vr s Hl Hs). split; [exact Hs | apply by_reread; exact Hl].
  - rewrite step_alreadyProcessed. cbn [fst snd]. split; [exact Hs|].
    destruct (ledger_lookup l s Hl Hs) as [[_ ->]|[Hc ->]].
    + apply by_processed; [exact Hl | left; reflexivity].
    + apply by_processed; [exact Hl | right; split; [exact Hc | reflexivity]].
  - cbn [step fst snd]. split; [exact Hs | apply by_unverified; exact Hu].
  - cbn [step fst snd]. split; [exact Hs | apply by_conflict; assumption].
  - cbn [step fst snd]. split; [exact Hs | apply by_processed; assumption].
Qed.

Lemma step_winner (l : Ledger) (t : Task Reply) (s : Sys) :
  ledger l s -> winner l t ->
  ledger Credited (snd (step env provider fuel t s))
  /\ winner Credited (fst (step env provider fuel t s)).
Proof.
  intros Hs Ht. destruct Ht.
  - destruct Hs as [Husers Hpayments].
    unfold creditBalance. cbn [step perform]. unfold User.save.
    cbn [User.id User.setBalance User.balance]. rewrite Husers, Hid, Hstored.
    cbn [fst snd]. split; [|apply win_done].
    split; [reflexivity | exact Hpayments].
  - cbn [step fst snd]. split; [exact Hs | apply win_done].
Qed.

Let flying := inFlight env userId u0 pa cur oid cid users0 payments0.

Lemma inFlight_step_first (t1 t2 : Task Reply) (s : Sys) :
  flying t1 t2 s ->
  flying (fst (step env provider fuel t1 s)) t2 (snd (step env provider fuel t1 s)).
Proof.
  intros [[Hs [H1 H2]]|[l [Hl [Hs [[H1 H2]|[H1 H2]]]]]].
  - destruct (step_bystander_unrecorded t1 s Hs H1) as [[Hs' H1']|[Hs' H1']].
    + left. auto.
    + right. exists Recorded. split; [discriminate|]. split; [exact Hs'|]. left.
      split; [exact H1'|].
      apply (bystander_later Unrecorded Recorded); [discriminate | discriminate | exact H2].
  - destruct (step_winner l t1 s Hs H1) as [Hs' H1'].
    right. exists Credited. split; [discriminate|]. split; [exact Hs'|]. left.
    split; [exact H1'|].
    apply (bystander_later l Credited); [discriminate | reflexivity | exact H2].
  - destruct (step_bystander_recorded l t1 s Hl Hs H1) as [Hs' H1'].
    right. exists l. split; [exact Hl|]. split; [exact Hs'|]. right.
    split; [exact H1'|].
    (* the winner has not moved *)
    exact H2.
Qed.

Lemma inFlight_swap (t1 t2 : Task Reply) (s : Sys) : flying t1 t2 s -> flying t2 t1 s.
Proof.
  intros [[Hs [H1 H2]]|[l [Hl [Hs [[H1 H2]|[H1 H2]]]]]].
  - left. auto.
  - right. exists l. auto.
  - right. exists l. auto.
Qed.

Lemma inFlight_step_second (t1 t2 : Task Reply) (s : Sys) :
  flying t1 t2 s ->
  flying t1 (fst (step env provider fuel t2 s)) (snd (step env provider fuel t2 s)).
Proof. intros H. apply inFlight_swap, inFlight_step_first, inFlight_swap, H. Qed.

Lemma inFlight_interleave (schedule : list bool) (t1 t2 : Task Reply) (s : Sys) :
  flying t1 t2 s ->
  flying (fst (fst (interleave env provider fuel schedule t1 t2 s)))
         (snd (fst (interleave env provider fuel schedule t1 t2 s)))
         (snd (interleave env provider fuel schedule t1 t2 s)).
Proof.
  revert t1 t2 s. induction schedule as [|[|] schedule IH]; intros t1 t2 s H;
    cbn [interleave].
  - exact H.
  - pose proof (inFlight_step_first t1 t2 s H) as H'.
    destruct (step env provider fuel t1 s) as [t1' s']. apply IH. exact H'.
  - pose proof (inFlight_step_second t1 t2 s H) as H'.
    destruct (step env provider fuel t2 s) as [t2' s']. apply IH. exact H'.
Qed.

Lemma inFlight_settled (r1 r2 : Reply) (s : Sys) :
  flying (Done r1) (Done r2) s -> settledOnce env userId u0 pa cur oid cid users0 payments0 r1 r2 s.
Proof.
  assert (Hby : forall l r, bystander l (Done r) ->
            isUnverifiedReply env r
            \/ (l <> Unrecorded
                /\ exists x, readBalance u0 pa l x
                             /\ (r = conflictReply x \/ r = processedReply x))).
  { intros l r H. unfold bystander in H. clear Hid. inversion H; subst.
    - exfalso. unfold verifyAndRecord in *.
      destruct (paypalSkipVerification env && paypalUseSandbox env); discriminate.
    - left. assumption.
    - right. split; [assumption|]. eexists. split; [eassumption | left; reflexivity].
    - right. split; [assumption|]. eexists. split; [eassumption | right; reflexivity]. }
  assert (Hwin : forall l r, winner l (Done r) ->
            l = Credited /\ r = creditedReply (User.balance u0 + amountInPounds pa)%float).
  { intros l r H. unfold winner in H. clear Hid. inversion H; subst. split; reflexivity. }
  assert (Hread : forall l x, readBalance u0 pa l x -> readBalance u0 pa Credited x).
  { intros l x [Hx|[_ Hx]]; [left | right]; auto. }
  intros [[Hs [H1 H2]]|[l [Hl [Hs [[H1 H2]|[H1 H2]]]]]].
  - left. destruct (Hby _ _ H1) as [Hu1|[Hc _]]; [|contradiction].
    destruct (Hby _ _ H2) as [Hu2|[Hc _]]; [|contradiction]. auto.
  - right. destruct (Hwin _ _ H1) as [-> ->]. split; [exact Hs|].
    exists r2. split; [left; split; reflexivity|].
    destruct (Hby _ _ H2) as [Hu|[_ [x [Hx Hr]]]]; [left; exact Hu|].
    right. exists x. split; [exact (Hread _ _ Hx) | exact Hr].
  - right. destruct (Hwin _ _ H2) as [-> ->]. split; [exact Hs|].
    exists r1. split; [right; split; reflexivity|].
    destruct (Hby _ _ H1) as [Hu|[_ [x [Hx Hr]]]]; [left; exact Hu|].
    right. exists x. split; [exact (Hread _ _ Hx) | exact Hr].
Qed.

(** The payment collection of two handlers in flight holds the order at
    most once and keeps the keys of the unique index distinct. *)
Lemma inFlight_unique (t1 t2 : Task Reply) (s : Sys) :
  Payment.uniqueKeys payments0 = true ->
  flying t1 t2 s ->
  Payment.uniqueKeys (paymentStore s) = true
  /\ (List.length (Payment.recordsOf Payment.paypal oid (paymentStore s)) <= 1)%nat.
Proof.
  intros Huniq H.
  assert (Hcases : paymentStore s = payments0
                   \/ exists vr time,
                       paymentStore s
                       = (payments0 ++ [paymentDocument env u0 pa cur oid cid vr time])%list).
  { destruct H as [[[_ Hp] _]|[l [Hl [Hs _]]]]; [left; exact Hp|].
    right. destruct l; [contradiction | exact (proj2 Hs) | exact (proj2 Hs)]. }
  destruct Hcases as [->|[vr [time ->]]].
  - split; [exact Huniq|].
    destruct (recordsOf_app_new oid (paymentDocument env u0 pa cur oid cid
                {| verified := true; captureDetails := None; orderDetails := None |} 0)
                payments0 Hfresh eq_refl eq_refl) as [_ ->].
    cbn. lia.
  - split.
    + apply uniqueKeys_app; [exact Huniq|].
      apply (findOne_None_no_duplicate oid); [reflexivity | exact Hfresh].
    + destruct (recordsOf_app_new oid (paymentDocument env u0 pa cur oid cid vr time)
                  payments0 Hfresh eq_refl eq_refl) as [-> _].
      cbn. lia.
Qed.

End TwoSubmissions.

Section Turns.

Variable env : Env.
Variable provider : Provider.
Variable fuel : nat.

(** A handler that ends within [n] [await]s has ended once the schedule
    has given it [n] turns. *)
Lemma interleave_ends {R : Type} (schedule : list bool) (n1 n2 : nat)
    (t1 t2 : Task R) (s : Sys) :
  endsWithin n1 t1 -> endsWithin n2 t2 ->
  endsWithin (n1 - turns true schedule)
             (fst (fst (interleave env provider fuel schedule t1 t2 s)))
  /\ endsWithin (n2 - turns false schedule)
                (snd (fst (interleave env provider fuel schedule t1 t2 s))).
Proof.
  revert n1 n2 t1 t2 s.
  induction schedule as [|[|] schedule IH]; intros n1 n2 t1 t2 s H1 H2;
    cbn [interleave].
  - cbn. rewrite !Nat.sub_0_r. auto.
  - pose proof (step_ends env provider fuel (n1 - 1) t1 s) as Hstep.
    destruct (step env provider fuel t1 s) as [t1' s'].
    destruct (IH (n1 - 1)%nat n2 t1' t2 s') as [Ha Hb].
    + destruct n1 as [|n1]; cbn [fst] in Hstep.
      * destruct t1; cbn in H1; [|contradiction].
        apply (endsWithin_weaken 0); [|lia].
        apply Hstep. exact I.
      * replace (S n1 - 1)%nat with n1 in * by lia. apply Hstep. exact H1.
    + exact H2.
    + split; [|exact Hb].
      unfold turns in *. cbn [List.filter Bool.eqb List.length].
      replace (n1 - S (List.length (List.filter (Bool.eqb true) schedule)))%nat
        with (n1 - 1 - List.length (List.filter (Bool.eqb true) schedule))%nat by lia.
      exact Ha.
  - pose proof (step_ends env provider fuel (n2 - 1) t2 s) as Hstep.
    destruct (step env provider fuel t2 s) as [t2' s'].
    destruct (IH n1 (n2 - 1)%nat t1 t2' s') as [Ha Hb].
    + exact H1.
    + destruct n2 as [|n2]; cbn [fst] in Hstep.
      * destruct t2; cbn in H2; [|contradiction].
        apply (endsWithin_weaken 0); [|lia].
        apply Hstep. exact I.
      * replace (S n2 - 1)%nat with n2 in * by lia. apply Hstep. exact H2.
    + split; [exact Ha|].
      unfold turns in *. cbn [List.filter Bool.eqb List.length].
      replace (n2 - S (List.length (List.filter (Bool.eqb false) schedule)))%nat
        with (n2 - 1 - List.length (List.filter (Bool.eqb false) schedule))%nat by lia.
      exact Hb.
Qed.

End Turns.

(* ===================================================================== *)
(** * A second submission after a credited one *)
(* ===================================================================== *)

Lemma findOne_app_some (ext : string) (p : Payment.Doc) (ps : Payment.Collection) :
  Payment.externalId p = Some ext ->
  exists q, Payment.findOne ext (ps ++ [p]) = Some q.
Proof.
  intros Hext. destruct (Payment.findOne ext ps) as [q|] eqn:Hfind.
  - exists q. unfold Payment.findOne in *.
    induction ps as [|r ps IH]; simpl in *; [discriminate|].
    destruct (Payment.externalId_eqb (Payment.externalId r) (Some ext)); [exact Hfind|].
    apply IH. exact Hfind.
  - exists p. apply findOne_app_new; assumption.
Qed.

Lemma wellKeyed_save (u : User.Doc) (users users' : User.Collection) :
  wellKeyed users -> User.save u users = Some users' ->
  wellKeyed users'
  /\ exists stored, users !! User.id u = Some stored
                    /\ users' = <[User.id u := User.setBalance (User.balance u) stored]> users.
Proof.
  unfold User.save. intros Hkeyed Hsave.
  destruct (users !! User.id u) as [stored|] eqn:Hstored; [|discriminate].
  inversion Hsave; subst users'. split; [|exists stored; split; reflexivity].
  intros k d. destruct (decide (User.id u = k)) as [<-|Hne].
  - rewrite lookup_insert_eq. intros Hd. inversion Hd. cbn [User.id User.setBalance].
    exact (Hkeyed _ _ Hstored).
  - rewrite lookup_insert_ne by exact Hne. apply Hkeyed.
Qed.

Lemma verificationErrorReply_not_credited (env : Env) (m : string) (b : Js.number) :
  verificationErrorReply env m <> creditedReply b.
Proof.
  unfold verificationErrorReply, creditedReply.
  repeat match goal with
         | |- context [if ?c then _ else _] => destruct c
         end; discriminate.
Qed.

Section AfterCredit.

Variable env : Env.
Variable provider : Provider.
Variable fuel : nat.

Lemma credited_creditBalance (userId oid : string) (u : User.Doc) (a b1 : Js.number)
    (s s1 : Sys) :
  wellKeyed (userStore s) -> User.id u = userId ->
  (exists p, Payment.findOne oid (paymentStore s) = Some p) ->
  run env provider fuel (creditBalance u a) s = (creditedReply b1, s1) ->
  leftBehind userId oid b1 s1.
Proof.
  intros Hkeyed Hid Hpaid. unfold creditBalance. cbn [run perform].
  destruct (User.save _ _) as [users'|] eqn:Hsave; [|discriminate].
  intros Hrun. inversion Hrun; subst.
  destruct (wellKeyed_save _ _ _ Hkeyed Hsave) as [Hkeyed' [stored [Hstored ->]]].
  cbn [User.id User.setBalance User.balance] in *.
  split; [|exact Hpaid].
  eexists. cbn [userStore setUsers]. split; [apply lookup_insert_eq|].
  split; [|reflexivity]. cbn [User.id User.setBalance]. exact (Hkeyed _ _ Hstored).
Qed.

Lemma credited_recordPayment (userId : string) (u : User.Doc) (pa : Js.number)
    (cur oid : string) (cid : option string) (vr : VerificationResult) (b1 : Js.number)
    (s s1 : Sys) :
  wellKeyed (userStore s) -> User.id u = userId ->
  run env provider fuel (recordPayment env userId u pa cur oid cid vr) s = (creditedReply b1, s1) ->
  leftBehind userId oid b1 s1.
Proof.
  intros Hkeyed Hid. unfold recordPayment. cbn [run perform].
  destruct (Payment.create _ _) as [ps|] eqn:Hcreate.
  - apply credited_creditBalance; [exact Hkeyed | exact Hid|].
    unfold Payment.create in Hcreate. destruct (List.existsb _ _); [discriminate|].
    inversion Hcreate. cbn [paymentStore setPayments].
    apply findOne_app_some. reflexivity.
  - cbn [Z.eqb Pos.eqb]. unfold alreadyProcessed. cbn [run perform].
    unfold creditedReply. intros Hrun. inversion Hrun.
Qed.

Lemma credited_checkExisting (userId : string) (u : User.Doc) (pa : Js.number)
    (cur oid : string) (cid : option string) (b1 : Js.number) (s s1 : Sys) :
  wellKeyed (userStore s) -> User.id u = userId ->
  run env provider fuel (checkExisting env userId u pa cur oid cid) s = (creditedReply b1, s1) ->
  leftBehind userId oid b1 s1.
Proof.
  intros Hkeyed Hid. unfold checkExisting. cbn [run perform].
  destruct (Payment.findOne oid (paymentStore s)); [discriminate|].
  unfold verifyAndRecord. destruct (_ && _).
  - apply credited_recordPayment; assumption.
  - cbn [run perform].
    destruct (verifyPayPalPayment _ _ _ _ _ _ _ _) as [[vr|m|] w]; cbn [run].
    + destruct (negb (verified vr)); [discriminate|].
      apply credited_recordPayment; assumption.
    + intros Hrun. inversion Hrun as [[Hreply Hstate]].
      now apply verificationErrorReply_not_credited in Hreply.
    + discriminate.
Qed.

Lemma credited_handler (req : AuthenticatedRequest) (b1 : Js.number) (s s1 : Sys) :
  wellKeyed (userStore s) ->
  run env provider fuel (recordPayPalPayment env req) s = (creditedReply b1, s1) ->
  exists userId oid,
    req_user req = Some userId
    /\ isFinitePositive (Js.Number (body_amount (req_body req))) = true
    /\ body_orderId (req_body req) = Js.Str oid /\ oid <> EmptyString
    /\ leftBehind userId oid b1 s1.
Proof.
  intros Hkeyed. unfold recordPayPalPayment.
  destruct (req_user req) as [userId|]; [|discriminate].
  rewrite amount_rejected_iff.
  destruct (isFinitePositive _) eqn:Hamount; cbn [negb]; [|discriminate].
  destruct (acceptedOrderId _) as [oid|] eqn:Horder; [|discriminate].
  apply acceptedOrderId_Some in Horder as [Horder Hne].
  intros Hrun. exists userId, oid.
  split; [reflexivity|]. split; [reflexivity|]. split; [exact Horder|]. split; [exact Hne|].
  revert Hrun. unfold loadUser. cbn [run perform]. unfold User.findById.
  destruct (userStore s !! userId) as [u|] eqn:Hu; [|discriminate].
  pose proof (Hkeyed _ _ Hu) as Hid.
  unfold normalizeLoaded. destruct (Js.gt _ _).
  - cbn [run perform]. destruct (User.save _ _) as [users'|] eqn:Hsave; [|discriminate].
    destruct (wellKeyed_save _ _ _ Hkeyed Hsave) as [Hkeyed' _].
    apply credited_checkExisting; [exact Hkeyed' | exact Hid].
  - apply credited_checkExisting; assumption.
Qed.

(** After a submission that was credited and left a balance not above
    1000, the same submission is answered with the conflict reply and
    that balance, and changes nothing. *)
Lemma second_submission (req : AuthenticatedRequest) (b1 : Js.number) (s s1 : Sys)
    (provider' : Provider) (fuel' : nat) :
  wellKeyed (userStore s) ->
  run env provider fuel (recordPayPalPayment env req) s = (creditedReply b1, s1) ->
  Js.gt b1 1000%float = false ->
  run env provider' fuel' (recordPayPalPayment env req) s1 = (conflictReply b1, s1).
Proof.
  intros Hkeyed Hrun Hb1.
  destruct (credited_handler req b1 s s1 Hkeyed Hrun)
    as [userId [oid [Huser [Hamount [Horder [Hne [[u1 [Hu1 [Hid1 Hbal1]]] [p Hp]]]]]]]].
  rewrite (handler_valid env req userId oid Huser Hamount Horder Hne).
  rewrite (run_loadUser_existing env provider' fuel' userId u1 _ _ oid _ p s1 Hu1 Hid1 Hp).
  unfold normalizedBalance, isLegacyBalance. rewrite Hbal1, Hb1.
  destruct s1; reflexivity.
Qed.

End AfterCredit.

(* ===================================================================== *)
(** * Idempotent submission *)
(* ===================================================================== *)

(** C1, as the code has it.  For a valid request of a stored user whose
    order is not yet recorded:

    - one after the other: once a submission has been answered with the
      credited reply and a balance not above 1000, the same submission is
      answered with the conflict reply carrying that same balance, and
      leaves users and payments exactly as they were (no second payment,
      no second credit);

    - under every schedule of its handler and the handler of any other
      request, the keys (provider, externalId) of the stored payments
      stay distinct;

    - at the same time: when neither the stored balance nor the balance
      after the credit is above 1000, then under every schedule of the
      [await]s of two handlers of the submission the order is recorded
      at most once; each handler has ended after six turns, and then
      either neither was verified and nothing changed, or exactly one of
      them answered with the credited reply, the balance was raised once
      by the amount, and the other was not verified or answered as a
      duplicate, with the balance before or after the credit. *)
Theorem C1_idempotent_submission
    (env : Env) (provider : Provider) (fuel : nat) (req : AuthenticatedRequest) (s : Sys)
    (userId oid : string) (u0 : User.Doc) :
  req_user req = Some userId ->
  isFinitePositive (Js.Number (body_amount (req_body req))) = true ->
  body_orderId (req_body req) = Js.Str oid -> oid <> EmptyString ->
  wellKeyed (userStore s) -> userStore s !! userId = Some u0 ->
  Payment.findOne oid (paymentStore s) = None ->
  Payment.uniqueKeys (paymentStore s) = true ->
  let pa := Js.Number (body_amount (req_body req)) in
  let cur := default "GBP" (body_currency (req_body req)) in
  let cid := body_captureId (req_body req) in
  let handler := recordPayPalPayment env req in
  (forall (b1 : Js.number) (s1 : Sys) (provider' : Provider) (fuel' : nat),
      run env provider fuel handler s = (creditedReply b1, s1) ->
      Js.gt b1 1000%float = false ->
      run env provider' fuel' handler s1 = (conflictReply b1, s1))
  /\ (forall (schedule : list bool) (other : AuthenticatedRequest),
        Payment.uniqueKeys
          (paymentStore (snd (interleave env provider fuel schedule handler
                                         (recordPayPalPayment env other) s))) = true)
  /\ (Js.gt (User.balance u0) 1000%float = false ->
      Js.gt (User.balance u0 + amountInPounds pa)%float 1000%float = false ->
      forall schedule : list bool,
        let result := interleave env provider fuel schedule handler handler s in
        Payment.uniqueKeys (paymentStore (snd result)) = true
        /\ (List.length (Payment.recordsOf Payment.paypal oid (paymentStore (snd result))) <= 1)%nat
        /\ ((6 <= turns true schedule)%nat -> (6 <= turns false schedule)%nat ->
            exists r1 r2,
              fst (fst result) = Done r1 /\ snd (fst result) = Done r2
              /\ settledOnce env userId u0 pa cur oid cid (userStore s) (paymentStore s)
                             r1 r2 (snd result))).
Proof.
  intros Huser Hamount Horder Hne Hkeyed Hstored Hfresh Huniq pa cur cid handler.
  split; [|split].
  - intros b1 s1 provider' fuel' Hrun Hb1.
    exact (second_submission env provider fuel req b1 s s1 provider' fuel' Hkeyed Hrun Hb1).
  - intros schedule other. apply interleave_uniqueKeys. exact Huniq.
  - intros Hbefore Hafter schedule result.
    pose proof (Hkeyed _ _ Hstored) as Hid.
    assert (Hstart : inFlight env userId u0 pa cur oid cid (userStore s) (paymentStore s)
                              handler handler s).
    { left. split; [split; reflexivity|].
      subst handler. rewrite (handler_valid env req userId oid Huser Hamount Horder Hne).
      split; apply by_load. }
    pose proof (inFlight_interleave env provider fuel userId u0 pa cur oid cid
                  (userStore s) (paymentStore s) Hid Hstored Hfresh Hbefore Hafter
                  schedule handler handler s Hstart) as Hend.
    fold result in Hend.
    destruct (inFlight_unique env userId u0 pa cur oid cid (userStore s) (paymentStore s)
                Hfresh _ _ _ Huniq Hend) as [Hu Hl].
    split; [exact Hu|]. split; [exact Hl|].
    intros Hturns1 Hturns2.
    destruct (interleave_ends env provider fuel schedule 6 6 handler handler s
                (handler_ends env req) (handler_ends env req)) as [He1 He2].
    fold result in He1, He2.
    replace (6 - turns true schedule)%nat with 0%nat in He1 by lia.
    replace (6 - turns false schedule)%nat with 0%nat in He2 by lia.
    destruct (fst (fst result)) as [r1|] eqn:E1; [|contradiction].
    destruct (snd (fst result)) as [r2|] eqn:E2; [|contradiction].
    exists r1, r2. split; [reflexivity|]. split; [reflexivity|].
    apply (inFlight_settled env userId u0 pa cur oid cid (userStore s) (paymentStore s)).
    exact Hend.
Qed.

Lemma storeWith_wellKeyed (b : Js.number) (ps : Payment.Collection) :
  wellKeyed (userStore (storeWith b ps)).
Proof.
  intros k d. cbn [userStore storeWith]. rewrite lookup_singleton_Some.
  intros [<- <-]. reflexivity.
Qed.

Lemma C1_idempotent_submission_witness :
  let req := requestFor (Js.Num 5000%float) (Js.Str "O1") None in
  let s := storeWith 10%float [] in
  let handler := recordPayPalPayment skippingEnv req in
  let s1 := snd (run skippingEnv unavailableProvider 0 handler s) in
  let result := interleave skippingEnv unavailableProvider 0 alternating handler handler s in
  run skippingEnv unavailableProvider 0 handler s1 = (conflictReply 15%float, s1)
  /\ storedBalance "u1" s1 = Some 15%float
  /\ exists r1 r2,
      fst (fst result) = Done r1 /\ snd (fst result) = Done r2
      /\ settledOnce skippingEnv "u1" (userWith 10%float) 5000%float "GBP" "O1" None
                     (userStore s) (paymentStore s) r1 r2 (snd result).
Proof.
  intros req s handler s1 result.
  assert (Hne : "O1" <> EmptyString) by discriminate.
  destruct (C1_idempotent_submission skippingEnv unavailableProvider 0 req s "u1" "O1"
              (userWith 10%float) eq_refl eq_refl eq_refl Hne
              (storeWith_wellKeyed 10%float []) eq_refl eq_refl eq_refl)
    as [Hsequential [_ Hconcurrent]].
  split; [|split].
  - apply (Hsequential 15%float s1 unavailableProvider 0%nat); reflexivity.
  - reflexivity.
  - destruct (Hconcurrent eq_refl eq_refl alternating) as [_ [_ Hsettled]].
    apply Hsettled; vm_compute; lia.
Defined.

(** C1 as stated fails: a user with balance 999.5 submits order O1 for
    5000 (5.00).  The first submission is credited and answered with
    balance 1004.5.  The second submission of the same order finds the
    balance above 1000, divides it by 1000, saves it, and is answered
    with 1.0045: not the balance after the first submission, and the
    stored balance has changed. *)
Lemma C1_second_submission_rescales :
  let req := requestFor (Js.Num 5000%float) (Js.Str "O1") None in
  let handler := recordPayPalPayment skippingEnv req in
  let first := run skippingEnv unavailableProvider 0 handler (storeWith 999.5%float []) in
  let second := run skippingEnv unavailableProvider 0 handler (snd first) in
  fst first = creditedReply 1004.5%float
  /\ storedBalance "u1" (snd first) = Some 1004.5%float
  /\ fst second = conflictReply (1004.5 / 1000)%float
  /\ storedBalance "u1" (snd second) = Some (1004.5 / 1000)%float
  /\ PrimFloat.eqb (1004.5 / 1000)%float 1004.5%float = false
  /\ List.length (paymentStore (snd second)) = 1%nat.
Proof. vm_compute. repeat split. Qed.

(* ===================================================================== *)
(** * The credit *)
(* ===================================================================== *)

(** C8, as the code has it: the credit is a read-modify-write.  The
    handler adds the amount to the balance of the document it loaded at
    the start of the request and saves the document.  Whenever the sum
    differs from the loaded balance, so that the save sends it: whatever
    balance is stored at the time of the save, the balance stored
    afterwards is the loaded balance plus the amount.  It is the stored
    balance plus the amount when the stored balance is still the loaded
    one.  ([User.save] writes in every case; the hypothesis on the sum
    is what makes Mongoose send the update.) *)
Theorem C8_credit_is_read_modify_write
    (env : Env) (provider : Provider) (fuel : nat) (user stored : User.Doc)
    (a : Js.number) (s : Sys) :
  userStore s !! User.id user = Some stored ->
  assignmentModifies (User.balance user) (User.balance user + a)%float = true ->
  let after := step env provider fuel (creditBalance user a) s in
  after = (Done (creditedReply (User.balance user + a)%float),
           setUsers (<[User.id user := User.setBalance (User.balance user + a)%float stored]>
                       (userStore s)) s)
  /\ storedBalance (User.id user) (snd after) = Some (User.balance user + a)%float
  /\ (User.balance stored = User.balance user ->
      storedBalance (User.id user) (snd after) = Some (User.balance stored + a)%float).
Proof.
  intros Hstored _ after.
  assert (Hafter : after
                   = (Done (creditedReply (User.balance user + a)%float),
                      setUsers (<[User.id user := User.setBalance (User.balance user + a)%float
                                                                  stored]> (userStore s)) s)).
  { subst after. unfold creditBalance. cbn [step perform]. unfold User.save.
    cbn [User.id User.setBalance User.balance]. rewrite Hstored. reflexivity. }
  split; [exact Hafter|]. rewrite Hafter. unfold storedBalance.
  cbn [snd userStore setUsers]. rewrite lookup_insert_eq. cbn.
  split; [reflexivity|]. intros ->. reflexivity.
Qed.

Lemma C8_credit_is_read_modify_write_witness :
  storedBalance "u1"
    (snd (step skippingEnv unavailableProvider 0
            (creditBalance (userWith 10%float) 7%float) (storeWith 15%float [])))
  = Some 17%float.
Proof.
  destruct (C8_credit_is_read_modify_write skippingEnv unavailableProvider 0
              (userWith 10%float) (userWith 15%float) 7%float (storeWith 15%float [])
              eq_refl eq_refl) as [_ [Hwritten _]].
  exact Hwritten.
Defined.

(** C8 as stated fails: one account with balance 10, two requests at the
    same time, for order O1 (5.00) and order O2 (7.00).  Both load the
    balance 10 before either saves; both payments are inserted and both
    replies say the balance was updated, to 15 and to 17; the stored
    balance ends as 17, not 22: the credit of 5.00 is lost. *)
Lemma C8_concurrent_credits_lose_update :
  let first := recordPayPalPayment skippingEnv
                 (requestFor (Js.Num 5000%float) (Js.Str "O1") None) in
  let second := recordPayPalPayment skippingEnv
                  (requestFor (Js.Num 7000%float) (Js.Str "O2") None) in
  let result := interleave skippingEnv unavailableProvider 0
                  [true; false; true; false; true; false; true; false]
                  first second (storeWith 10%float []) in
  fst (fst result) = Done (creditedReply 15%float)
  /\ snd (fst result) = Done (creditedReply 17%float)
  /\ List.map Payment.externalId (paymentStore (snd result)) = [Some "O1"; Some "O2"]
  /\ storedBalance "u1" (snd result) = Some 17%float
  /\ PrimFloat.eqb 17%float (10 + 5 + 7)%float = false.
Proof. vm_compute. repeat split. Qed.

(* ===================================================================== *)
(** * Further runs *)
(* ===================================================================== *)

(** Two handlers of one submission: the second is rejected by the unique
    index and reads the balance again before the first has saved its
    credit; it is answered with the balance before the credit. *)
Example race_reply_precedes_credit :
  let handler := recordPayPalPayment skippingEnv
                   (requestFor (Js.Num 5000%float) (Js.Str "O1") None) in
  let result := interleave skippingEnv unavailableProvider 0
                  [true; false; true; false; true; false; false; true]
                  handler handler (storeWith 10%float []) in
  fst (fst result) = Done (creditedReply 15%float)
  /\ snd (fst result) = Done (processedReply 10%float)
  /\ storedBalance "u1" (snd result) = Some 15%float
  /\ List.length (paymentStore (snd result)) = 1%nat.
Proof. vm_compute. repeat split. Qed.

(** Two handlers of one submission on a balance in the old format: the
    second loads 40050 before the first has converted it, and saves its
    own conversion after the first has saved the credit.  The payment is
    recorded and the credit is gone. *)
Example race_on_legacy_balance :
  let handler := recordPayPalPayment skippingEnv
                   (requestFor (Js.Num 5000%float) (Js.Str "O1") None) in
  let result := interleave skippingEnv unavailableProvider 0
                  [true; false; true; true; true; true; false; false; false]
                  handler handler (storeWith 40050%float []) in
  fst (fst result) = Done (creditedReply 45.05%float)
  /\ snd (fst result) = Done (conflictReply 40.05%float)
  /\ storedBalance "u1" (snd result) = Some 40.05%float
  /\ List.length (paymentStore (snd result)) = 1%nat.
Proof. vm_compute. repeat split. Qed.

(** The error that names both lookups as not found is also thrown when
    the capture lookup failed for another reason (here a 500) and only
    the order is missing. *)
Example both_not_found_after_capture_500 :
  fst (verifyPayPalPayment sandboxEnv (providerOf (Failure 500 None) (Failure 404 None)) 3
         "O1" 5%float "GBP" (Some "C1") tokenWorld)
  = Thrown (bothNotFoundMessage "C1" "O1").
Proof. vm_compute. reflexivity. Qed.

(** The scenario of the specification: 5000 claimed in GBP for order O1
    and capture C1, the provider reports the capture completed with
    5.00 GBP; the account is credited 5.00. *)
Example scenario_5000_GBP :
  let provider := providerOf (Success (captureOf COMPLETED "GBP" "5.00")) (Failure 404 None) in
  let result := run sandboxEnv provider 3
                  (recordPayPalPayment sandboxEnv
                     (requestFor (Js.Num 5000%float) (Js.Str "O1") (Some "C1")))
                  (storeWith 10%float []) in
  fst result = creditedReply 15%float
  /\ storedBalance "u1" (snd result) = Some 15%float
  /\ List.map Payment.externalId (paymentStore (snd result)) = [Some "O1"].
Proof. vm_compute. repeat split. Qed.

(** The amount test in binary64: 5.01 against 5.00 passes, 5.02 does
    not, and a currency other than the expected one fails whatever the
    amount. *)
Example tolerance_examples :
  captureAcceptable (captureOf COMPLETED "GBP" "5.01") 5%float "GBP" = true
  /\ capturePasses (captureOf COMPLETED "GBP" "5.01") 5%float "GBP" = true
  /\ capturePasses (captureOf COMPLETED "GBP" "5.02") 5%float "GBP" = false
  /\ capturePasses (captureOf COMPLETED "USD" "5.00") 5%float "GBP" = false
  /\ capturePasses (captureOf PENDING "GBP" "5.00") 5%float "GBP" = false.
Proof. vm_compute. repeat split. Qed.

(* ===================================================================== *)
(** * The provider client: token cache, credentials, retries *)
(* ===================================================================== *)

Lemma getAccessToken_cached (env : Env) (provider : Provider) (fuel retryCount : nat)
    (w : World) (token : string) :
  cachedToken w = Some token ->
  getAccessToken env provider fuel retryCount w = (Returned token, w).
Proof.
  unfold cachedToken. intros Hc.
  destruct fuel; cbn [getAccessToken];
    destruct (accessTokenCache w) as [[t e]|]; try discriminate;
    destruct (now w <? e); try discriminate; injection Hc as ->; reflexivity.
Qed.

Lemma getAccessToken_unconfigured (env : Env) (provider : Provider) (fuel retryCount : nat)
    (w : World) :
  cachedToken w = None ->
  credentialsConfigured env = false ->
  getAccessToken env provider fuel retryCount w = (Thrown credentialsMessage, w).
Proof.
  unfold cachedToken, credentialsConfigured. intros Hc Hcred.
  assert (Hor : negb (truthy (paypalClientId env)) || negb (truthy (paypalClientSecret env))
                = true).
  { destruct (truthy (paypalClientId env)), (truthy (paypalClientSecret env));
      try reflexivity; discriminate. }
  destruct fuel; cbn [getAccessToken];
    (destruct (accessTokenCache w) as [[t e]|];
     [destruct (now w <? e); [discriminate|]|]); rewrite Hor; reflexivity.
Qed.

(** The request counter never goes back. *)
Lemma getAccessToken_fetches_mono (env : Env) (provider : Provider) :
  forall (fuel retryCount : nat) (w : World),
    (fetches w <= fetches (snd (getAccessToken env provider fuel retryCount w)))%nat.
Proof.
  induction fuel as [|fuel IH]; intros retryCount w; cbn [getAccessToken];
    (destruct (accessTokenCache w) as [[t e]|];
     [destruct (now w <? e); [cbn; lia|]|]);
    (destruct (negb _ || negb _); [cbn; lia|]);
    destruct (tokenEndpoint provider (fetches w) _ _) as [message|status errorName|data];
    repeat match goal with
           | |- context [if ?b then _ else _] => destruct b
           end;
    cbn [fst snd fetches setCache countFetch sleep]; try lia;
    match goal with
    | |- context [getAccessToken env provider fuel (S retryCount) ?w1] =>
        specialize (IH (S retryCount) w1); cbn [fetches sleep countFetch] in IH; lia
    end.
Qed.

(** Without a valid cached token, and with credentials, a request is sent. *)
Lemma getAccessToken_asks (env : Env) (provider : Provider) (fuel retryCount : nat) (w : World) :
  cachedToken w = None ->
  credentialsConfigured env = true ->
  (fetches w < fetches (snd (getAccessToken env provider fuel retryCount w)))%nat.
Proof.
  unfold cachedToken, credentialsConfigured. intros Hc Hcred.
  apply andb_prop in Hcred as [H1 H2].
  destruct fuel; cbn [getAccessToken];
    (destruct (accessTokenCache w) as [[t e]|];
     [destruct (now w <? e); [discriminate|]|]);
    rewrite H1, H2; cbn [negb orb];
    destruct (tokenEndpoint provider (fetches w) _ _) as [message|status errorName|data];
    repeat match goal with
           | |- context [if ?b then _ else _] => destruct b
           end;
    cbn [fst snd fetches setCache countFetch sleep]; try lia;
    match goal with
    | |- context [getAccessToken env provider ?f (S retryCount) ?w1] =>
        pose proof (getAccessToken_fetches_mono env provider f (S retryCount) w1) as Hm;
        cbn [fetches sleep countFetch] in Hm; lia
    end.
Qed.

(** X1.  A token handed out by the token endpoint is kept until sixty
    seconds before it expires: the exchange returns it and stores it with
    the expiry [now + (expires_in - 60) * 1000]; every later call made
    before that moment returns the same token without sending a request,
    whatever the provider would answer; every call made at or after that
    moment sends a request again. *)
Theorem X1_token_cached_until_expiry (env : Env) (provider : Provider) (fuel retryCount : nat)
    (w : World) (data : PayPalAccessTokenResponse) :
  cachedToken w = None ->
  credentialsConfigured env = true ->
  tokenEndpoint provider (fetches w) (default "" (paypalClientId env))
                (default "" (paypalClientSecret env)) = Success data ->
  let expiry := now w + (expires_in data - 60) * 1000 in
  let w1 := setCache (Some (access_token data, expiry)) (countFetch w) in
  getAccessToken env provider fuel retryCount w = (Returned (access_token data), w1)
  /\ forall (later : Provider) (fuel' retryCount' : nat) (w2 : World),
       accessTokenCache w2 = accessTokenCache w1 ->
       (now w2 < expiry ->
        getAccessToken env later fuel' retryCount' w2 = (Returned (access_token data), w2))
       /\ (expiry <= now w2 ->
           (fetches w2 < fetches (snd (getAccessToken env later fuel' retryCount' w2)))%nat).
Proof.
  intros Hc Hcred Htoken expiry w1. split.
  - unfold cachedToken, credentialsConfigured in *. apply andb_prop in Hcred as [H1 H2].
    destruct fuel; cbn [getAccessToken];
      (destruct (accessTokenCache w) as [[t e]|];
       [destruct (now w <? e); [discriminate|]|]);
      rewrite H1, H2; cbn [negb orb]; rewrite Htoken; reflexivity.
  - intros later fuel' retryCount' w2 Hcache. split; intros Hnow.
    + apply getAccessToken_cached. unfold cachedToken. rewrite Hcache. cbn [w1 accessTokenCache setCache].
      apply Z.ltb_lt in Hnow. rewrite Hnow. reflexivity.
    + apply getAccessToken_asks; [|exact Hcred].
      unfold cachedToken. rewrite Hcache. cbn [w1 accessTokenCache setCache].
      apply Z.ltb_ge in Hnow. rewrite Hnow. reflexivity.
Qed.

Lemma X1_token_cached_until_expiry_witness :
  getAccessToken sandboxEnv (providerOf (Failure 500 None) (Failure 500 None)) 0 0 freshWorld
  = (Returned "T",
     setCache (Some ("T", 3540000)) (countFetch freshWorld)).
Proof.
  apply (X1_token_cached_until_expiry sandboxEnv (providerOf (Failure 500 None) (Failure 500 None))
           0 0 freshWorld tokenResponse); reflexivity.
Defined.

Section MissingCredentials.

Variable env : Env.
Variable provider : Provider.

Lemma verifyPayPalOrder_token_thrown (fuel : nat) (orderId : string) (retryCount : nat)
    (w w0 : World) (m : string) :
  getAccessToken env provider fuel 0 w = (Thrown m, w0) ->
  verifyPayPalOrder env provider fuel orderId retryCount w = (Thrown m, w0).
Proof. intros H. destruct fuel; cbn [verifyPayPalOrder]; rewrite H; reflexivity. Qed.

Lemma verifyPayPalCapture_token_thrown (fuel : nat) (captureId : string) (retryCount : nat)
    (w w0 : World) (m : string) :
  getAccessToken env provider fuel 0 w = (Thrown m, w0) ->
  verifyPayPalCapture env provider fuel captureId retryCount w = (Thrown m, w0).
Proof. intros H. destruct fuel; cbn [verifyPayPalCapture]; rewrite H; reflexivity. Qed.

End MissingCredentials.

(** X2.  When a credential is missing or empty and no valid token is
    cached, nothing is sent to the provider: the token exchange, both
    lookups and the verifier throw the configuration error and leave the
    state of the client (request counter included) as it was. *)
Theorem X2_missing_credentials_no_request (env : Env) (provider : Provider) (fuel : nat)
    (orderId : string) (expectedAmount : Js.number) (expectedCurrency : string)
    (captureId : option string) (w : World) :
  cachedToken w = None ->
  credentialsConfigured env = false ->
  getAccessToken env provider fuel 0 w = (Thrown credentialsMessage, w)
  /\ verifyPayPalOrder env provider fuel orderId 0 w = (Thrown credentialsMessage, w)
  /\ verifyPayPalCapture env provider fuel (default "" captureId) 0 w
     = (Thrown credentialsMessage, w)
  /\ verifyPayPalPayment env provider fuel orderId expectedAmount expectedCurrency captureId w
     = (Thrown credentialsMessage, w).
Proof.
  intros Hc Hcred.
  pose proof (getAccessToken_unconfigured env provider fuel 0 w Hc Hcred) as Htoken.
  pose proof (verifyPayPalOrder_token_thrown env provider fuel orderId 0 w w _ Htoken) as Horder.
  pose proof (verifyPayPalCapture_token_thrown env provider fuel (default "" captureId) 0 w w _
                Htoken) as Hcapture.
  repeat split; try assumption.
  unfold verifyPayPalPayment, verifyViaOrder. rewrite Hcapture, Horder.
  destruct (truthy captureId); reflexivity.
Qed.

Lemma X2_missing_credentials_no_request_witness :
  verifyPayPalPayment
    {| node := "production"; paypalClientId := Some "client"; paypalClientSecret := Some "";
       paypalUseSandbox := true; paypalSkipVerification := false |}
    unavailableProvider 0 "O1" 5%float "GBP" (Some "C1") freshWorld
  = (Thrown credentialsMessage, freshWorld).
Proof.
  apply (X2_missing_credentials_no_request
           {| node := "production"; paypalClientId := Some "client"; paypalClientSecret := Some "";
              paypalUseSandbox := true; paypalSkipVerification := false |}
           unavailableProvider 0 "O1" 5%float "GBP" (Some "C1") freshWorld); reflexivity.
Defined.

(** The token exchange keeps to the retry bound whenever the endpoint
    does not answer 503. *)
Lemma getAccessToken_bounded (env : Env) (provider : Provider) :
  neverAnswers503 provider ->
  forall (fuel retryCount : nat) (w : World),
    (maxRetries <= fuel + retryCount)%nat ->
    exists k : nat,
      (retryCount + k <= Nat.max retryCount maxRetries)%nat
      /\ isPending (fst (getAccessToken env provider fuel retryCount w)) = false
      /\ sleeps (snd (getAccessToken env provider fuel retryCount w))
         = (sleeps w ++ backoff retryCount k)%list
      /\ (fetches (snd (getAccessToken env provider fuel retryCount w))
          <= fetches w + S k)%nat.
Proof.
  intros Hno.
  assert (Hsettled : forall (retryCount : nat) (w0 : World) (r : Outcome string * World),
             isPending (fst r) = false -> sleeps (snd r) = sleeps w0 ->
             (fetches (snd r) <= S (fetches w0))%nat ->
             exists k : nat,
               (retryCount + k <= Nat.max retryCount maxRetries)%nat
               /\ isPending (fst r) = false
               /\ sleeps (snd r) = (sleeps w0 ++ backoff retryCount k)%list
               /\ (fetches (snd r) <= fetches w0 + S k)%nat).
  { intros retryCount w0 r Hp Hs Hf. exists 0%nat.
    cbn [backoff List.seq List.map]. rewrite app_nil_r. repeat split; try assumption; lia. }
  induction fuel as [|fuel IH]; intros retryCount w Hfuel; cbn [getAccessToken];
    (destruct (accessTokenCache w) as [[token expiresAt]|];
     [destruct (now w <? expiresAt); [apply Hsettled; cbn; [reflexivity|reflexivity|lia]|]|]);
    (destruct (negb _ || negb _); [apply Hsettled; cbn; [reflexivity|reflexivity|lia]|]);
    (destruct (tokenEndpoint provider (fetches w) _ _) as [message|status errorName|data] eqn:Hans;
     [| assert (Hst : (status =? 503)%nat = false)
          by (apply Nat.eqb_neq; exact (Hno _ _ _ _ _ Hans)); rewrite Hst; cbn [orb]
      | apply Hsettled; cbn; [reflexivity|reflexivity|lia]]);
    repeat match goal with
           | |- context [if ?b then _ else _] => destruct b eqn:?
           end;
    try (apply Hsettled; cbn; [reflexivity|reflexivity|lia]);
    try (exfalso; retry_arith);
    match goal with
    | |- context [getAccessToken env provider fuel (S retryCount) ?w1] =>
        destruct (IH (S retryCount) w1) as [k [Hk [Hp' [Hs' Hf']]]]; [retry_arith|];
        exists (S k); split; [retry_arith|];
        split; [exact Hp'|];
        split; [rewrite Hs'; cbn [sleeps sleep countFetch];
                rewrite backoff_cons, <- app_assoc; reflexivity
               | cbn [fetches sleep countFetch] in Hf'; lia]
    end.
Qed.

(** X3.  Apart from a 503 answer, every failure of the token exchange is
    bounded: with a token endpoint that never answers 503 the exchange
    settles after at most [maxRetries] retries, having slept 1s, 2s, 3s
    before them and sent at most one request more than it slept. *)
Theorem X3_token_exchange_bounded_without_503 (env : Env) (provider : Provider)
    (fuel : nat) (w : World) :
  neverAnswers503 provider ->
  (maxRetries <= fuel)%nat ->
  exists k : nat,
    (k <= maxRetries)%nat
    /\ isPending (fst (getAccessToken env provider fuel 0 w)) = false
    /\ sleeps (snd (getAccessToken env provider fuel 0 w)) = (sleeps w ++ backoff 0 k)%list
    /\ (fetches (snd (getAccessToken env provider fuel 0 w)) <= fetches w + S k)%nat.
Proof.
  intros Hno Hfuel.
  destruct (getAccessToken_bounded env provider Hno fuel 0%nat w) as [k [Hk H]]; [lia|].
  exists k. split; [unfold maxRetries in *; lia | exact H].
Qed.

Lemma X3_token_exchange_bounded_without_503_witness :
  exists k : nat,
    (k <= maxRetries)%nat
    /\ isPending (fst (getAccessToken sandboxEnv offlineProvider 3 0 freshWorld)) = false
    /\ sleeps (snd (getAccessToken sandboxEnv offlineProvider 3 0 freshWorld))
       = (sleeps freshWorld ++ backoff 0 k)%list
    /\ (fetches (snd (getAccessToken sandboxEnv offlineProvider 3 0 freshWorld))
        <= fetches freshWorld + S k)%nat.
Proof.
  apply (X3_token_exchange_bounded_without_503 sandboxEnv offlineProvider 3 freshWorld).
  - intros n a b status errorName H. discriminate H.
  - unfold maxRetries. lia.
Defined.

(** X4.  With a token endpoint that grants every request, the order
    lookup and the capture lookup both settle after at most [maxRetries]
    retries of their own, and the delays they sleep are exactly 1s, 2s,
    3s from the first retry on, whatever the lookup endpoints answer. *)
Theorem X4_lookups_keep_retry_bound (env : Env) (provider : Provider) (fuel : nat)
    (orderId captureId : string) (w : World) :
  tokenAlwaysGranted provider ->
  (maxRetries <= fuel)%nat ->
  (exists k : nat,
      (k <= maxRetries)%nat
      /\ isPending (fst (verifyPayPalOrder env provider fuel orderId 0 w)) = false
      /\ sleeps (snd (verifyPayPalOrder env provider fuel orderId 0 w))
         = (sleeps w ++ backoff 0 k)%list)
  /\ (exists k : nat,
         (k <= maxRetries)%nat
         /\ isPending (fst (verifyPayPalCapture env provider fuel captureId 0 w)) = false
         /\ sleeps (snd (verifyPayPalCapture env provider fuel captureId 0 w))
            = (sleeps w ++ backoff 0 k)%list).
Proof.
  intros Hgranted Hfuel. split.
  - destruct (verifyPayPalOrder_bounded env provider Hgranted fuel 0%nat orderId w)
      as [k [Hk H]]; [lia|].
    exists k. split; [unfold maxRetries in *; lia | exact H].
  - destruct (verifyPayPalCapture_bounded env provider Hgranted fuel 0%nat captureId w)
      as [k [Hk H]]; [lia|].
    exists k. split; [unfold maxRetries in *; lia | exact H].
Qed.

Lemma X4_lookups_keep_retry_bound_witness :
  (exists k : nat,
      (k <= maxRetries)%nat
      /\ isPending (fst (verifyPayPalOrder sandboxEnv busyProvider 3 "O1" 0 freshWorld)) = false
      /\ sleeps (snd (verifyPayPalOrder sandboxEnv busyProvider 3 "O1" 0 freshWorld))
         = (sleeps freshWorld ++ backoff 0 k)%list)
  /\ (exists k : nat,
         (k <= maxRetries)%nat
         /\ isPending (fst (verifyPayPalCapture sandboxEnv busyProvider 3 "C1" 0 freshWorld))
            = false
         /\ sleeps (snd (verifyPayPalCapture sandboxEnv busyProvider 3 "C1" 0 freshWorld))
            = (sleeps freshWorld ++ backoff 0 k)%list).
Proof.
  apply (X4_lookups_keep_retry_bound sandboxEnv busyProvider 3 "O1" "C1" freshWorld).
  - intros n a b. exists tokenResponse. reflexivity.
  - unfold maxRetries. lia.
Defined.

(* ===================================================================== *)
(** * The verification settles unless the token endpoint answers 503 *)
(* ===================================================================== *)

Section Settles.

Variable env : Env.
Variable provider : Provider.
Hypothesis Hno503 : neverAnswers503 provider.

Lemma backoff_length (retryCount k : nat) : List.length (backoff retryCount k) = k.
Proof. unfold backoff. rewrite List.length_map, List.length_seq. reflexivity. Qed.

Lemma getAccessToken_settles (fuel : nat) (w : World) :
  (maxRetries <= fuel)%nat ->
  isPending (fst (getAccessToken env provider fuel 0 w)) = false
  /\ (List.length (sleeps (snd (getAccessToken env provider fuel 0 w)))
      <= List.length (sleeps w) + maxRetries)%nat.
Proof.
  intros Hfuel.
  destruct (getAccessToken_bounded env provider Hno503 fuel 0%nat w) as [k [Hk [Hp [Hs _]]]];
    [lia|].
  split; [exact Hp|]. rewrite Hs, List.length_app, backoff_length.
  unfold maxRetries in *. lia.
Qed.

Lemma verifyPayPalOrder_settles :
  forall (fuel retryCount : nat) (orderId : string) (w : World),
    (maxRetries + (maxRetries - retryCount) <= fuel)%nat ->
    isPending (fst (verifyPayPalOrder env provider fuel orderId retryCount w)) = false
    /\ (List.length (sleeps (snd (verifyPayPalOrder env provider fuel orderId retryCount w)))
        <= List.length (sleeps w) + lookupBudget retryCount)%nat.
Proof.
  induction fuel as [|fuel IH]; intros retryCount orderId w Hfuel;
    [unfold maxRetries in Hfuel; lia|].
  cbn [verifyPayPalOrder].
  destruct (getAccessToken_settles (S fuel) w) as [Hp Hs]; [unfold maxRetries in *; lia|].
  destruct (getAccessToken env provider (S fuel) 0 w) as [[token|m0|] w0];
    cbn [fst snd isPending] in Hp, Hs; try discriminate;
    [|cbn [fst snd isPending]; split; [reflexivity|unfold lookupBudget, maxRetries in *; lia]].
  destruct (orderEndpoint provider (fetches w0) token orderId)
    as [message|status errorName|data];
    repeat match goal with
           | |- context [if ?b then _ else _] => destruct b eqn:?
           end;
    try (cbn [fst snd isPending sleeps countFetch]; split;
         [reflexivity|unfold lookupBudget, maxRetries in *; lia]);
    match goal with
    | |- context [verifyPayPalOrder env provider fuel orderId (S retryCount) ?w1] =>
        assert (Hlt : (retryCount < 3)%nat) by retry_arith;
        destruct (IH (S retryCount) orderId w1) as [Hp' Hs'];
        [unfold maxRetries in *; lia|];
        split; [exact Hp'|];
        cbn [sleeps sleep countFetch] in Hs'; rewrite List.length_app in Hs'; cbn [List.length] in Hs';
        unfold lookupBudget, maxRetries in *; lia
    end.
Qed.

Lemma verifyPayPalCapture_settles :
  forall (fuel retryCount : nat) (captureId : string) (w : World),
    (maxRetries + (maxRetries - retryCount) <= fuel)%nat ->
    isPending (fst (verifyPayPalCapture env provider fuel captureId retryCount w)) = false
    /\ (List.length (sleeps (snd (verifyPayPalCapture env provider fuel captureId retryCount w)))
        <= List.length (sleeps w) + lookupBudget retryCount)%nat.
Proof.
  induction fuel as [|fuel IH]; intros retryCount captureId w Hfuel;
    [unfold maxRetries in Hfuel; lia|].
  cbn [verifyPayPalCapture].
  destruct (getAccessToken_settles (S fuel) w) as [Hp Hs]; [unfold maxRetries in *; lia|].
  destruct (getAccessToken env provider (S fuel) 0 w) as [[token|m0|] w0];
    cbn [fst snd isPending] in Hp, Hs; try discriminate;
    [|cbn [fst snd isPending]; split; [reflexivity|unfold lookupBudget, maxRetries in *; lia]].
  destruct (captureEndpoint provider (fetches w0) token captureId)
    as [message|status errorName|data];
    repeat match goal with
           | |- context [if ?b then _ else _] => destruct b eqn:?
           end;
    try (cbn [fst snd isPending sleeps countFetch]; split;
         [reflexivity|unfold lookupBudget, maxRetries in *; lia]);
    match goal with
    | |- context [verifyPayPalCapture env provider fuel captureId (S retryCount) ?w1] =>
        assert (Hlt : (retryCount < 3)%nat) by retry_arith;
        destruct (IH (S retryCount) captureId w1) as [Hp' Hs'];
        [unfold maxRetries in *; lia|];
        split; [exact Hp'|];
        cbn [sleeps sleep countFetch] in Hs'; rewrite List.length_app in Hs'; cbn [List.length] in Hs';
        unfold lookupBudget, maxRetries in *; lia
    end.
Qed.

Lemma verifyViaOrder_settles (fuel : nat) (orderId : string) (expectedAmount : Js.number)
    (expectedCurrency : string) (captureId : option string) (w : World) :
  (2 * maxRetries <= fuel)%nat ->
  isPending (fst (verifyViaOrder env provider fuel orderId expectedAmount expectedCurrency
                                 captureId w)) = false
  /\ (List.length (sleeps (snd (verifyViaOrder env provider fuel orderId expectedAmount
                                               expectedCurrency captureId w)))
      <= List.length (sleeps w) + lookupBudget 0)%nat.
Proof.
  intros Hfuel.
  destruct (verifyPayPalOrder_settles fuel 0 orderId w) as [Hp Hs];
    [unfold maxRetries in *; lia|].
  unfold verifyViaOrder.
  destruct (verifyPayPalOrder env provider fuel orderId 0 w) as [[order|m|] w1];
    cbn [fst snd isPending] in Hp, Hs; try discriminate;
    repeat match goal with
           | |- context [if ?b then _ else _] => destruct b
           | |- context [match ?x with _ => _ end] => destruct x
           end; split; first [reflexivity | exact Hs].
Qed.

End Settles.

(** X5.  The token endpoint answering 503 is the only way for the
    verification not to settle: with a token endpoint that never answers
    503, [verifyPayPalPayment] returns or throws, whatever the lookups
    answer, and sleeps at most thirty delays on the way (fifteen for each
    of its two lookups). *)
Theorem X5_verification_settles_without_503 (env : Env) (provider : Provider) (fuel : nat)
    (orderId : string) (expectedAmount : Js.number) (expectedCurrency : string)
    (captureId : option string) (w : World) :
  neverAnswers503 provider ->
  (2 * maxRetries <= fuel)%nat ->
  isPending (fst (verifyPayPalPayment env provider fuel orderId expectedAmount expectedCurrency
                                      captureId w)) = false
  /\ (List.length (sleeps (snd (verifyPayPalPayment env provider fuel orderId expectedAmount
                                                    expectedCurrency captureId w)))
      <= List.length (sleeps w) + 30)%nat.
Proof.
  intros Hno Hfuel.
  pose proof (fun w0 => verifyViaOrder_settles env provider Hno fuel orderId expectedAmount
                          expectedCurrency captureId w0 Hfuel) as Hvia.
  unfold verifyPayPalPayment. destruct (truthy captureId).
  2: { destruct (Hvia w) as [Hp Hs]. split; [exact Hp|].
       unfold lookupBudget, maxRetries in Hs. cbn in Hs. lia. }
  destruct (verifyPayPalCapture_settles env provider Hno fuel 0 (default "" captureId) w)
    as [Hp Hs]; [unfold maxRetries in *; lia|].
  unfold lookupBudget, maxRetries in Hs. cbn [Nat.sub Nat.add Nat.mul] in Hs.
  destruct (verifyPayPalCapture env provider fuel (default "" captureId) 0 w)
    as [[capture|m|] w1]; cbn [fst snd isPending] in Hp, Hs; try discriminate.
  - repeat match goal with
           | |- context [if ?b then _ else _] => destruct b
           end; try (cbn [fst snd isPending]; split; [reflexivity|lia]).
    destruct (verifyPayPalOrder_settles env provider Hno fuel 0 orderId w1) as [Hp' Hs'];
      [unfold maxRetries in *; lia|].
    unfold lookupBudget, maxRetries in Hs'. cbn [Nat.sub Nat.add Nat.mul] in Hs'.
    destruct (verifyPayPalOrder env provider fuel orderId 0 w1) as [[order|m|] w2];
      cbn [fst snd isPending] in Hp', Hs'; try discriminate;
      cbn [fst snd isPending]; (split; [reflexivity|lia]).
  - destruct (Hvia w1) as [Hp' Hs']. split; [exact Hp'|].
    unfold lookupBudget, maxRetries in Hs'. cbn [Nat.sub Nat.add Nat.mul] in Hs'. lia.
Qed.

Lemma X5_verification_settles_without_503_witness :
  isPending (fst (verifyPayPalPayment sandboxEnv offlineProvider 6 "O1" 5%float "GBP"
                                      (Some "C1") freshWorld)) = false
  /\ (List.length (sleeps (snd (verifyPayPalPayment sandboxEnv offlineProvider 6 "O1" 5%float
                                                    "GBP" (Some "C1") freshWorld)))
      <= List.length (sleeps freshWorld) + 30)%nat.
Proof.
  apply (X5_verification_settles_without_503 sandboxEnv offlineProvider 6 "O1" 5%float "GBP"
           (Some "C1") freshWorld).
  - intros n a b status errorName H. discriminate H.
  - unfold maxRetries. lia.
Defined.

(* ===================================================================== *)
(** * The verdict of the verifier *)
(* ===================================================================== *)

Section Verdicts.

Variable env : Env.
Variable provider : Provider.
Variable fuel : nat.

(** The order strategy on an order it has fetched. *)
Lemma verifyViaOrder_returned (orderId : string) (expectedAmount : Js.number)
    (expectedCurrency : string) (captureId : option string) (w w1 : World)
    (order : PayPalOrderResponse) :
  verifyPayPalOrder env provider fuel orderId 0 w = (Returned order, w1) ->
  verifyViaOrder env provider fuel orderId expectedAmount expectedCurrency captureId w
  = (Returned (orderVerdict order expectedAmount expectedCurrency), w1).
Proof.
  intros Horder. unfold verifyViaOrder, orderVerdict, capturePasses. rewrite Horder.
  destruct (OrderStatus_eqb (order_status order) ORDER_COMPLETED); cbn [negb]; [|reflexivity].
  destruct (orderCaptures order) as [[|capture rest]|]; try reflexivity.
  destruct (CaptureStatus_eqb (capture_status capture) COMPLETED); cbn [negb andb];
    [|reflexivity].
  destruct (currencyMismatch capture expectedCurrency); cbn [negb andb]; [reflexivity|].
  destruct (amountMismatch capture expectedAmount); reflexivity.
Qed.

Lemma orderVerdict_matches (order : PayPalOrderResponse) (expectedAmount : Js.number)
    (expectedCurrency : string) :
  verdictMatchesCapture (orderVerdict order expectedAmount expectedCurrency)
                        expectedAmount expectedCurrency.
Proof.
  unfold verdictMatchesCapture, orderVerdict.
  destruct (OrderStatus_eqb _ _); [|reflexivity].
  destruct (orderCaptures order) as [[|capture rest]|]; reflexivity.
Qed.

Lemma verifyViaOrder_matches (orderId : string) (expectedAmount : Js.number)
    (expectedCurrency : string) (captureId : option string) (w w' : World)
    (r : VerificationResult) :
  verifyViaOrder env provider fuel orderId expectedAmount expectedCurrency captureId w
  = (Returned r, w') ->
  verdictMatchesCapture r expectedAmount expectedCurrency.
Proof.
  destruct (verifyPayPalOrder env provider fuel orderId 0 w) as [[order|m|] w1] eqn:Horder.
  - rewrite (verifyViaOrder_returned _ _ _ _ _ _ _ Horder). intros H. inversion H.
    apply orderVerdict_matches.
  - unfold verifyViaOrder. rewrite Horder. destruct (_ || _); discriminate.
  - unfold verifyViaOrder. rewrite Horder. discriminate.
Qed.

(** Whatever the verifier returns carries the verdict on the capture it
    names, and no verdict without a capture. *)
Lemma verifyPayPalPayment_matches (orderId : string) (expectedAmount : Js.number)
    (expectedCurrency : string) (captureId : option string) (w w' : World)
    (r : VerificationResult) :
  verifyPayPalPayment env provider fuel orderId expectedAmount expectedCurrency captureId w
  = (Returned r, w') ->
  verdictMatchesCapture r expectedAmount expectedCurrency.
Proof.
  unfold verifyPayPalPayment.
  destruct (truthy captureId); [|apply verifyViaOrder_matches].
  destruct (verifyPayPalCapture _ _ _ _ _ _) as [[capture|m|] w1];
    [| apply verifyViaOrder_matches | discriminate].
  destruct (CaptureStatus_eqb (capture_status capture) COMPLETED) eqn:Hst; cbn [negb];
    [|intros H; inversion H; unfold verdictMatchesCapture, capturePasses;
      cbn [captureDetails verified]; rewrite Hst; reflexivity].
  destruct (currencyMismatch capture expectedCurrency) eqn:Hcur;
    [intros H; inversion H; unfold verdictMatchesCapture, capturePasses;
     cbn [captureDetails verified]; rewrite Hst, Hcur; reflexivity|].
  destruct (amountMismatch capture expectedAmount) eqn:Hamt;
    [intros H; inversion H; unfold verdictMatchesCapture, capturePasses;
     cbn [captureDetails verified]; rewrite Hst, Hcur, Hamt; reflexivity|].
  destruct (verifyPayPalOrder _ _ _ _ _ _) as [[order|m|] w2];
    intros H; inversion H; unfold verdictMatchesCapture, capturePasses;
    cbn [captureDetails verified]; rewrite Hst, Hcur, Hamt; reflexivity.
Qed.

End Verdicts.

(** X6.  A result of the verifier says [verified] only for a capture it
    names, and exactly when that capture passes the three tests of the
    code: it is completed, in the expected currency, and
    [Math.abs(parseFloat(value) - expected) > 0.01] is false.  A result
    without a capture is never verified. *)
Theorem X6_verified_means_capture_passes (env : Env) (provider : Provider) (fuel : nat)
    (orderId : string) (expectedAmount : Js.number) (expectedCurrency : string)
    (captureId : option string) (w w' : World) (r : VerificationResult) :
  verifyPayPalPayment env provider fuel orderId expectedAmount expectedCurrency captureId w
  = (Returned r, w') ->
  (verified r = true <->
   exists capture, captureDetails r = Some capture
                   /\ capture_status capture = COMPLETED
                   /\ currency_code (amount capture) = expectedCurrency
                   /\ amountMismatch capture expectedAmount = false)
  /\ (captureDetails r = None -> verified r = false).
Proof.
  intros Hrun.
  pose proof (verifyPayPalPayment_matches env provider fuel orderId expectedAmount
                expectedCurrency captureId w w' r Hrun) as Hm.
  unfold verdictMatchesCapture in Hm.
  assert (Hpasses : forall capture,
             capturePasses capture expectedAmount expectedCurrency = true
             <-> capture_status capture = COMPLETED
                 /\ currency_code (amount capture) = expectedCurrency
                 /\ amountMismatch capture expectedAmount = false).
  { intros capture. unfold capturePasses, currencyMismatch.
    rewrite !andb_true_iff, negb_involutive, negb_true_iff, String.eqb_eq.
    split.
    - intros [[Hst Hcur] Hamt]. split; [|split; assumption].
      destruct (capture_status capture); first [reflexivity | discriminate].
    - intros [Hst [Hcur Hamt]]. rewrite Hst. repeat split; assumption. }
  split; [split|].
  - intros Hv. destruct (captureDetails r) as [capture|]; [|congruence].
    exists capture. split; [reflexivity|]. apply Hpasses. congruence.
  - intros [capture [Hc Hp]]. rewrite Hc in Hm. apply Hpasses in Hp. congruence.
  - intros Hnone. rewrite Hnone in Hm. exact Hm.
Qed.

Lemma X6_verified_means_capture_passes_witness :
  verified {| verified := false; captureDetails := Some (captureOf COMPLETED "GBP" "5.02");
              orderDetails := None |} = true <->
  exists capture,
    captureDetails {| verified := false; captureDetails := Some (captureOf COMPLETED "GBP" "5.02");
                      orderDetails := None |} = Some capture
    /\ capture_status capture = COMPLETED
    /\ currency_code (amount capture) = "GBP"
    /\ amountMismatch capture 5%float = false.
Proof.
  apply (X6_verified_means_capture_passes sandboxEnv
           (providerOf (Success (captureOf COMPLETED "GBP" "5.02")) (Failure 500 None))
           3 "O1" 5%float "GBP" (Some "C1") tokenWorld
           (countFetch tokenWorld)).
  vm_compute. reflexivity.
Defined.

(** X7.  Without a capture id the verdict is read off the order alone:
    the result is verified exactly when the order is COMPLETED and the
    first capture of its first purchase unit passes the tests.  An order
    in any other state, or without captures, gives an unverified result
    (not an error), and later captures are not looked at. *)
Theorem X7_order_strategy_verdict (env : Env) (provider : Provider) (fuel : nat)
    (orderId : string) (expectedAmount : Js.number) (expectedCurrency : string)
    (captureId : option string) (w w1 : World) (order : PayPalOrderResponse) :
  truthy captureId = false ->
  verifyPayPalOrder env provider fuel orderId 0 w = (Returned order, w1) ->
  verifyPayPalPayment env provider fuel orderId expectedAmount expectedCurrency captureId w
  = (Returned (orderVerdict order expectedAmount expectedCurrency), w1)
  /\ (order_status order <> ORDER_COMPLETED ->
      verified (orderVerdict order expectedAmount expectedCurrency) = false)
  /\ (forall first rest,
        orderCaptures order = Some (first :: rest) ->
        capturePasses first expectedAmount expectedCurrency = false ->
        verified (orderVerdict order expectedAmount expectedCurrency) = false).
Proof.
  intros Hcid Horder. split; [|split].
  - unfold verifyPayPalPayment. rewrite Hcid. apply verifyViaOrder_returned. exact Horder.
  - intros Hst. unfold orderVerdict.
    destruct (order_status order); try reflexivity. congruence.
  - intros first rest Hcaps Hfails. unfold orderVerdict. rewrite Hcaps.
    destruct (OrderStatus_eqb _ _); [exact Hfails | reflexivity].
Qed.

Lemma X7_order_strategy_verdict_witness :
  verifyPayPalPayment sandboxEnv
    (providerOf (Failure 500 None)
                (Success (orderOf ORDER_COMPLETED [captureOf DECLINED "GBP" "5.00";
                                                   captureOf COMPLETED "GBP" "5.00"])))
    3 "O1" 5%float "GBP" None tokenWorld
  = (Returned {| verified := false;
                 captureDetails := Some (captureOf DECLINED "GBP" "5.00");
                 orderDetails := Some (orderOf ORDER_COMPLETED [captureOf DECLINED "GBP" "5.00";
                                                                captureOf COMPLETED "GBP" "5.00"]) |},
     countFetch tokenWorld).
Proof.
  apply (X7_order_strategy_verdict sandboxEnv
           (providerOf (Failure 500 None)
                       (Success (orderOf ORDER_COMPLETED [captureOf DECLINED "GBP" "5.00";
                                                          captureOf COMPLETED "GBP" "5.00"])))
           3 "O1" 5%float "GBP" None tokenWorld (countFetch tokenWorld)
           (orderOf ORDER_COMPLETED [captureOf DECLINED "GBP" "5.00";
                                     captureOf COMPLETED "GBP" "5.00"]));
    reflexivity.
Defined.

(** X8.  A capture that the capture lookup returns decides the verdict on
    its own.  If it fails a test the result is unverified at once: the
    order is not consulted and there is no fallback to the order
    strategy.  If it passes, the result is verified whether the order
    lookup that follows returns or throws; the order appears in the
    result only when it was returned. *)
Theorem X8_returned_capture_decides (env : Env) (provider : Provider) (fuel : nat)
    (orderId : string) (expectedAmount : Js.number) (expectedCurrency : string)
    (captureId : option string) (w w1 : World) (capture : PayPalCaptureDetails) :
  truthy captureId = true ->
  verifyPayPalCapture env provider fuel (default "" captureId) 0 w = (Returned capture, w1) ->
  (capturePasses capture expectedAmount expectedCurrency = false ->
   verifyPayPalPayment env provider fuel orderId expectedAmount expectedCurrency captureId w
   = (Returned {| verified := false; captureDetails := Some capture; orderDetails := None |}, w1))
  /\ (capturePasses capture expectedAmount expectedCurrency = true ->
      forall (o : Outcome PayPalOrderResponse) (w2 : World),
        verifyPayPalOrder env provider fuel orderId 0 w1 = (o, w2) ->
        isPending o = false ->
        verifyPayPalPayment env provider fuel orderId expectedAmount expectedCurrency captureId w
        = (Returned {| verified := true; captureDetails := Some capture;
                       orderDetails := orderOfOutcome o |}, w2)).
Proof. apply verdict_via_capture. Qed.

Lemma X8_returned_capture_decides_witness :
  verifyPayPalPayment sandboxEnv
    (providerOf (Success (captureOf PENDING "GBP" "5.00"))
                (Success (orderOf ORDER_COMPLETED [captureOf COMPLETED "GBP" "5.00"])))
    3 "O1" 5%float "GBP" (Some "C1") tokenWorld
  = (Returned {| verified := false; captureDetails := Some (captureOf PENDING "GBP" "5.00");
                 orderDetails := None |},
     countFetch tokenWorld).
Proof.
  apply (X8_returned_capture_decides sandboxEnv
           (providerOf (Success (captureOf PENDING "GBP" "5.00"))
                       (Success (orderOf ORDER_COMPLETED [captureOf COMPLETED "GBP" "5.00"])))
           3 "O1" 5%float "GBP" (Some "C1") tokenWorld (countFetch tokenWorld)
           (captureOf PENDING "GBP" "5.00")); reflexivity.
Defined.

(* ===================================================================== *)
(** * What a submission does to the store *)
(* ===================================================================== *)

Section SubmissionAlone.

Variable env : Env.
Variable provider : Provider.
Variable fuel : nat.

Lemma notCredited_status (status : nat) (body : JsonBody) :
  status <> 200%nat -> notCredited (Json status body).
Proof. intros Hne b E. unfold creditedReply in E. inversion E. congruence. Qed.

(** The stages from the lookup of an existing payment on, for a user
    document that is the stored one. *)
Lemma run_checkExisting_cases (userId : string) (u : User.Doc) (pa : Js.number)
    (cur oid : string) (cid : option string) (s s1 : Sys) (r : Reply) :
  userStore s !! userId = Some u -> User.id u = userId ->
  run env provider fuel (checkExisting env userId u pa cur oid cid) s = (r, s1) ->
  (Payment.findOne oid (paymentStore s) = None
   /\ exists vr,
       creditBackedBy env provider fuel pa cur oid cid vr (world s) (world s1)
       /\ r = creditedReply (User.balance u + amountInPounds pa)%float
       /\ userStore s1
          = <[userId := User.setBalance (User.balance u + amountInPounds pa)%float u]>
              (userStore s)
       /\ paymentStore s1
          = (paymentStore s ++ [paymentDocument env u pa cur oid cid vr (now (world s1))])%list)
  \/ (notCredited r /\ userStore s1 = userStore s /\ paymentStore s1 = paymentStore s).
Proof.
  intros Hstored Hid. unfold checkExisting. cbn [run perform].
  destruct (Payment.findOne oid (paymentStore s)) as [p|] eqn:Hfind.
  { intros H. inversion H. right. split; [apply notCredited_status; lia|].
    split; reflexivity. }
  unfold verifyAndRecord, creditBackedBy.
  destruct (paypalSkipVerification env && paypalUseSandbox env).
  - rewrite run_recordPayment_fresh with (stored := u);
      [|rewrite Hid; exact Hstored|exact Hfind].
    intros H. inversion H. left. split; [reflexivity|].
    eexists. split; [split; reflexivity|]. rewrite Hid.
    split; [reflexivity|]. split; reflexivity.
  - cbn [run perform].
    destruct (verifyPayPalPayment env provider fuel oid (amountInPounds pa) cur cid (world s))
      as [[vr|m|] w1] eqn:Hverify; cbn [run].
    + destruct (verified vr) eqn:Hv; cbn [negb].
      * rewrite run_recordPayment_fresh with (stored := u);
          [|cbn [userStore setWorld]; rewrite Hid; exact Hstored
           |cbn [paymentStore setWorld]; exact Hfind].
        intros H. inversion H. left. split; [reflexivity|].
        exists vr. cbn [world setWorld userStore paymentStore]. rewrite Hid.
        split; [split; [reflexivity|exact Hv]|].
        split; [reflexivity|]. split; reflexivity.
      * intros H. inversion H. right. split; [apply notCredited_status; lia|].
        split; reflexivity.
    + intros H. inversion H. right.
      split; [intros b; apply verificationErrorReply_not_credited|]. split; reflexivity.
    + intros H. inversion H. right. split; [intros b E; discriminate E|]. split; reflexivity.
Qed.

(** A submission run alone credits once or leaves the store as it was up
    to the conversion of the balance. *)
Lemma run_submission_cases (req : AuthenticatedRequest) (s s1 : Sys) (r : Reply) :
  wellKeyed (userStore s) ->
  run env provider fuel (recordPayPalPayment env req) s = (r, s1) ->
  creditedOnce env provider fuel req s r s1
  \/ (notCredited r /\ sameUpToConversion (req_user req) s s1).
Proof.
  intros Hkeyed. unfold recordPayPalPayment, creditedOnce.
  destruct (req_user req) as [userId|] eqn:Huser.
  2: { intros H. inversion H. right. split; [apply notCredited_status; lia|].
       split; [reflexivity|left; reflexivity]. }
  rewrite amount_rejected_iff.
  destruct (isFinitePositive (Js.Number (body_amount (req_body req)))) eqn:Hamount; cbn [negb].
  2: { intros H. inversion H. right. split; [apply notCredited_status; lia|].
       split; [reflexivity|left; reflexivity]. }
  destruct (acceptedOrderId (body_orderId (req_body req))) as [oid|] eqn:Hoid.
  2: { intros H. inversion H. right. split; [apply notCredited_status; lia|].
       split; [reflexivity|left; reflexivity]. }
  apply acceptedOrderId_Some in Hoid as [Hoid Hne].
  unfold loadUser. cbn [run perform]. unfold User.findById.
  destruct (userStore s !! userId) as [u|] eqn:Hstored.
  2: { intros H. inversion H. right. split; [apply notCredited_status; lia|].
       split; [reflexivity|left; reflexivity]. }
  pose proof (Hkeyed userId u Hstored) as Hid.
  unfold normalizeLoaded.
  destruct (Js.gt (User.balance u) 1000%float) eqn:Hleg.
  - cbn [run perform]. rewrite (save_loaded u) by (rewrite Hid; exact Hstored). rewrite Hid.
    intros Hrun.
    apply run_checkExisting_cases in Hrun;
      [|cbn [userStore setUsers]; apply lookup_insert_eq|exact Hid].
    cbn [userStore paymentStore world setUsers User.balance User.setBalance] in Hrun.
    destruct Hrun as [[Hfind [vr [Hback [Hr [Hu Hp]]]]]|[Hr [Hu Hp]]].
    + left. exists userId, u, oid, vr.
      unfold normalizedBalance, isLegacyBalance. rewrite Hleg.
      repeat (split; [first [reflexivity | assumption]|]).
      split; [rewrite Hu, insert_insert_eq; reflexivity | exact Hp].
    + right. split; [exact Hr|]. split; [exact Hp|]. right.
      exists userId, u. repeat (split; [first [reflexivity | assumption]|]). exact Hu.
  - intros Hrun. apply run_checkExisting_cases in Hrun; [|exact Hstored|exact Hid].
    destruct Hrun as [[Hfind [vr [Hback [Hr [Hu Hp]]]]]|[Hr [Hu Hp]]].
    + left. exists userId, u, oid, vr.
      unfold normalizedBalance, isLegacyBalance. rewrite Hleg.
      repeat (split; [first [reflexivity | assumption]|]). exact Hp.
    + right. split; [exact Hr|]. split; [exact Hp|]. left. exact Hu.
Qed.

End SubmissionAlone.

(** X9.  A submission handled alone has one of two effects.  Either it is
    credited once: the reply is the credited reply with the converted
    balance plus amount/1000, that balance is stored for the user, exactly
    one payment of the order is appended (completed, provider paypal, the
    amount as submitted), the order had no payment before, and the credit
    is backed by a verified result or by the sandbox skip.  Or the reply
    is another one, the payments are as they were, and so are the users
    apart from the conversion of the requester's balance. *)
Theorem X9_credited_once_or_unchanged (env : Env) (provider : Provider) (fuel : nat)
    (req : AuthenticatedRequest) (s : Sys) :
  wellKeyed (userStore s) ->
  let result := run env provider fuel (recordPayPalPayment env req) s in
  creditedOnce env provider fuel req s (fst result) (snd result)
  \/ (notCredited (fst result) /\ sameUpToConversion (req_user req) s (snd result)).
Proof.
  intros Hkeyed result. apply run_submission_cases; [exact Hkeyed|].
  subst result. destruct (run _ _ _ _ _); reflexivity.
Qed.

Lemma X9_credited_once_or_unchanged_witness :
  let provider := providerOf (Failure 500 None)
                    (Success (orderOf ORDER_COMPLETED [captureOf COMPLETED "GBP" "5.00"])) in
  let req := requestFor (Js.Num 5000%float) (Js.Str "O1") None in
  let result := run sandboxEnv provider 3 (recordPayPalPayment sandboxEnv req)
                    (storeWith 10%float []) in
  creditedOnce sandboxEnv provider 3 req (storeWith 10%float []) (fst result) (snd result)
  \/ (notCredited (fst result)
      /\ sameUpToConversion (req_user req) (storeWith 10%float []) (snd result)).
Proof.
  intros provider req.
  apply (X9_credited_once_or_unchanged sandboxEnv provider 3 req (storeWith 10%float [])).
  apply storeWith_wellKeyed.
Defined.

(** X10.  Outside the sandbox skip no balance is credited without a
    capture: when a submission handled alone ends with the credited
    reply, the verifier had returned, for the order id of the request and
    amount/1000 in the currency of the request, a verified result naming
    a capture that is completed, in that currency, and passes the amount
    test. *)
Theorem X10_no_credit_without_capture (env : Env) (provider : Provider) (fuel : nat)
    (req : AuthenticatedRequest) (s s1 : Sys) (b : Js.number) :
  wellKeyed (userStore s) ->
  paypalSkipVerification env && paypalUseSandbox env = false ->
  run env provider fuel (recordPayPalPayment env req) s = (creditedReply b, s1) ->
  let expected := amountInPounds (Js.Number (body_amount (req_body req))) in
  let currency := default "GBP" (body_currency (req_body req)) in
  exists (orderId : string) (vr : VerificationResult) (capture : PayPalCaptureDetails),
    body_orderId (req_body req) = Js.Str orderId
    /\ verifyPayPalPayment env provider fuel orderId expected currency
                           (body_captureId (req_body req)) (world s)
       = (Returned vr, world s1)
    /\ verified vr = true
    /\ captureDetails vr = Some capture
    /\ capture_status capture = COMPLETED
    /\ currency_code (amount capture) = currency
    /\ amountMismatch capture expected = false.
Proof.
  intros Hkeyed Hskip Hrun expected currency.
  destruct (run_submission_cases env provider fuel req s s1 _ Hkeyed Hrun)
    as [Hcredited|[Hnot _]]; [|exfalso; exact (Hnot b eq_refl)].
  destruct Hcredited as [userId [u [oid [vr [_ [_ [_ [Hoid [_ [Hback _]]]]]]]]]].
  unfold creditBackedBy in Hback. rewrite Hskip in Hback. destruct Hback as [Hverify Hv].
  pose proof (verifyPayPalPayment_matches _ _ _ _ _ _ _ _ _ _ Hverify) as Hm.
  unfold verdictMatchesCapture in Hm.
  destruct (captureDetails vr) as [capture|] eqn:Hc; [|congruence].
  rewrite Hv in Hm. symmetry in Hm. unfold capturePasses in Hm.
  apply andb_prop in Hm as [Hm Hamt]. apply andb_prop in Hm as [Hst Hcur].
  exists oid, vr, capture. repeat (split; [first [reflexivity | assumption]|]).
  split; [destruct (capture_status capture); first [reflexivity | discriminate]|].
  split.
  - unfold currencyMismatch in Hcur. rewrite negb_involutive in Hcur.
    apply String.eqb_eq. exact Hcur.
  - apply negb_true_iff. exact Hamt.
Qed.

Lemma X10_no_credit_without_capture_witness :
  exists (orderId : string) (vr : VerificationResult) (capture : PayPalCaptureDetails),
    body_orderId (req_body (requestFor (Js.Num 5000%float) (Js.Str "O1") None)) = Js.Str orderId
    /\ verifyPayPalPayment sandboxEnv
         (providerOf (Failure 500 None)
            (Success (orderOf ORDER_COMPLETED [captureOf COMPLETED "GBP" "5.00"])))
         3 orderId 5%float "GBP" None tokenWorld
       = (Returned vr, countFetch tokenWorld)
    /\ verified vr = true
    /\ captureDetails vr = Some capture
    /\ capture_status capture = COMPLETED
    /\ currency_code (amount capture) = "GBP"
    /\ amountMismatch capture 5%float = false.
Proof.
  refine (X10_no_credit_without_capture sandboxEnv
            (providerOf (Failure 500 None)
               (Success (orderOf ORDER_COMPLETED [captureOf COMPLETED "GBP" "5.00"])))
            3 (requestFor (Js.Num 5000%float) (Js.Str "O1") None)
            (storeWith 10%float [])
            (snd (run sandboxEnv
                    (providerOf (Failure 500 None)
                       (Success (orderOf ORDER_COMPLETED [captureOf COMPLETED "GBP" "5.00"])))
                    3 (recordPayPalPayment sandboxEnv
                         (requestFor (Js.Num 5000%float) (Js.Str "O1") None))
                    (storeWith 10%float [])))
            15%float _ _ _).
  - apply storeWith_wellKeyed.
  - reflexivity.
  - vm_compute. reflexivity.
Defined.

(* ===================================================================== *)
(** * An outage of the order endpoint, as the client sees it *)
(* ===================================================================== *)

Section Outage.

Variable env : Env.
Variable provider : Provider.
Variable named : bool.
Hypothesis Hgranted : tokenAlwaysGranted provider.
Hypothesis Hcred : credentialsConfigured env = true.
Hypothesis Houtage : orderOutage named provider.

Lemma verifyPayPalOrder_outage :
  forall (fuel retryCount : nat) (orderId : string) (w : World),
    (maxRetries <= fuel + retryCount)%nat ->
    fst (verifyPayPalOrder env provider fuel orderId retryCount w)
    = Thrown (outageMessage named).
Proof.
  induction fuel as [|fuel IH]; intros retryCount orderId w Hfuel; cbn [verifyPayPalOrder].
  - destruct (getAccessToken_granted_returns env provider Hgranted Hcred 0%nat 0%nat w)
      as [token [w0 ->]].
    rewrite Houtage. cbn [Nat.eqb orb].
    assert (Hrc : (retryCount <? maxRetries)%nat = false)
      by (apply Nat.ltb_ge; lia).
    rewrite Hrc. cbn [andb]. unfold outageSignal, outageMessage.
    destruct named; reflexivity.
  - destruct (getAccessToken_granted_returns env provider Hgranted Hcred (S fuel) 0%nat w)
      as [token [w0 ->]].
    rewrite Houtage. replace (503 =? 503)%nat with true by reflexivity. cbn [orb].
    destruct (retryCount <? maxRetries)%nat eqn:Hrc; cbn [andb].
    + apply IH. lia.
    + unfold outageSignal, outageMessage. destruct named; reflexivity.
Qed.

Lemma verifyPayPalPayment_outage (fuel : nat) (orderId : string) (expectedAmount : Js.number)
    (expectedCurrency : string) (captureId : option string) (w : World) :
  (maxRetries <= fuel)%nat ->
  truthy captureId = false ->
  fst (verifyPayPalPayment env provider fuel orderId expectedAmount expectedCurrency captureId w)
  = Thrown (outageMessage named).
Proof.
  intros Hfuel Hcid. unfold verifyPayPalPayment, verifyViaOrder. rewrite Hcid.
  pose proof (verifyPayPalOrder_outage fuel 0 orderId w) as Horder.
  destruct (verifyPayPalOrder env provider fuel orderId 0 w) as [o w1].
  cbn [fst] in Horder. rewrite Horder by lia.
  unfold outageMessage. destruct named; reflexivity.
Qed.

End Outage.

Section VerificationThrows.

Variable env : Env.
Variable provider : Provider.
Variable fuel : nat.

(** A first submission of a known user whose verification throws. *)
Lemma run_submission_thrown (req : AuthenticatedRequest) (s : Sys) (userId oid : string)
    (u : User.Doc) (m : string) :
  wellKeyed (userStore s) ->
  paypalSkipVerification env && paypalUseSandbox env = false ->
  req_user req = Some userId ->
  isFinitePositive (Js.Number (body_amount (req_body req))) = true ->
  body_orderId (req_body req) = Js.Str oid -> oid <> EmptyString ->
  userStore s !! userId = Some u ->
  Payment.findOne oid (paymentStore s) = None ->
  fst (verifyPayPalPayment env provider fuel oid
         (amountInPounds (Js.Number (body_amount (req_body req))))
         (default "GBP" (body_currency (req_body req))) (body_captureId (req_body req))
         (world s)) = Thrown m ->
  fst (run env provider fuel (recordPayPalPayment env req) s) = verificationErrorReply env m
  /\ paymentStore (snd (run env provider fuel (recordPayPalPayment env req) s))
     = paymentStore s.
Proof.
  intros Hkeyed Hskip Huser Hamount Horder Hne Hstored Hfresh Hthrown.
  pose proof (Hkeyed userId u Hstored) as Hid.
  rewrite (handler_valid env req userId oid Huser Hamount Horder Hne).
  unfold loadUser. cbn [run perform]. unfold User.findById. rewrite Hstored.
  unfold normalizeLoaded.
  destruct (Js.gt (User.balance u) 1000%float).
  - cbn [run perform]. rewrite (save_loaded u) by (rewrite Hid; exact Hstored).
    unfold checkExisting. cbn [run perform setUsers paymentStore]. rewrite Hfresh.
    unfold verifyAndRecord. rewrite Hskip. cbn [run perform world].
    destruct (verifyPayPalPayment _ _ _ _ _ _ _ _) as [o w1]. cbn [fst] in Hthrown.
    subst o. cbn [run fst snd paymentStore setWorld]. split; reflexivity.
  - unfold checkExisting. cbn [run perform]. rewrite Hfresh.
    unfold verifyAndRecord. rewrite Hskip. cbn [run perform].
    destruct (verifyPayPalPayment _ _ _ _ _ _ _ _) as [o w1]. cbn [fst] in Hthrown.
    subst o. cbn [run fst snd paymentStore setWorld]. split; reflexivity.
Qed.

End VerificationThrows.

(** X11.  The two signals of the same outage reach the client
    differently.  When the order endpoint keeps answering with an error
    named SERVICE_UNAVAILABLE, a first submission without capture id is
    answered 503 with [retryable: true]; when it keeps answering with the
    plain status 503, the submission is answered 502 "Failed to verify
    payment with PayPal." without the flag.  In both cases no payment is
    recorded. *)
Theorem X11_outage_reply_depends_on_signal (env : Env) (provider : Provider) (fuel : nat)
    (named : bool) (req : AuthenticatedRequest) (s : Sys) (userId oid : string) (u : User.Doc) :
  tokenAlwaysGranted provider ->
  credentialsConfigured env = true ->
  orderOutage named provider ->
  (maxRetries <= fuel)%nat ->
  wellKeyed (userStore s) ->
  paypalSkipVerification env && paypalUseSandbox env = false ->
  req_user req = Some userId ->
  isFinitePositive (Js.Number (body_amount (req_body req))) = true ->
  body_orderId (req_body req) = Js.Str oid -> oid <> EmptyString ->
  truthy (body_captureId (req_body req)) = false ->
  userStore s !! userId = Some u ->
  Payment.findOne oid (paymentStore s) = None ->
  fst (run env provider fuel (recordPayPalPayment env req) s) = outageReply env named
  /\ paymentStore (snd (run env provider fuel (recordPayPalPayment env req) s))
     = paymentStore s.
Proof.
  intros Hgranted Hcred Houtage Hfuel Hkeyed Hskip Huser Hamount Horder Hne Hcid Hstored Hfresh.
  destruct (run_submission_thrown env provider fuel req s userId oid u (outageMessage named)
              Hkeyed Hskip Huser Hamount Horder Hne Hstored Hfresh) as [Hreply Hpayments].
  { apply verifyPayPalPayment_outage; assumption. }
  split; [|exact Hpayments]. rewrite Hreply.
  unfold verificationErrorReply, outageReply, outageMessage.
  destruct named; destruct (String.eqb (node env) "development"); vm_compute; reflexivity.
Qed.

Lemma X11_outage_reply_depends_on_signal_witness :
  fst (run sandboxEnv (outageProvider false) 3
         (recordPayPalPayment sandboxEnv (requestFor (Js.Num 5000%float) (Js.Str "O1") None))
         (storeWith 10%float []))
  = outageReply sandboxEnv false
  /\ paymentStore
       (snd (run sandboxEnv (outageProvider false) 3
               (recordPayPalPayment sandboxEnv
                  (requestFor (Js.Num 5000%float) (Js.Str "O1") None))
               (storeWith 10%float [])))
     = paymentStore (storeWith 10%float []).
Proof.
  apply (X11_outage_reply_depends_on_signal sandboxEnv (outageProvider false) 3 false
           (requestFor (Js.Num 5000%float) (Js.Str "O1") None) (storeWith 10%float [])
           "u1" "O1" (userWith 10%float)).
  - intros n a b. exists tokenResponse. reflexivity.
  - reflexivity.
  - intros n token orderId. reflexivity.
  - unfold maxRetries. lia.
  - apply storeWith_wellKeyed.
  - reflexivity.
  - reflexivity.
  - vm_compute. reflexivity.
  - reflexivity.
  - discriminate.
  - reflexivity.
  - reflexivity.
  - reflexivity.
Defined.

(* ===================================================================== *)
(** * The generation controller: the charge *)
(* ===================================================================== *)

Section GenerationCharge.

Variable services : Generation.Services.

(** An accepted request of a stored user, step by step. *)
Lemma createGeneration_accepted (userId : string) (body : Generation.Body)
    (s : Generation.State) (u : User.Doc) :
  Generation.users s !! userId = Some u -> User.id u = userId ->
  accepted body u = true ->
  let costInPounds := (Js.Number (Generation.body_cost body) / 1000)%float in
  PrimFloat.is_nan (User.balance u - costInPounds)%float = false ->
  let uploaded := fst (uploadMedia services body) in
  let doc := generationRecord userId body uploaded in
  createGenerationController services (Some userId) body s
  = (match Generation.generationSave services doc with
     | Resolved id => Generation.Created id
     | Threw _ => Generation.Next
     end,
     {| Generation.users := debited userId u costInPounds (Generation.users s);
        Generation.calls :=
          (Generation.calls s ++ snd (uploadMedia services body)
           ++ [Generation.CalledGenerationSave doc])%list |}).
Proof.
  intros Hstored Hid Hacc costInPounds Hnum uploaded doc. subst costInPounds.
  unfold accepted in Hacc.
  apply andb_prop in Hacc as [Hacc Hbal]. apply andb_prop in Hacc as [Hacc Hcost].
  apply andb_prop in Hacc as [Hacc Hprompt]. apply andb_prop in Hacc as [Hmedia Hname].
  apply negb_true_iff in Hbal, Hcost, Hprompt, Hmedia, Hname.
  unfold createGenerationController. rewrite Hmedia, Hname, Hprompt, Hcost. cbn [orb].
  unfold User.findById. rewrite Hstored, Hbal.
  unfold saveDebited. cbn [User.balance User.setBalance]. rewrite Hnum.
  rewrite (save_loaded u) by (rewrite Hid; exact Hstored). rewrite Hid.
  subst doc uploaded. destruct (uploadMedia services body) as [uploaded uploads].
  cbn [fst snd]. unfold debited.
  destruct (Generation.generationSave services _); reflexivity.
Qed.

End GenerationCharge.

(** X12.  A generation request that is refused (401, 400, 404) changes
    nothing: no balance is touched and no upload or save is attempted.
    For a stored user the request is refused exactly when one of
    mediaType, name, prompt is falsy, cost is undefined, or the balance is
    below cost/1000. *)
Theorem X12_refused_generation_changes_nothing (services : Generation.Services)
    (user : option string) (body : Generation.Body) (s : Generation.State) :
  (isRefusal (fst (createGenerationController services user body s)) = true ->
   snd (createGenerationController services user body s) = s)
  /\ forall (userId : string) (u : User.Doc),
       user = Some userId -> Generation.users s !! userId = Some u ->
       isRefusal (fst (createGenerationController services user body s))
       = negb (accepted body u).
Proof.
  split.
  - unfold createGenerationController.
    destruct user as [userId|]; [|reflexivity].
    destruct (_ || _); [reflexivity|].
    destruct (User.findById userId (Generation.users s)) as [u|]; [|reflexivity].
    destruct (Js.lt _ _); [reflexivity|].
    destruct (saveDebited _ _); [|discriminate].
    destruct (uploadMedia services body) as [uploaded uploads].
    destruct (Generation.generationSave services _); discriminate.
  - intros userId u -> Hstored. unfold createGenerationController, accepted, User.findById.
    rewrite Hstored.
    destruct (Js.falsy (Generation.body_mediaType body)); [reflexivity|].
    destruct (Js.falsy (Generation.body_name body)); [reflexivity|].
    destruct (Js.falsy (Generation.body_prompt body)); [reflexivity|].
    destruct (match Generation.body_cost body with Js.Undefined => true | _ => false end);
      [reflexivity|].
    cbn [orb negb andb].
    destruct (Js.lt _ _); [reflexivity|].
    destruct (saveDebited _ _); [|reflexivity].
    destruct (uploadMedia services body) as [uploaded uploads].
    destruct (Generation.generationSave services _); reflexivity.
Qed.

(** X13.  The charge comes before the work and is never given back.  For
    an accepted request of a stored user the stored balance becomes the
    balance minus cost/1000 whatever the uploads and the save of the
    generation do: when the save of the generation throws, the request
    ends in [next(error)] and the user stays charged.  The uploads and
    the save of the generation are the only calls made, in that order.
    The one exception is a cost for which balance minus cost/1000 is not
    a number (a cost such as ["abc"]): the save of the user fails, the
    request ends in [next(error)], and nothing is charged, uploaded or
    saved. *)
Theorem X13_charged_before_the_work (services : Generation.Services) (userId : string)
    (body : Generation.Body) (s : Generation.State) (u : User.Doc) :
  Generation.users s !! userId = Some u -> User.id u = userId ->
  accepted body u = true ->
  let costInPounds := (Js.Number (Generation.body_cost body) / 1000)%float in
  let result := createGenerationController services (Some userId) body s in
  let doc := generationRecord userId body (fst (uploadMedia services body)) in
  if PrimFloat.is_nan (User.balance u - costInPounds)%float then
    result = (Generation.Next, s)
  else
    Generation.users (snd result) = debited userId u costInPounds (Generation.users s)
    /\ (forall m, Generation.generationSave services doc = Threw m ->
                  fst result = Generation.Next)
    /\ (forall id, fst result = Generation.Created id ->
                   Generation.generationSave services doc = Resolved id)
    /\ Generation.calls (snd result)
       = (Generation.calls s ++ snd (uploadMedia services body)
          ++ [Generation.CalledGenerationSave doc])%list.
Proof.
  intros Hstored Hid Hacc costInPounds result doc.
  destruct (PrimFloat.is_nan (User.balance u - costInPounds)%float) eqn:Hnum.
  - subst result costInPounds. unfold accepted in Hacc.
    apply andb_prop in Hacc as [Hacc Hbal]. apply andb_prop in Hacc as [Hacc Hcost].
    apply andb_prop in Hacc as [Hacc Hprompt]. apply andb_prop in Hacc as [Hmedia Hname].
    apply negb_true_iff in Hbal, Hcost, Hprompt, Hmedia, Hname.
    unfold createGenerationController. rewrite Hmedia, Hname, Hprompt, Hcost. cbn [orb].
    unfold User.findById. rewrite Hstored, Hbal.
    unfold saveDebited. cbn [User.balance User.setBalance]. rewrite Hnum. reflexivity.
  - subst result.
    rewrite (createGeneration_accepted services userId body s u Hstored Hid Hacc Hnum).
    cbn [fst snd Generation.users Generation.calls]. fold doc.
    split; [reflexivity|]. split; [|split].
    + intros m ->. reflexivity.
    + intros id. destruct (Generation.generationSave services doc); intros H; inversion H.
      reflexivity.
    + reflexivity.
Qed.

(** A request with the cost ["abc"] is accepted and not charged; one
    with the cost 2500 is charged 2.50 though the save of the generation
    fails. *)
Lemma X13_charged_before_the_work_witness :
  createGenerationController (servicesWith (Resolved "g1")) (Some "u1")
    (generationBody "image" (Js.Str "AAAA") (Js.Str "abc")) (generationState 10%float)
  = (Generation.Next, generationState 10%float)
  /\ Generation.users
       (snd (createGenerationController (servicesWith (Threw "validation failed")) (Some "u1")
               (generationBody "image" (Js.Str "AAAA") (Js.Num 2500%float))
               (generationState 10%float)))
     = debited "u1" (userWith 10%float) 2.5%float (Generation.users (generationState 10%float)).
Proof.
  split.
  - exact (X13_charged_before_the_work (servicesWith (Resolved "g1")) "u1"
             (generationBody "image" (Js.Str "AAAA") (Js.Str "abc"))
             (generationState 10%float) (userWith 10%float) eq_refl eq_refl eq_refl).
  - exact (proj1 (X13_charged_before_the_work (servicesWith (Threw "validation failed")) "u1"
                    (generationBody "image" (Js.Str "AAAA") (Js.Num 2500%float))
                    (generationState 10%float) (userWith 10%float) eq_refl eq_refl eq_refl)).
Defined.

Lemma X12_refused_generation_changes_nothing_witness :
  isRefusal (fst (createGenerationController (servicesWith (Resolved "g1")) (Some "u1")
                    (generationBody "image" (Js.Str "AAAA") (Js.Num 20000%float))
                    (generationState 10%float)))
  = negb (accepted (generationBody "image" (Js.Str "AAAA") (Js.Num 20000%float))
                   (userWith 10%float)).
Proof.
  refine (proj2 (X12_refused_generation_changes_nothing (servicesWith (Resolved "g1"))
                   (Some "u1") (generationBody "image" (Js.Str "AAAA") (Js.Num 20000%float))
                   (generationState 10%float)) "u1" (userWith 10%float) _ _); reflexivity.
Defined.

(** A number below zero is below every number that is not below zero. *)
Lemma lt_negative_nonnegative (b c : Js.number) :
  Js.lt c 0%float = true -> Js.le 0%float b = true -> Js.lt b c = false.
Proof.
  unfold Js.lt, Js.le. rewrite !FloatAxioms.ltb_spec, FloatAxioms.leb_spec.
  change (Prim2SF 0%float) with (S754_zero false).
  unfold SFltb, SFleb.
  destruct (Prim2SF b) as [sb|sb| |sb mb eb], (Prim2SF c) as [sc|sc| |sc mc ec]; simpl;
    try discriminate; try reflexivity;
    try (destruct sb; try discriminate); try (destruct sc; try discriminate);
    try reflexivity; try discriminate.
Qed.

(** X14.  The cost is not checked for its sign.  A request whose cost is
    below zero is never refused for insufficient balance by a user whose
    balance is not negative, and the negative amount is subtracted as it
    is: the stored balance becomes balance - cost/1000. *)
Theorem X14_negative_cost_accepted (services : Generation.Services) (userId : string)
    (body : Generation.Body) (s : Generation.State) (u : User.Doc) :
  Generation.users s !! userId = Some u -> User.id u = userId ->
  Js.falsy (Generation.body_mediaType body) = false ->
  Js.falsy (Generation.body_name body) = false ->
  Js.falsy (Generation.body_prompt body) = false ->
  let costInPounds := (Js.Number (Generation.body_cost body) / 1000)%float in
  Js.lt costInPounds 0%float = true ->
  Js.le 0%float (User.balance u) = true ->
  let result := createGenerationController services (Some userId) body s in
  isRefusal (fst result) = false
  /\ (PrimFloat.is_nan (User.balance u - costInPounds)%float = false ->
      Generation.users (snd result) = debited userId u costInPounds (Generation.users s)).
Proof.
  intros Hstored Hid Hmedia Hname Hprompt costInPounds Hneg Hbal result.
  assert (Hacc : accepted body u = true).
  { unfold accepted. rewrite Hmedia, Hname, Hprompt.
    fold costInPounds. rewrite (lt_negative_nonnegative _ _ Hneg Hbal).
    destruct (Generation.body_cost body) eqn:Hcost; try reflexivity.
    subst costInPounds. vm_compute in Hneg. discriminate. }
  subst result. split.
  - unfold createGenerationController, User.findById.
    unfold accepted in Hacc. rewrite Hmedia, Hname, Hprompt, Hstored.
    rewrite Hmedia, Hname, Hprompt in Hacc. cbn [negb andb orb] in Hacc |- *.
    apply andb_prop in Hacc as [Hcost Hlt]. apply negb_true_iff in Hcost, Hlt.
    rewrite Hcost, Hlt.
    destruct (saveDebited _ _); [|reflexivity].
    destruct (uploadMedia services body) as [uploaded uploads].
    destruct (Generation.generationSave services _); reflexivity.
  - intros Hnum.
    rewrite (createGeneration_accepted services userId body s u Hstored Hid Hacc Hnum).
    reflexivity.
Qed.

Lemma X14_negative_cost_accepted_witness :
  isRefusal (fst (createGenerationController (servicesWith (Resolved "g1")) (Some "u1")
                    (generationBody "image" (Js.Str "AAAA") (Js.Num (-5000)%float))
                    (generationState 10%float))) = false
  /\ (PrimFloat.is_nan (10 - (-5000) / 1000)%float = false ->
      Generation.users
        (snd (createGenerationController (servicesWith (Resolved "g1")) (Some "u1")
                (generationBody "image" (Js.Str "AAAA") (Js.Num (-5000)%float))
                (generationState 10%float)))
      = debited "u1" (userWith 10%float) (-5)%float
                (Generation.users (generationState 10%float))).
Proof.
  apply (X14_negative_cost_accepted (servicesWith (Resolved "g1")) "u1"
           (generationBody "image" (Js.Str "AAAA") (Js.Num (-5000)%float))
           (generationState 10%float) (userWith 10%float)); reflexivity.
Defined.

(** X15.  What is stored of the media.  The base64 of the request is
    left out of the generation record exactly when the image upload gave
    a non-empty URL.  When the image upload throws, the record keeps the
    base64 and has no image URL.  For a media type other than the string
    [image] the record never has an image URL and always keeps the
    base64: a video is stored inline even when its upload succeeded and
    the record points to the uploaded file. *)
Theorem X15_base64_kept_unless_image_uploaded (services : Generation.Services)
    (userId : string) (body : Generation.Body) :
  let doc := generationRecord userId body (fst (uploadMedia services body)) in
  (strictEqualsString (Generation.body_mediaType body) "image" = false ->
   Generation.imageUrl doc = None
   /\ Generation.base64 doc = Generation.body_base64 body
   /\ forall uploadResult,
        strictEqualsString (Generation.body_mediaType body) "video" = true ->
        Js.falsy (Generation.body_base64 body) = false ->
        Generation.uploadVideo services (Generation.body_base64 body)
          (orElse (Generation.body_mimeType body) (Js.Str "video/mp4"))
        = Resolved uploadResult ->
        Generation.videoUrl doc = Js.Str (Generation.secureUrl uploadResult)
        /\ Generation.cloudinaryPublicId doc = Some (Generation.publicId uploadResult))
  /\ (strictEqualsString (Generation.body_mediaType body) "image" = true ->
      Js.falsy (Generation.body_base64 body) = false ->
      (forall m,
         Generation.uploadImageWithThumbnail services (Generation.body_base64 body) = Threw m ->
         Generation.imageUrl doc = None
         /\ Generation.base64 doc = Generation.body_base64 body)
      /\ (forall uploadResult,
            Generation.uploadImageWithThumbnail services (Generation.body_base64 body)
            = Resolved uploadResult ->
            Generation.secureUrl (Generation.image uploadResult) <> EmptyString ->
            Generation.imageUrl doc = Some (Generation.secureUrl (Generation.image uploadResult))
            /\ Generation.base64 doc = Js.Undefined)).
Proof.
  intros doc. subst doc. split.
  - intros Himage. unfold uploadMedia. rewrite Himage. cbn [andb].
    split; [|split].
    + repeat match goal with
             | |- context [if ?b then _ else _] => destruct b
             | |- context [match ?x with _ => _ end] => destruct x
             end; reflexivity.
    + repeat match goal with
             | |- context [if ?b then _ else _] => destruct b
             | |- context [match ?x with _ => _ end] => destruct x
             end; reflexivity.
    + intros uploadResult Hvideo Hbase Hup. rewrite Hvideo, Hbase, Hup. cbn [andb negb].
      repeat match goal with
             | |- context [if ?b then _ else _] => destruct b
             | |- context [match ?x with _ => _ end] => destruct x
             end; split; reflexivity.
  - intros Himage Hbase. unfold uploadMedia. rewrite Himage, Hbase. cbn [andb negb]. split.
    + intros m ->. split; reflexivity.
    + intros uploadResult -> Hne. unfold generationRecord.
      cbn [fst Generation.imageUrl Generation.base64 Generation.up_imageUrl truthy].
      apply String.eqb_neq in Hne. rewrite Hne. split; reflexivity.
Qed.

Lemma X15_base64_kept_unless_image_uploaded_witness :
  let doc := generationRecord "u1" (generationBody "video" (Js.Str "AAAA") (Js.Num 2500%float))
               (fst (uploadMedia (servicesWith (Resolved "g1"))
                       (generationBody "video" (Js.Str "AAAA") (Js.Num 2500%float)))) in
  Generation.imageUrl doc = None
  /\ Generation.base64 doc = Js.Str "AAAA"
  /\ forall uploadResult,
       strictEqualsString (Js.Str "video") "video" = true ->
       Js.falsy (Js.Str "AAAA") = false ->
       Generation.uploadVideo (servicesWith (Resolved "g1")) (Js.Str "AAAA")
         (orElse Js.Undefined (Js.Str "video/mp4"))
       = Resolved uploadResult ->
       Generation.videoUrl doc = Js.Str (Generation.secureUrl uploadResult)
       /\ Generation.cloudinaryPublicId doc = Some (Generation.publicId uploadResult).
Proof.
  apply (X15_base64_kept_unless_image_uploaded (servicesWith (Resolved "g1")) "u1"
           (generationBody "video" (Js.Str "AAAA") (Js.Num 2500%float))).
  reflexivity.
Defined.

(* ===================================================================== *)
(** * The profile read *)
(* ===================================================================== *)

Lemma getCurrentUser_stored (users : User.Collection) (userId : string) (u : User.Doc) :
  users !! userId = Some u -> User.id u = userId ->
  getCurrentUserController (Some userId) users
  = (Profile (payloadOf u (normalizedBalance (User.balance u))),
     if isLegacyBalance (User.balance u)
     then <[userId := User.setBalance (User.balance u / 1000)%float u]> users
     else users).
Proof.
  intros Hstored Hid. unfold getCurrentUserController, User.findById. rewrite Hstored.
  unfold formatUser, normalizedBalance, isLegacyBalance, payloadOf.
  destruct (Js.gt (User.balance u) 1000%float); [|reflexivity].
  rewrite (save_loaded u) by (rewrite Hid; exact Hstored). rewrite Hid. reflexivity.
Qed.

(** X16.  The profile read converts on every read.  It answers with the
    stored balance, divided by 1000 if that is above 1000, and stores
    what it answered; a second read applies the same test to the stored
    result, so a balance above 1,000,000 is divided twice.  A read of a
    balance not above 1000 writes nothing, and a read without a user or
    of an unknown user changes nothing. *)
Theorem X16_profile_read_converts_every_time (users : User.Collection) (userId : string)
    (u : User.Doc) :
  wellKeyed users -> users !! userId = Some u ->
  let b := User.balance u in
  let first := getCurrentUserController (Some userId) users in
  let second := getCurrentUserController (Some userId) (snd first) in
  fst first = Profile (payloadOf u (normalizedBalance b))
  /\ User.balance <$> (snd first !! userId) = Some (normalizedBalance b)
  /\ fst second = Profile (payloadOf u (normalizedBalance (normalizedBalance b)))
  /\ (isLegacyBalance b = false -> snd first = users)
  /\ snd (getCurrentUserController None users) = users
  /\ forall other, users !! other = None ->
                   getCurrentUserController (Some other) users
                   = (ProfileError 404 "User not found", users).
Proof.
  intros Hkeyed Hstored b first second.
  pose proof (Hkeyed userId u Hstored) as Hid.
  subst second first. rewrite (getCurrentUser_stored users userId u Hstored Hid).
  cbn [fst snd]. fold b. split; [reflexivity|].
  assert (H404 : forall other, users !! other = None ->
                   getCurrentUserController (Some other) users
                   = (ProfileError 404 "User not found", users)).
  { intros other Hnone. unfold getCurrentUserController, User.findById. rewrite Hnone.
    reflexivity. }
  destruct (isLegacyBalance b) eqn:Hleg.
  - assert (Hn : normalizedBalance b = (b / 1000)%float)
      by (unfold normalizedBalance; rewrite Hleg; reflexivity).
    rewrite Hn, lookup_insert_eq. split; [reflexivity|].
    rewrite (getCurrentUser_stored _ userId (User.setBalance (b / 1000)%float u))
      by (first [apply lookup_insert_eq | exact Hid]).
    split; [reflexivity|]. split; [discriminate|]. split; [reflexivity|exact H404].
  - assert (Hn : normalizedBalance b = b)
      by (unfold normalizedBalance; rewrite Hleg; reflexivity).
    rewrite Hn, Hstored. split; [reflexivity|].
    rewrite (getCurrentUser_stored users userId u Hstored Hid). fold b. rewrite Hn.
    split; [reflexivity|]. split; [reflexivity|]. split; [reflexivity|exact H404].
Qed.

Lemma X16_profile_read_converts_every_time_witness :
  fst (getCurrentUserController (Some "u1")
         (snd (getCurrentUserController (Some "u1") {[ "u1" := userWith 2500000%float ]})))
  = Profile (payloadOf (userWith 2500000%float) 2.5%float).
Proof.
  refine (proj1 (proj2 (proj2 (X16_profile_read_converts_every_time
                                 {[ "u1" := userWith 2500000%float ]} "u1"
                                 (userWith 2500000%float) _ _)))).
  - apply (storeWith_wellKeyed 2500000%float []).
  - reflexivity.
Defined.

(** X17.  What the client is shown after a top-up.  When a submission
    handled alone was credited with the balance [b1], the next profile
    read of that user answers with [b1] only if [b1] is not above 1000;
    otherwise it answers [b1 / 1000] and stores that. *)
Theorem X17_profile_after_credit (env : Env) (provider : Provider) (fuel : nat)
    (req : AuthenticatedRequest) (s s1 : Sys) (b1 : Js.number) :
  wellKeyed (userStore s) ->
  run env provider fuel (recordPayPalPayment env req) s = (creditedReply b1, s1) ->
  exists (userId : string) (u1 : User.Doc),
    req_user req = Some userId
    /\ userStore s1 !! userId = Some u1
    /\ User.balance u1 = b1
    /\ fst (getCurrentUserController (req_user req) (userStore s1))
       = Profile (payloadOf u1 (normalizedBalance b1))
    /\ User.balance <$> (snd (getCurrentUserController (req_user req) (userStore s1)) !! userId)
       = Some (normalizedBalance b1).
Proof.
  intros Hkeyed Hrun.
  destruct (credited_handler env provider fuel req b1 s s1 Hkeyed Hrun)
    as [userId [oid [Huser [_ [_ [_ [[u1 [Hstored [Hid Hb]]] _]]]]]]].
  exists userId, u1. rewrite Huser.
  rewrite (getCurrentUser_stored _ userId u1 Hstored Hid). rewrite Hb.
  cbn [fst snd]. repeat (split; [first [reflexivity | assumption]|]).
  unfold normalizedBalance. destruct (isLegacyBalance b1).
  - rewrite lookup_insert_eq. reflexivity.
  - rewrite Hstored. cbn. rewrite Hb. reflexivity.
Qed.

Lemma X17_profile_after_credit_witness :
  let provider := providerOf (Failure 500 None)
                    (Success (orderOf ORDER_COMPLETED [captureOf COMPLETED "GBP" "5.00"])) in
  let req := requestFor (Js.Num 5000%float) (Js.Str "O1") None in
  let s1 := snd (run sandboxEnv provider 3 (recordPayPalPayment sandboxEnv req)
                     (storeWith 999%float [])) in
  exists (userId : string) (u1 : User.Doc),
    req_user req = Some userId
    /\ userStore s1 !! userId = Some u1
    /\ User.balance u1 = 1004%float
    /\ fst (getCurrentUserController (req_user req) (userStore s1))
       = Profile (payloadOf u1 (normalizedBalance 1004%float))
    /\ User.balance <$> (snd (getCurrentUserController (req_user req) (userStore s1)) !! userId)
       = Some (normalizedBalance 1004%float).
Proof.
  intros provider req s1.
  apply (X17_profile_after_credit sandboxEnv provider 3 req (storeWith 999%float []) s1
           1004%float).
  - apply storeWith_wellKeyed.
  - vm_compute. reflexivity.
Defined.

(* ===================================================================== *)
(** * The environment *)
(* ===================================================================== *)

Lemma find_first {A : Type} (f : A -> bool) (l : list A) (x : A) :
  List.find f l = Some x ->
  exists l1 l2, l = (l1 ++ x :: l2)%list /\ f x = true
                /\ forall y, In y l1 -> f y = false.
Proof.
  induction l as [|a l IH]; simpl; [discriminate|].
  destruct (f a) eqn:Hfa.
  - intros H. inversion H; subst. exists [], l. split; [reflexivity|].
    split; [exact Hfa|]. intros y [].
  - intros H. destruct (IH H) as [l1 [l2 [-> [Hx Hl1]]]].
    exists (a :: l1), l2. split; [reflexivity|]. split; [exact Hx|].
    intros y [<-|Hy]; [exact Hfa | exact (Hl1 y Hy)].
Qed.

(** X18.  The start-up check of the environment.  Loading fails exactly
    when one of the five required variables is absent or empty, and the
    error names the first such variable in the order MONGODB_URI,
    JWT_SECRET, FIREBASE_PROJECT_ID, FIREBASE_CLIENT_EMAIL,
    FIREBASE_PRIVATE_KEY.  The PayPal variables are not required: loading
    succeeds without them, with [node] defaulting to [development] when
    NODE_ENV is absent. *)
Theorem X18_required_variables_checked_in_order (processEnv : gmap string string) :
  match loadEnv processEnv with
  | inl message =>
      exists (earlier later : list string) (key : string),
        required = (earlier ++ key :: later)%list
        /\ truthy (processEnv !! key) = false
        /\ (forall k, In k earlier -> truthy (processEnv !! k) = true)
        /\ message = "Missing required environment variable: " ++ key
  | inr env =>
      (forall k, In k required -> truthy (processEnv !! k) = true)
      /\ node env = default "development" (processEnv !! "NODE_ENV")
      /\ paypalClientId env = processEnv !! "PAYPAL_CLIENT_ID"
      /\ paypalClientSecret env = processEnv !! "PAYPAL_CLIENT_SECRET"
  end.
Proof.
  unfold loadEnv.
  destruct (List.find (fun key => negb (truthy (processEnv !! key))) required) as [key|] eqn:Hfind.
  - destruct (find_first _ _ _ Hfind) as [earlier [later [Hsplit [Hkey Hearlier]]]].
    exists earlier, later, key. split; [exact Hsplit|].
    split; [apply negb_true_iff; exact Hkey|]. split; [|reflexivity].
    intros k Hk. apply negb_false_iff. exact (Hearlier k Hk).
  - split; [|repeat split].
    intros k Hk. apply negb_false_iff. exact (List.find_none _ _ Hfind k Hk).
Qed.

(** X19.  Which host and which mode a process environment selects.  The
    production host is used exactly when PAYPAL_USE_SANDBOX is the string
    [false] and both credentials are set and non-empty; any other value
    of the variable keeps the sandbox host.  The verification is skipped
    exactly when PAYPAL_SKIP_VERIFICATION is the string [true] and
    PAYPAL_USE_SANDBOX is not the string [false]. *)
Theorem X19_production_only_when_exactly_false (processEnv : gmap string string) (env : Env) :
  loadEnv processEnv = inr env ->
  (PAYPAL_BASE_URL env = "https://api.paypal.com" <->
   processEnv !! "PAYPAL_USE_SANDBOX" = Some "false"
   /\ truthy (processEnv !! "PAYPAL_CLIENT_ID") = true
   /\ truthy (processEnv !! "PAYPAL_CLIENT_SECRET") = true)
  /\ (PAYPAL_BASE_URL env <> "https://api.paypal.com" ->
      PAYPAL_BASE_URL env = "https://api.sandbox.paypal.com")
  /\ (paypalSkipVerification env && paypalUseSandbox env = true <->
      processEnv !! "PAYPAL_SKIP_VERIFICATION" = Some "true"
      /\ processEnv !! "PAYPAL_USE_SANDBOX" <> Some "false").
Proof.
  unfold loadEnv. destruct (List.find _ required); [discriminate|].
  intros H. inversion H; subst; clear H.
  unfold PAYPAL_BASE_URL.
  cbn [paypalClientId paypalClientSecret paypalUseSandbox paypalSkipVerification].
  destruct (truthy (processEnv !! "PAYPAL_CLIENT_ID"));
    destruct (truthy (processEnv !! "PAYPAL_CLIENT_SECRET")); cbn [andb];
    repeat case_bool_decide; cbn [negb andb];
    (split; [split; [intros E; first [discriminate E | tauto]
                    | intros [? [? ?]]; first [reflexivity | congruence]]|]);
    (split; [intros E; first [reflexivity | congruence]|]);
    (split; [intros E; first [discriminate E | tauto] | intros [? ?]; congruence]).
Qed.

Lemma X19_production_only_when_exactly_false_witness :
  paypalSkipVerification
    {| node := "development"; paypalClientId := Some "client"; paypalClientSecret := Some "secret";
       paypalUseSandbox := true; paypalSkipVerification := true |}
  && paypalUseSandbox
       {| node := "development"; paypalClientId := Some "client";
          paypalClientSecret := Some "secret";
          paypalUseSandbox := true; paypalSkipVerification := true |} = true <->
  processEnvWith [("PAYPAL_USE_SANDBOX", "FALSE"); ("PAYPAL_SKIP_VERIFICATION", "true");
                  ("PAYPAL_CLIENT_ID", "client"); ("PAYPAL_CLIENT_SECRET", "secret")]
    !! "PAYPAL_SKIP_VERIFICATION" = Some "true"
  /\ processEnvWith [("PAYPAL_USE_SANDBOX", "FALSE"); ("PAYPAL_SKIP_VERIFICATION", "true");
                     ("PAYPAL_CLIENT_ID", "client"); ("PAYPAL_CLIENT_SECRET", "secret")]
       !! "PAYPAL_USE_SANDBOX" <> Some "false".
Proof.
  refine (proj2 (proj2 (X19_production_only_when_exactly_false
                          (processEnvWith [("PAYPAL_USE_SANDBOX", "FALSE");
                                           ("PAYPAL_SKIP_VERIFICATION", "true");
                                           ("PAYPAL_CLIENT_ID", "client");
                                           ("PAYPAL_CLIENT_SECRET", "secret")]) _ _))).
  vm_compute. reflexivity.
Defined.

(* ===================================================================== *)
(** * The page of a listing *)
(* ===================================================================== *)

Lemma lt_le (x y : Js.number) : Js.lt x y = true -> Js.le x y = true.
Proof.
  unfold Js.lt, Js.le. rewrite FloatAxioms.ltb_spec, FloatAxioms.leb_spec.
  unfold SFltb, SFleb. destruct (SFcompare (Prim2SF x) (Prim2SF y)) as [[| |]|];
    first [discriminate | reflexivity].
Qed.

Lemma numberOr_number (x d : Js.number) :
  PrimFloat.is_nan d = false -> PrimFloat.is_nan (numberOr x d) = false.
Proof.
  intros Hd. unfold numberOr. cbn [Js.falsy].
  destruct (PrimFloat.is_zero x); cbn [orb]; [exact Hd|].
  destruct (PrimFloat.is_nan x) eqn:Hx; [exact Hd | exact Hx].
Qed.

Lemma Math_min_bounded (x : Js.number) :
  PrimFloat.is_nan x = false ->
  PrimFloat.is_nan (Math_min x 100%float) = false
  /\ Js.le (Math_min x 100%float) 100%float = true.
Proof.
  intros Hx. unfold Math_min. rewrite Hx.
  replace (PrimFloat.is_nan 100%float) with false by reflexivity. cbn [orb].
  destruct (PrimFloat.ltb x 100%float) eqn:Hlt.
  - split; [exact Hx | apply lt_le; exact Hlt].
  - destruct (PrimFloat.ltb 100%float x) eqn:Hgt.
    + split; reflexivity.
    + destruct (PrimFloat.is_zero x && PrimFloat.get_sign x).
      * split; [exact Hx|]. rewrite (le_negb_gt x 100%float Hx eq_refl).
        unfold Js.gt. rewrite Hgt. reflexivity.
      * split; reflexivity.
Qed.

(** X20.  The page of a listing.  The page size is always a number and
    never above 100; it is 50 when [limit] is absent, zero or not a
    number; any other number below 100 is taken as it is, so a negative
    or fractional page size passes.  The offset is always a number: 0
    when [skip] is absent, zero or not a number, and otherwise the number
    given, negative ones included. *)
Theorem X20_page_size_bounded_above_only (limit skip : Js.value) :
  PrimFloat.is_nan (safeLimit limit) = false
  /\ Js.le (safeLimit limit) 100%float = true
  /\ (Js.falsy (Js.Num (Js.Number (withDefault limit 50%float))) = true ->
      safeLimit limit = 50%float)
  /\ (Js.falsy (Js.Num (Js.Number (withDefault limit 50%float))) = false ->
      Js.lt (Js.Number (withDefault limit 50%float)) 100%float = true ->
      safeLimit limit = Js.Number (withDefault limit 50%float))
  /\ PrimFloat.is_nan (safeSkip skip) = false
  /\ (Js.falsy (Js.Num (Js.Number (withDefault skip 0%float))) = false ->
      safeSkip skip = Js.Number (withDefault skip 0%float)).
Proof.
  unfold safeLimit, safeSkip.
  pose proof (numberOr_number (Js.Number (withDefault limit 50%float)) 50%float eq_refl) as Hn.
  destruct (Math_min_bounded _ Hn) as [Hnan Hle].
  split; [exact Hnan|]. split; [exact Hle|]. split; [|split; [|split]].
  - intros Hf. unfold numberOr. rewrite Hf. reflexivity.
  - intros Hf Hlt. unfold numberOr. rewrite Hf. unfold Math_min.
    cbn [Js.falsy] in Hf. apply orb_false_iff in Hf as [_ Hx]. rewrite Hx.
    replace (PrimFloat.is_nan 100%float) with false by reflexivity. cbn [orb].
    unfold Js.lt in Hlt. rewrite Hlt. reflexivity.
  - apply numberOr_number. reflexivity.
  - intros Hf. unfold numberOr. rewrite Hf. reflexivity.
Qed.

Lemma X20_page_size_bounded_above_only_witness :
  safeLimit (Js.Str "-5") = Js.Number (withDefault (Js.Str "-5") 50%float).
Proof.
  refine (proj1 (proj2 (proj2 (proj2 (X20_page_size_bounded_above_only (Js.Str "-5")
                                        Js.Undefined)))) _ _); reflexivity.
Defined.

(* ===================================================================== *)
(** * A failure of the token exchange that reads like a missing order *)
(* ===================================================================== *)

Lemma getAccessToken_404 (env : Env) (provider : Provider) (fuel retryCount : nat) (w : World) :
  tokenNotFound provider ->
  cachedToken w = None ->
  credentialsConfigured env = true ->
  getAccessToken env provider fuel retryCount w = (Thrown token404Message, countFetch w).
Proof.
  unfold cachedToken, credentialsConfigured. intros H404 Hc Hcred.
  apply andb_prop in Hcred as [H1 H2].
  destruct fuel; cbn [getAccessToken];
    (destruct (accessTokenCache w) as [[t e]|];
     [destruct (now w <? e); [discriminate|]|]);
    rewrite H1, H2; cbn [negb orb]; rewrite H404;
    cbn [Nat.eqb isServiceUnavailable orb andb];
    destruct (retryCount <? maxRetries)%nat; reflexivity.
Qed.

(** X21.  The verifier takes any error of the order lookup whose message
    contains [404] for a missing order.  When the token endpoint answers
    404, no capture and no order is ever looked up (the only requests
    sent are token requests, one per lookup), yet the verifier throws the
    error that says the order, or both the capture and the order, were
    not found in PayPal. *)
Theorem X21_token_404_reported_as_missing_order (env : Env) (provider : Provider)
    (fuel : nat) (orderId : string) (expectedAmount : Js.number) (expectedCurrency : string)
    (captureId : option string) (w : World) :
  tokenNotFound provider ->
  cachedToken w = None ->
  credentialsConfigured env = true ->
  verifyPayPalPayment env provider fuel orderId expectedAmount expectedCurrency captureId w
  = if truthy captureId
    then (Thrown (bothNotFoundMessage (default "" captureId) orderId),
          countFetch (countFetch w))
    else (Thrown (orderNotFoundMessage orderId), countFetch w).
Proof.
  intros H404 Hc Hcred.
  assert (Horder : forall w0, cachedToken w0 = None ->
             verifyPayPalOrder env provider fuel orderId 0 w0
             = (Thrown token404Message, countFetch w0)).
  { intros w0 Hc0. apply verifyPayPalOrder_token_thrown.
    apply getAccessToken_404; assumption. }
  unfold verifyPayPalPayment, verifyViaOrder.
  destruct (truthy captureId) eqn:Hcid.
  - rewrite (verifyPayPalCapture_token_thrown env provider fuel _ 0 w (countFetch w)
               token404Message (getAccessToken_404 env provider fuel 0 w H404 Hc Hcred)).
    rewrite Horder by exact Hc. reflexivity.
  - rewrite Horder by exact Hc. reflexivity.
Qed.

Lemma X21_token_404_reported_as_missing_order_witness :
  verifyPayPalPayment sandboxEnv lostTokenEndpoint 3 "O1" 5%float "GBP" (Some "C1") freshWorld
  = (Thrown (bothNotFoundMessage "C1" "O1"), countFetch (countFetch freshWorld)).
Proof.
  apply (X21_token_404_reported_as_missing_order sandboxEnv lostTokenEndpoint 3 "O1" 5%float
           "GBP" (Some "C1") freshWorld).
  - intros n a b. reflexivity.
  - reflexivity.
  - reflexivity.
Defined.

(* ===================================================================== *)
(** * What two submissions in flight can do to the store *)
(* ===================================================================== *)

Section Confinement.

Variable env : Env.

Lemma creditBalance_confined (userId : string) (ok : Payment.Doc -> Prop) (u : User.Doc)
    (a : Js.number) :
  User.id u = userId -> confined (Some userId) ok (creditBalance u a).
Proof.
  intros Hid. unfold creditBalance. cbn [confined callAllowed User.id User.setBalance].
  split; [rewrite Hid; reflexivity|]. intros [|m] _; exact I.
Qed.

Lemma recordPayment_confined (userId : string) (u : User.Doc) (pa : Js.number)
    (cur oid : string) (cid : option string) (vr : VerificationResult) :
  User.id u = userId ->
  confined (Some userId) (paymentFor userId pa cur oid)
           (recordPayment env userId u pa cur oid cid vr).
Proof.
  intros Hid. unfold recordPayment. cbn [confined callAllowed]. split.
  - intros time. unfold paymentFor, paymentDocument. cbn. rewrite Hid. repeat split.
  - intros [|code m] _.
    + apply creditBalance_confined. exact Hid.
    + destruct (code =? 11000); [|exact I].
      unfold alreadyProcessed. cbn [confined callAllowed]. split; [reflexivity|].
      intros x _. exact I.
Qed.

Lemma checkExisting_confined (userId : string) (u : User.Doc) (pa : Js.number)
    (cur oid : string) (cid : option string) :
  User.id u = userId ->
  confined (Some userId) (paymentFor userId pa cur oid)
           (checkExisting env userId u pa cur oid cid).
Proof.
  intros Hid. unfold checkExisting. cbn [confined callAllowed]. split; [exact I|].
  intros [p|] _; [exact I|].
  unfold verifyAndRecord. destruct (_ && _).
  - apply recordPayment_confined. exact Hid.
  - cbn [confined callAllowed]. split; [exact I|].
    intros [vr|m|] _; try exact I.
    destruct (negb (verified vr)); [exact I|].
    apply recordPayment_confined. exact Hid.
Qed.

Lemma handler_confined (req : AuthenticatedRequest) :
  confined (req_user req) (paymentOf req) (recordPayPalPayment env req).
Proof.
  unfold recordPayPalPayment.
  destruct (req_user req) as [userId|] eqn:Huser; [|exact I].
  destruct (_ || _); [exact I|].
  destruct (acceptedOrderId (body_orderId (req_body req))) as [oid|] eqn:Hoid; [|exact I].
  apply acceptedOrderId_Some in Hoid as [Hoid _].
  assert (Hweaken : forall t,
             confined (Some userId)
                      (paymentFor userId (Js.Number (body_amount (req_body req)))
                                  (default "GBP" (body_currency (req_body req))) oid) t ->
             confined (Some userId) (paymentOf req) t).
  { induction t as [r|X op k IH]; [intros _; exact I|].
    cbn [confined]. intros [Hcall Hk]. split.
    - destruct op; cbn [callAllowed] in *; try assumption.
      intros time. exists userId, oid. repeat split; try assumption; apply Hcall.
    - intros x Hx. apply IH. apply Hk. exact Hx. }
  apply Hweaken.
  unfold loadUser. cbn [confined callAllowed answerPossible]. split; [reflexivity|].
  intros [u|] Hu; [|exact I]. specialize (Hu u eq_refl).
  unfold normalizeLoaded. destruct (Js.gt _ _).
  - cbn [confined callAllowed User.id User.setBalance]. split; [rewrite Hu; reflexivity|].
    intros [|m] _; [|exact I]. apply checkExisting_confined. exact Hu.
  - apply checkExisting_confined. exact Hu.
Qed.

End Confinement.

Section Evolution.

Variable env : Env.
Variable provider : Provider.
Variable fuel : nat.
Variable o1 o2 : option string.
Variable ok : Payment.Doc -> Prop.

Lemma evolved_refl (s : Sys) : wellKeyed (userStore s) -> evolved o1 o2 ok s s.
Proof.
  intros Hkeyed. split; [exact Hkeyed|]. split; [reflexivity|]. split; [reflexivity|].
  split; [intros k u u' H1 H2; rewrite H1 in H2; inversion H2; split; reflexivity|].
  exists []. split; [rewrite app_nil_r; reflexivity | constructor].
Qed.

Lemma evolved_trans (s s' s'' : Sys) :
  evolved o1 o2 ok s s' -> evolved o1 o2 ok s' s'' -> evolved o1 o2 ok s s''.
Proof.
  intros [_ [Hothers [Hdom [Hident [added [Hp Hok]]]]]]
         [Hkeyed' [Hothers' [Hdom' [Hident' [added' [Hp' Hok']]]]]].
  split; [exact Hkeyed'|]. split; [|split; [|split]].
  - intros k H1 H2. rewrite (Hothers' k H1 H2). apply Hothers; assumption.
  - intros k. rewrite (Hdom' k). apply Hdom.
  - intros k u u'' Hu Hu''.
    destruct (userStore s' !! k) as [u'|] eqn:Hu'.
    + destruct (Hident k u u' Hu Hu') as [Hn He].
      destruct (Hident' k u' u'' Hu' Hu'') as [Hn' He'].
      split; congruence.
    + apply Hdom in Hu'. congruence.
  - exists (added ++ added')%list. split.
    + rewrite Hp', Hp, <- app_assoc. reflexivity.
    + apply Forall_app. split; assumption.
Qed.

Lemma evolved_world (s : Sys) (w : World) :
  wellKeyed (userStore s) -> evolved o1 o2 ok s (setWorld w s).
Proof. intros Hkeyed. exact (evolved_refl s Hkeyed). Qed.

(** One call of a confined handler. *)
Lemma perform_evolved {X : Type} (owner : option string) (op : Op X) (s : Sys) :
  owner = o1 \/ owner = o2 ->
  wellKeyed (userStore s) ->
  callAllowed owner ok op ->
  answerPossible op (fst (perform env provider fuel op s))
  /\ evolved o1 o2 ok s (snd (perform env provider fuel op s)).
Proof.
  intros Howner Hkeyed Hcall. destruct op; cbn [perform answerPossible].
  - split; [|apply evolved_refl; exact Hkeyed].
    cbn [fst]. unfold User.findById. intros u0 Hu0. exact (Hkeyed _ _ Hu0).
  - cbn [callAllowed] in Hcall.
    destruct (User.save u (userStore s)) as [us|] eqn:Hsave; cbn [fst snd];
      (split; [exact I|]); [|apply evolved_refl; exact Hkeyed].
    destruct (wellKeyed_save u (userStore s) us Hkeyed Hsave)
      as [Hkeyed' [stored [Hstored ->]]].
    split; [exact Hkeyed'|]. cbn [userStore paymentStore setUsers].
    split; [|split; [|split]].
    + intros k H1 H2. apply lookup_insert_ne. intros E. subst k.
      destruct Howner; subst owner; [exact (H1 Hcall) | exact (H2 Hcall)].
    + intros k. destruct (decide (User.id u = k)) as [<-|Hne].
      * rewrite lookup_insert_eq, Hstored. split; discriminate.
      * rewrite lookup_insert_ne by exact Hne. reflexivity.
    + intros k v v' Hv Hv'. destruct (decide (User.id u = k)) as [<-|Hne].
      * rewrite lookup_insert_eq in Hv'. rewrite Hstored in Hv.
        inversion Hv; inversion Hv'; subst. split; reflexivity.
      * rewrite lookup_insert_ne in Hv' by exact Hne. rewrite Hv in Hv'.
        inversion Hv'. split; reflexivity.
    + exists []. split; [rewrite app_nil_r; reflexivity | constructor].
  - split; [exact I | apply evolved_refl; exact Hkeyed].
  - cbn [callAllowed] in Hcall. unfold Payment.create.
    destruct (List.existsb _ _); cbn [fst snd];
      (split; [exact I|]); [apply evolved_refl; exact Hkeyed|].
    split; [exact Hkeyed|]. cbn [userStore paymentStore setPayments].
    split; [reflexivity|]. split; [reflexivity|].
    split; [intros k v v' H1 H2; rewrite H1 in H2; inversion H2; split; reflexivity|].
    eexists. split; [reflexivity|]. constructor; [apply Hcall | constructor].
  - destruct (verifyPayPalPayment _ _ _ _ _ _ _ _) as [o w]. cbn [fst snd].
    split; [exact I | apply evolved_world; exact Hkeyed].
Qed.

Lemma step_evolved (owner : option string) (t : Task Reply) (s : Sys) :
  owner = o1 \/ owner = o2 ->
  wellKeyed (userStore s) ->
  confined owner ok t ->
  confined owner ok (fst (step env provider fuel t s))
  /\ evolved o1 o2 ok s (snd (step env provider fuel t s)).
Proof.
  intros Howner Hkeyed Hconf. destruct t as [r|X op k]; cbn [step].
  - split; [exact I | apply evolved_refl; exact Hkeyed].
  - cbn [confined] in Hconf. destruct Hconf as [Hcall Hk].
    destruct (perform_evolved owner op s Howner Hkeyed Hcall) as [Hx Hev].
    destruct (perform env provider fuel op s) as [x s']. cbn [fst snd] in *.
    split; [apply Hk; exact Hx | exact Hev].
Qed.

Lemma interleave_evolved (schedule : list bool) (t1 t2 : Task Reply) (s : Sys) :
  wellKeyed (userStore s) ->
  confined o1 ok t1 -> confined o2 ok t2 ->
  evolved o1 o2 ok s (snd (interleave env provider fuel schedule t1 t2 s)).
Proof.
  revert t1 t2 s. induction schedule as [|[|] schedule IH]; intros t1 t2 s Hkeyed H1 H2;
    cbn [interleave].
  - apply evolved_refl. exact Hkeyed.
  - destruct (step_evolved o1 t1 s (or_introl eq_refl) Hkeyed H1) as [H1' Hev].
    destruct (step env provider fuel t1 s) as [t1' s']. cbn [fst snd] in *.
    apply (evolved_trans s s'); [exact Hev|]. apply IH; [apply Hev | exact H1' | exact H2].
  - destruct (step_evolved o2 t2 s (or_intror eq_refl) Hkeyed H2) as [H2' Hev].
    destruct (step env provider fuel t2 s) as [t2' s']. cbn [fst snd] in *.
    apply (evolved_trans s s'); [exact Hev|]. apply IH; [apply Hev | exact H1 | exact H2'].
Qed.

End Evolution.

Lemma confined_weaken (owner : option string) (ok ok' : Payment.Doc -> Prop) (t : Task Reply) :
  (forall p, ok p -> ok' p) -> confined owner ok t -> confined owner ok' t.
Proof.
  intros Himp. induction t as [r|X op k IH]; [intros _; exact I|].
  cbn [confined]. intros [Hcall Hk]. split.
  - destruct op; cbn [callAllowed] in *; try assumption.
    intros time. apply Himp. apply Hcall.
  - intros x Hx. apply IH. apply Hk. exact Hx.
Qed.

(** X22.  What two submissions in flight can do to the store, under
    every interleaving of their steps and whatever the provider answers:
    no user is added or removed; name and email of every user stay; the
    balance of a user other than the two requesters is untouched; no
    stored payment is changed or removed; and every payment appended is
    a completed PayPal payment of one of the two requests, carrying the
    requester as user and the submitted amount, currency and order id. *)
Theorem X22_concurrent_submissions_stay_confined (env : Env) (provider : Provider)
    (fuel : nat) (req1 req2 : AuthenticatedRequest) (schedule : list bool) (s : Sys) :
  wellKeyed (userStore s) ->
  evolved (req_user req1) (req_user req2) (fun p => paymentOf req1 p \/ paymentOf req2 p) s
          (snd (interleave env provider fuel schedule
                  (recordPayPalPayment env req1) (recordPayPalPayment env req2) s)).
Proof.
  intros Hkeyed. apply interleave_evolved; [exact Hkeyed| |].
  - apply (confined_weaken _ (paymentOf req1)); [intros p Hp; left; exact Hp|].
    apply handler_confined.
  - apply (confined_weaken _ (paymentOf req2)); [intros p Hp; right; exact Hp|].
    apply handler_confined.
Qed.

Lemma X22_concurrent_submissions_stay_confined_witness :
  evolved (Some "u1") (Some "u2")
          (fun p => paymentOf (requestOf "u1" (Js.Num 5000%float) "O1") p
                    \/ paymentOf (requestOf "u2" (Js.Num 7000%float) "O2") p)
          sharedStore
          (snd (interleave sandboxEnv
                  (providerOf (Failure 500 None)
                     (Success (orderOf ORDER_COMPLETED [captureOf COMPLETED "GBP" "5.00"])))
                  3 alternating
                  (recordPayPalPayment sandboxEnv (requestOf "u1" (Js.Num 5000%float) "O1"))
                  (recordPayPalPayment sandboxEnv (requestOf "u2" (Js.Num 7000%float) "O2"))
                  sharedStore)).
Proof.
  apply (X22_concurrent_submissions_stay_confined sandboxEnv
           (providerOf (Failure 500 None)
              (Success (orderOf ORDER_COMPLETED [captureOf COMPLETED "GBP" "5.00"])))
           3 (requestOf "u1" (Js.Num 5000%float) "O1")
           (requestOf "u2" (Js.Num 7000%float) "O2") alternating sharedStore).
  intros k d. unfold sharedStore. cbn [userStore].
  rewrite lookup_insert_Some, lookup_singleton_Some.
  intros [[<- <-]|[_ [<- <-]]]; reflexivity.
Defined.

(** X23.  The [verified] flag stored with a payment is the negation of
    the skip flag, not the outcome of the verification.  The payment a
    credited submission appends carries [verified = !paypalSkipVerification],
    [verificationSkipped = paypalSkipVerification && paypalUseSandbox]
    and [sandbox = paypalUseSandbox].  So with the skip flag set outside
    a sandbox the verifier did return a verified result, and the payment
    is stored as neither verified nor skipped. *)
Theorem X23_verified_flag_is_not_the_outcome (env : Env) (provider : Provider) (fuel : nat)
    (req : AuthenticatedRequest) (s s1 : Sys) (b : Js.number) :
  wellKeyed (userStore s) ->
  run env provider fuel (recordPayPalPayment env req) s = (creditedReply b, s1) ->
  exists (p : Payment.Doc) (m : Payment.Metadata),
    paymentStore s1 = (paymentStore s ++ [p])%list
    /\ Payment.metadata p = Some m
    /\ Payment.verified m = negb (paypalSkipVerification env)
    /\ Payment.verificationSkipped m = paypalSkipVerification env && paypalUseSandbox env
    /\ Payment.sandbox m = paypalUseSandbox env
    /\ (paypalSkipVerification env = true -> paypalUseSandbox env = false ->
        Payment.verified m = false /\ Payment.verificationSkipped m = false
        /\ exists (orderId : string) (vr : VerificationResult),
             body_orderId (req_body req) = Js.Str orderId
             /\ verifyPayPalPayment env provider fuel orderId
                  (amountInPounds (Js.Number (body_amount (req_body req))))
                  (default "GBP" (body_currency (req_body req)))
                  (body_captureId (req_body req)) (world s)
                = (Returned vr, world s1)
             /\ verified vr = true).
Proof.
  intros Hkeyed Hrun.
  destruct (run_submission_cases env provider fuel req s s1 _ Hkeyed Hrun)
    as [Hcredited|[Hnot _]]; [|exfalso; exact (Hnot b eq_refl)].
  destruct Hcredited as [userId [u [oid [vr [_ [_ [_ [Hoid [_ [Hback [_ [_ Hp]]]]]]]]]]]].
  eexists _, _. split; [exact Hp|]. cbn [Payment.metadata paymentDocument].
  split; [reflexivity|]. cbn [Payment.verified Payment.verificationSkipped Payment.sandbox].
  split; [reflexivity|]. split; [reflexivity|]. split; [reflexivity|].
  intros Hskip Hprod. rewrite Hskip, Hprod. split; [reflexivity|]. split; [reflexivity|].
  unfold creditBackedBy in Hback. rewrite Hskip, Hprod in Hback. cbn [andb] in Hback.
  exists oid, vr. split; [exact Hoid | exact Hback].
Qed.

Lemma X23_verified_flag_is_not_the_outcome_witness :
  let provider := providerOf (Failure 500 None)
                    (Success (orderOf ORDER_COMPLETED [captureOf COMPLETED "GBP" "5.00"])) in
  let req := requestFor (Js.Num 5000%float) (Js.Str "O1") None in
  let s1 := snd (run productionEnvWithSkip provider 3
                     (recordPayPalPayment productionEnvWithSkip req) (storeWith 10%float [])) in
  exists (p : Payment.Doc) (m : Payment.Metadata),
    paymentStore s1 = (paymentStore (storeWith 10%float []) ++ [p])%list
    /\ Payment.metadata p = Some m
    /\ Payment.verified m = negb (paypalSkipVerification productionEnvWithSkip)
    /\ Payment.verificationSkipped m
       = paypalSkipVerification productionEnvWithSkip && paypalUseSandbox productionEnvWithSkip
    /\ Payment.sandbox m = paypalUseSandbox productionEnvWithSkip
    /\ (paypalSkipVerification productionEnvWithSkip = true ->
        paypalUseSandbox productionEnvWithSkip = false ->
        Payment.verified m = false /\ Payment.verificationSkipped m = false
        /\ exists (orderId : string) (vr : VerificationResult),
             body_orderId (req_body req) = Js.Str orderId
             /\ verifyPayPalPayment productionEnvWithSkip provider 3 orderId
                  (amountInPounds (Js.Number (body_amount (req_body req))))
                  (default "GBP" (body_currency (req_body req)))
                  (body_captureId (req_body req)) (world (storeWith 10%float []))
                = (Returned vr, world s1)
             /\ verified vr = true).
Proof.
  intros provider req s1.
  apply (X23_verified_flag_is_not_the_outcome productionEnvWithSkip provider 3 req
           (storeWith 10%float []) s1 15%float).
  - apply storeWith_wellKeyed.
  - vm_compute. reflexivity.
Defined.
